(** * Algorand carbon bridge: the orchestrator, the verification engine and
      the helpers they rest on, as Rocq definitions, with the properties of
      the design document stated and settled over them.

    The definitions follow the sources in the order of their dependencies:
    the enums of [types.ts], the arithmetic of bignumber.js, [utils.ts], the
    records of [types.ts], the event emitter of [events.ts], then the chain
    handlers ([chains/algorand/index.ts], [chains/ethereum/index.ts]), the
    verification engine ([verification.ts]) and the bridge class
    ([bridge.ts]), a method after the methods it calls.  The theorems follow
    the definitions.

    Conventions.  A JavaScript [throw] is the [Thrown] outcome; an [async]
    function whose promise rejects is [Thrown] as well.  An [async] function
    is run to its end where it is called: the interleaving of two listeners
    at their [await]s is not modelled.  Calls that leave the process (chain
    nodes, verifier endpoints, the signing libraries) are fields of the
    records [Libraries] and [Outside]: the definitions say what the code does
    with every possible answer.  A transaction in the ledger is a value; the
    one place where the code changes an object it has stored
    ([handleTimeoutEvent]) stores the changed object at once.

    A second part of the definitions adds what the design document's
    properties did not need: the gas price helper of [utils.ts],
    [offBridgeEvent], sequences of operations on a bridge, [config.ts] with
    the constructor's configuration, and [processBurnEvent]; a second part of
    the theorems states what that code and the code above are seen to do. *)

From Stdlib Require Import ZArith QArith Qround Qabs Qpower Qfield Lia Lqa Bool String List.
From stdpp Require Import base option gmap strings.
Import ListNotations.

Local Open Scope string_scope.
Local Open Scope Z_scope.

(** ** Outcomes of a call: a value, or an exception with its message *)

Inductive Outcome (A : Type) : Type :=
| Returned (a : A)
| Thrown (message : string).
Arguments Returned {A} a.
Arguments Thrown {A} message.

(** Sequencing stops at the first exception ([x ← c; k] below). *)
#[global] Instance Outcome_ret : MRet Outcome := fun _ a => Returned a.
#[global] Instance Outcome_bind : MBind Outcome := fun _ _ k o =>
  match o with
  | Returned a => k a
  | Thrown m => Thrown m
  end.

(** [try { body } catch (error) { handler(error.message) }] *)
Definition catchO {A} (body : Outcome A) (handler : string -> Outcome A) : Outcome A :=
  match body with
  | Returned a => Returned a
  | Thrown m => handler m
  end.

(** [error.message || "Unknown error"]: the empty string is falsy. *)
Definition message_or_unknown (m : string) : string :=
  if String.eqb m "" then "Unknown error" else m.

(** ** types.ts *)

Inductive ChainType := ALGORAND | ETHEREUM.

Inductive BridgeStatus := PENDING | LOCKED | MINTED | BURNED | RELEASED | FAILED.

Inductive BridgeDirection := ALGORAND_TO_TARGET | TARGET_TO_ALGORAND.

Inductive BridgeEventType :=
| EV_LOCK | EV_MINT | EV_BURN | EV_RELEASE | EV_ERROR | EV_TIMEOUT | EV_VERIFICATION.

#[global] Instance ChainType_eq_dec : EqDecision ChainType.
Proof. solve_decision. Defined.
#[global] Instance BridgeStatus_eq_dec : EqDecision BridgeStatus.
Proof. solve_decision. Defined.
#[global] Instance BridgeEventType_eq_dec : EqDecision BridgeEventType.
Proof. solve_decision. Defined.

(** The string value of each enum member, as declared. *)
Definition ChainType_value (c : ChainType) : string :=
  match c with ALGORAND => "algorand" | ETHEREUM => "ethereum" end.

Definition BridgeEventType_value (t : BridgeEventType) : string :=
  match t with
  | EV_LOCK => "lock" | EV_MINT => "mint" | EV_BURN => "burn"
  | EV_RELEASE => "release" | EV_ERROR => "error" | EV_TIMEOUT => "timeout"
  | EV_VERIFICATION => "verification"
  end.

(** ** bignumber.js values

    A BigNumber is NaN, an infinity, or a sign with a finite magnitude (the
    library keeps a sign on zero too).  The arithmetic below is the library's
    in its default configuration: [DECIMAL_PLACES = 20],
    [ROUNDING_MODE = ROUND_HALF_UP], [POW_PRECISION = 0].  Its exponent range
    (1e9 either way) is not part of the model. *)

Inductive BigNumber :=
| BN_NaN
| BN_Inf (neg : bool)
| BN_Fin (neg : bool) (mag : Q).

Definition DECIMAL_PLACES : Z := 20.

Definition bn_isNaN (x : BigNumber) : bool :=
  match x with BN_NaN => true | _ => false end.

Definition bn_isFinite (x : BigNumber) : bool :=
  match x with BN_Fin _ _ => true | _ => false end.

(** [isPositive] is [this.s > 0]: true of +0, false of -0 and of NaN. *)
Definition bn_isPositive (x : BigNumber) : bool :=
  match x with
  | BN_NaN => false
  | BN_Inf neg => negb neg
  | BN_Fin neg _ => negb neg
  end.

Definition bn_isZero (x : BigNumber) : bool :=
  match x with BN_Fin _ m => Qeq_bool m 0 | _ => false end.


(** Rounding of a magnitude to [DECIMAL_PLACES] places, half away from zero. *)
Definition round_dp (m : Q) : Q :=
  inject_Z (Qfloor (m * inject_Z (10 ^ DECIMAL_PLACES) + (1 # 2)))
  / inject_Z (10 ^ DECIMAL_PLACES).

Definition bn_times (x y : BigNumber) : BigNumber :=
  match x, y with
  | BN_NaN, _ | _, BN_NaN => BN_NaN
  | BN_Inf s1, BN_Inf s2 => BN_Inf (xorb s1 s2)
  | BN_Inf s1, BN_Fin s2 m | BN_Fin s2 m, BN_Inf s1 =>
      if Qeq_bool m 0 then BN_NaN else BN_Inf (xorb s1 s2)
  | BN_Fin s1 m1, BN_Fin s2 m2 => BN_Fin (xorb s1 s2) (m1 * m2)
  end.

Definition bn_div (x y : BigNumber) : BigNumber :=
  match x, y with
  | BN_NaN, _ | _, BN_NaN => BN_NaN
  | BN_Inf _, BN_Inf _ => BN_NaN
  | BN_Inf s1, BN_Fin s2 _ => BN_Inf (xorb s1 s2)
  | BN_Fin s1 _, BN_Inf s2 => BN_Fin (xorb s1 s2) 0
  | BN_Fin s1 m1, BN_Fin s2 m2 =>
      if Qeq_bool m2 0 then
        if Qeq_bool m1 0 then BN_NaN else BN_Inf (xorb s1 s2)
      else BN_Fin (xorb s1 s2) (round_dp (m1 / m2))
  end.

(** [x.pow(n)] for an integer [n]; a negative exponent is [1 / x.pow(-n)]. *)
Definition bn_pow_nonneg (x : BigNumber) (n : Z) : BigNumber :=
  match x with
  | BN_NaN => BN_NaN
  | BN_Inf s => if n =? 0 then BN_Fin false 1 else BN_Inf (s && Z.odd n)
  | BN_Fin s m => BN_Fin (s && Z.odd n) (Qpower m n)
  end.

Definition bn_pow (x : BigNumber) (n : Z) : BigNumber :=
  if n <? 0 then bn_div (BN_Fin false 1) (bn_pow_nonneg x (- n))
  else bn_pow_nonneg x n.

Definition bn_of_Z (z : Z) : BigNumber :=
  BN_Fin (z <? 0) (inject_Z (Z.abs z)).

(** ** utils.ts: convertAmount

    [amount] is the value [new BigNumber(amount)] builds; the decimal counts
    are integers, so [pow] raises no BigNumber error and the [catch] of the
    function has only its own [Error] to rethrow. *)

Definition convertAmount (amount : BigNumber) (fromDecimals toDecimals : Z)
  : Outcome BigNumber :=
  if (fromDecimals <? 0) || (toDecimals <? 0) then
    Thrown "Decimal values must be non-negative"
  else
    let value := amount in
    if negb (bn_isFinite value) || bn_isNaN value then
      Thrown "Invalid amount value"
    else if fromDecimals =? toDecimals then
      Returned value
    else
      let decimalDifference := toDecimals - fromDecimals in
      let factor := bn_pow (bn_of_Z 10) (Z.abs decimalDifference) in
      if 0 <? decimalDifference then Returned (bn_times value factor)
      else Returned (bn_div value factor).

(** ** JavaScript values that cross the module boundaries

    A [number] is NaN, an infinity or a rational (the rounding of IEEE
    doubles is not modelled); [JsValue] is what an [any]-typed argument or a
    parsed JSON body can be. *)

Inductive number :=
| JsNaN
| JsInf (neg : bool)
| JsNum (q : Q).

Definition num_isNaN (n : number) : bool :=
  match n with JsNaN => true | _ => false end.

(** [a <= b], [a > b] and [a - b] on numbers; every comparison with NaN is false. *)
Definition num_le (a b : number) : bool :=
  match a, b with
  | JsNaN, _ | _, JsNaN => false
  | JsInf true, _ => true
  | _, JsInf false => true
  | JsInf false, _ => false
  | _, JsInf true => false
  | JsNum x, JsNum y => Qle_bool x y
  end.

Definition num_gt (a b : number) : bool :=
  match a, b with
  | JsNaN, _ | _, JsNaN => false
  | _, _ => negb (num_le a b)
  end.

Definition num_add (a b : number) : number :=
  match a, b with
  | JsNaN, _ | _, JsNaN => JsNaN
  | JsInf s1, JsInf s2 => if Bool.eqb s1 s2 then JsInf s1 else JsNaN
  | JsInf s, _ | _, JsInf s => JsInf s
  | JsNum x, JsNum y => JsNum (x + y)
  end.

Definition num_neg (a : number) : number :=
  match a with
  | JsNaN => JsNaN
  | JsInf s => JsInf (negb s)
  | JsNum x => JsNum (- x)
  end.

Definition num_sub (a b : number) : number := num_add a (num_neg b).

Definition num_of_Z (z : Z) : number := JsNum (inject_Z z).

#[warnings="-register-all"]
Inductive JsValue :=
| JUndefined
| JNull
| JBool (b : bool)
| JNumber (n : number)
| JString (s : string)
| JArray (items : list JsValue)
| JObject (fields : list (string * JsValue)).

Inductive JsType := TUndefined | TObject | TBoolean | TNumber | TString.

Definition typeof (v : JsValue) : JsType :=
  match v with
  | JUndefined => TUndefined
  | JNull | JArray _ | JObject _ => TObject
  | JBool _ => TBoolean
  | JNumber _ => TNumber
  | JString _ => TString
  end.

Definition JsType_eqb (a b : JsType) : bool :=
  match a, b with
  | TUndefined, TUndefined | TObject, TObject | TBoolean, TBoolean
  | TNumber, TNumber | TString, TString => true
  | _, _ => false
  end.

(** Truthiness: what [!v] negates. *)
Definition truthy (v : JsValue) : bool :=
  match v with
  | JUndefined | JNull => false
  | JBool b => b
  | JNumber JsNaN => false
  | JNumber (JsInf _) => true
  | JNumber (JsNum q) => negb (Qeq_bool q 0)
  | JString s => negb (String.eqb s "")
  | JArray _ | JObject _ => true
  end.

Fixpoint lookup_field (fields : list (string * JsValue)) (key : string) : option JsValue :=
  match fields with
  | [] => None
  | (k, v) :: rest => if String.eqb k key then Some v else lookup_field rest key
  end.

(** [key in v] for an object [v] (a key of a parsed object, each key once). *)
Definition has_property (v : JsValue) (key : string) : bool :=
  match v with
  | JObject fields =>
      match lookup_field fields key with Some _ => true | None => false end
  | _ => false
  end.

(** [v.key] where [v] is not null or undefined; a missing property reads as
    [undefined]. *)
Definition get_property (v : JsValue) (key : string) : JsValue :=
  match v with
  | JObject fields => default JUndefined (lookup_field fields key)
  | _ => JUndefined
  end.

(** ** The libraries the code calls: hashing, number printing and parsing,
    address checks and the two signature schemes *)

Record Libraries := {
  (** [createHash('sha256').update(s).digest('hex')] *)
  sha256_hex : string -> string;
  (** [BigNumber.prototype.toString] and [Number.prototype.toString] *)
  bn_toString : BigNumber -> string;
  number_toString : number -> string;
  (** [new BigNumber(s)] on a string *)
  bn_parse : string -> BigNumber;
  (** [algosdk.isValidAddress], [ethers.isAddress], [ethers.getAddress] *)
  algosdk_isValidAddress : string -> bool;
  ethers_isAddress : string -> bool;
  ethers_getAddress : string -> string;
  (** Signing over a message with a key, per chain family; a library call
      may throw. *)
  algorand_sign : string -> string -> Outcome string;
  algorand_verify : string -> string -> string -> Outcome bool;
  ethereum_sign : string -> string -> Outcome string;
  ethereum_recover : string -> string -> Outcome string;
  (** [s.toLowerCase()] *)
  toLowerCase : string -> string
}.

(** ** utils.ts *)

Definition formatAlgorandAddress (lib : Libraries) (address : string) : Outcome string :=
  if algosdk_isValidAddress lib address then Returned address
  else Thrown "Invalid Algorand address format".

Definition formatEthereumAddress (lib : Libraries) (address : string) : Outcome string :=
  if ethers_isAddress lib address then Returned (ethers_getAddress lib address)
  else Thrown "Invalid Ethereum address format".

Definition formatAddress (lib : Libraries) (address : string) (chainType : ChainType)
  : Outcome string :=
  catchO
    (match chainType with
     | ALGORAND => formatAlgorandAddress lib address
     | ETHEREUM => formatEthereumAddress lib address
     end)
    (fun message =>
       Thrown ("Address formatting error for " ++ ChainType_value chainType
               ++ ": " ++ message)%string).

(** The hash object is fed the six strings one after the other, so the digest
    is taken over their concatenation. *)
Definition createTransactionHash (lib : Libraries)
    (sourceChain targetChain : ChainType) (sender receiver amount : string)
    (nonce : number) : string :=
  sha256_hex lib
    (ChainType_value sourceChain ++ ChainType_value targetChain ++ sender
     ++ receiver ++ amount ++ number_toString lib nonce)%string.

(** [now] is the reading of [Date.now()]. *)
Definition isTransactionTimedOut (now : Z) (timestamp timeoutMs : number) : Outcome bool :=
  if num_isNaN timestamp || num_le timestamp (num_of_Z 0) then
    Thrown "Invalid transaction timestamp"
  else if num_isNaN timeoutMs || num_le timeoutMs (num_of_Z 0) then
    Thrown "Invalid timeout value"
  else if num_gt timestamp (num_add (num_of_Z now) (num_of_Z 300000)) then
    Returned false
  else
    Returned (num_gt (num_sub (num_of_Z now) timestamp) timeoutMs).

(** Returns the error message, or [None] for the source's [null]. *)
Definition validateCarbonMetadata (metadata : JsValue) : option string :=
  if negb (truthy metadata) then Some "Metadata is required"
  else if negb (truthy (get_property metadata "projectId")) then
    Some "Project ID is required"
  else if negb (truthy (get_property metadata "vintage"))
          || negb (JsType_eqb (typeof (get_property metadata "vintage")) TNumber) then
    Some "Valid vintage year is required"
  else if negb (truthy (get_property metadata "standard")) then
    Some "Carbon standard is required"
  else if negb (truthy (get_property metadata "serialNumber")) then
    Some "Serial number is required"
  else None.

(** ** types.ts: records *)

Record BridgeTransaction := {
  tx_id : string;
  tx_sourceChain : ChainType;
  tx_targetChain : ChainType;
  tx_sourceAssetId : string;
  tx_targetAssetId : string;
  tx_amount : BigNumber;
  tx_sender : string;
  tx_receiver : string;
  tx_status : BridgeStatus;
  tx_sourceTransactionId : option string;
  tx_targetTransactionId : option string;
  tx_timestamp : number;
  tx_nonce : number
}.

(** [{ ...tx, status }] *)
Definition with_status (tx : BridgeTransaction) (s : BridgeStatus) : BridgeTransaction :=
  {| tx_id := tx_id tx; tx_sourceChain := tx_sourceChain tx;
     tx_targetChain := tx_targetChain tx; tx_sourceAssetId := tx_sourceAssetId tx;
     tx_targetAssetId := tx_targetAssetId tx; tx_amount := tx_amount tx;
     tx_sender := tx_sender tx; tx_receiver := tx_receiver tx; tx_status := s;
     tx_sourceTransactionId := tx_sourceTransactionId tx;
     tx_targetTransactionId := tx_targetTransactionId tx;
     tx_timestamp := tx_timestamp tx; tx_nonce := tx_nonce tx |}.

(** [{ ...tx, status, targetTransactionId }] *)
Definition with_status_and_target (tx : BridgeTransaction) (s : BridgeStatus)
    (target : string) : BridgeTransaction :=
  {| tx_id := tx_id tx; tx_sourceChain := tx_sourceChain tx;
     tx_targetChain := tx_targetChain tx; tx_sourceAssetId := tx_sourceAssetId tx;
     tx_targetAssetId := tx_targetAssetId tx; tx_amount := tx_amount tx;
     tx_sender := tx_sender tx; tx_receiver := tx_receiver tx; tx_status := s;
     tx_sourceTransactionId := tx_sourceTransactionId tx;
     tx_targetTransactionId := Some target;
     tx_timestamp := tx_timestamp tx; tx_nonce := tx_nonce tx |}.

(** [{ ...old, ...new }]: every property [new] has wins; an optional
    property [new] lacks keeps the value of [old]. *)
Definition spread_merge (old new : BridgeTransaction) : BridgeTransaction :=
  {| tx_id := tx_id new; tx_sourceChain := tx_sourceChain new;
     tx_targetChain := tx_targetChain new; tx_sourceAssetId := tx_sourceAssetId new;
     tx_targetAssetId := tx_targetAssetId new; tx_amount := tx_amount new;
     tx_sender := tx_sender new; tx_receiver := tx_receiver new;
     tx_status := tx_status new;
     tx_sourceTransactionId :=
       match tx_sourceTransactionId new with
       | Some i => Some i
       | None => tx_sourceTransactionId old
       end;
     tx_targetTransactionId :=
       match tx_targetTransactionId new with
       | Some i => Some i
       | None => tx_targetTransactionId old
       end;
     tx_timestamp := tx_timestamp new; tx_nonce := tx_nonce new |}.

Record BridgeConfig := {
  algorand_bridgeAccount : option string;   (* the account's [addr] *)
  algorand_escrowAppId : Z;
  algorand_carbonAssetId : Z;
  targetChain_chainType : ChainType;
  targetChain_bridgeContractAddress : string;
  targetChain_tokenContractAddress : string;
  verifiers : list string;
  minVerifierSignatures : number
}.

Record BridgeResult := {
  success : bool;
  transactionId : string;
  bridgeId : string;
  res_status : BridgeStatus;
  res_error : option string;
  receipt : option JsValue
}.

Record VerificationResult := {
  isValid : bool;
  signatures : list string;
  vr_timestamp : Z;
  vr_error : option string
}.

(** The [details] argument of [emitBridgeEvent], by the shapes the code
    passes. *)
Inductive EventDetails :=
| NoDetails
| ErrorDetails (error : string)
| VerificationFailedDetails (details : option string)
| OperationErrorDetails (error operation : string)
| VerificationDetails (valid : bool) (sigs : list string) (time : Z)
| ReceiptDetails (payload : JsValue).

Record BridgeEvent := {
  ev_type : BridgeEventType;
  ev_transaction : BridgeTransaction;
  ev_timestamp : Z;
  ev_details : EventDetails
}.

(** ** What the outside answers

    One record for everything a run reads from outside the process: the
    clock, the random ids, the chain nodes, the verifier endpoints. *)

Inductive FetchOutcome :=
| FetchRejected (aborted : bool)                       (* [fetch] threw *)
| FetchResponse (ok : bool) (httpStatus : Z) (body : option JsValue).
    (* [body = None]: [response.json()] threw *)

Inductive ContractCallOutcome :=
| CallConfirmed (hash : string) (callReceipt : JsValue)
| CallInsufficientFunds (message : string)             (* [error.code === 'INSUFFICIENT_FUNDS'] *)
| CallFailed (message : string).

Record Outside := {
  clock : Z;                                           (* [Date.now()] *)
  bridgeIds : nat -> string;                           (* successive [generateBridgeId()] *)
  (** Algorand node and SDK *)
  algod_getTransactionParams : Outcome number;         (* [suggestedParams.firstRound] *)
  algosdk_buildLockGroup : string -> string -> string -> number -> Outcome JsValue;
  algosdk_buildRelease : string -> string -> number -> Outcome string;
  algod_sendRawTransaction : string -> Outcome (string * JsValue);
  indexer_applicationLogs : Outcome (list (list string));
  (** Target chain *)
  ethereum_wallet : option string;                     (* the wallet's address *)
  ethers_BigNumber : string -> Outcome BigNumber;
  ethers_parseEther : string -> Outcome string;
  contract_mint : string -> string -> string -> string -> ContractCallOutcome;
  contract_encodeBurn : string -> string -> string -> Outcome JsValue;
  contract_getBridgeStatus : string -> Outcome number;
  (** Proof of the source transaction on its chain, past the guard on
      [sourceTransactionId] *)
  algorandProof : BridgeTransaction -> bool;
  targetChainProof : BridgeTransaction -> bool;
  (** [fetch(url, { body: JSON.stringify({ transactionHash }) })] *)
  fetch : string -> string -> FetchOutcome;
  (** [amount.toNumber()] *)
  bn_toNumber : BigNumber -> number;
  base64_decode : string -> string;
  (** [process.env.NODE_ENV === 'development'] and [error.stack] *)
  developmentMode : bool;
  error_stack : string -> string
}.

(** ** The state of a running bridge *)

Inductive Channel := OnType (t : BridgeEventType) | OnAny.

Inductive AdapterCall :=
| LockCall (sender receiver : string) (amount : number) (metadata : JsValue)
| ReleaseCall (id receiver : string) (amount : number)
| MintCall (id receiver amount sourceTransactionId : string)
| BurnCall (sender receiver amount : string).

Record World := {
  transactions : gmap string BridgeTransaction;   (* [this.transactions] *)
  subscriptions : list (Channel * nat);           (* listeners added through [on] *)
  emitted : list BridgeEvent;                     (* calls of [emitBridgeEvent], oldest first *)
  adapterCalls : list AdapterCall;                (* chain-handler operations entered *)
  idsDrawn : nat
}.

Definition set_transactions (f : gmap string BridgeTransaction -> gmap string BridgeTransaction)
    (w : World) : World :=
  {| transactions := f (transactions w); subscriptions := subscriptions w;
     emitted := emitted w; adapterCalls := adapterCalls w; idsDrawn := idsDrawn w |}.

(** A computation reads and updates the world and returns or throws; what it
    did before throwing stays done. *)
Definition Run (A : Type) : Type := World -> Outcome A * World.

#[global] Instance Run_ret : MRet Run := fun _ a w => (Returned a, w).
#[global] Instance Run_bind : MBind Run := fun _ _ k c w =>
  match c w with
  | (Returned a, w') => k a w'
  | (Thrown m, w') => (Thrown m, w')
  end.

Definition throw {A} (message : string) : Run A := fun w => (Thrown message, w).

Definition try_catch {A} (body : Run A) (handler : string -> Run A) : Run A :=
  fun w =>
    match body w with
    | (Returned a, w') => (Returned a, w')
    | (Thrown m, w') => handler m w'
    end.

Definition lift {A} (o : Outcome A) : Run A := fun w => (o, w).

(** [this.transactions.set(key, tx)] and [this.transactions.get(key)] *)
Definition store_set (key : string) (tx : BridgeTransaction) : Run unit :=
  fun w => (Returned tt, set_transactions (fun m => <[key := tx]> m) w).

Definition store_get (key : string) : Run (option BridgeTransaction) :=
  fun w => (Returned (transactions w !! key), w).

Definition record_call (c : AdapterCall) : Run unit :=
  fun w => (Returned tt,
            {| transactions := transactions w; subscriptions := subscriptions w;
               emitted := emitted w; adapterCalls := adapterCalls w ++ [c];
               idsDrawn := idsDrawn w |}).

(** utils.ts, [generateBridgeId]: a hash of fresh random bytes and the time;
    the [n]-th call of a run yields [bridgeIds n]. *)
Definition generateBridgeId (out : Outside) : Run string :=
  fun w => (Returned (bridgeIds out (idsDrawn w)),
            {| transactions := transactions w; subscriptions := subscriptions w;
               emitted := emitted w; adapterCalls := adapterCalls w;
               idsDrawn := S (idsDrawn w) |}).

Record Deployment := {
  libraries : Libraries;
  outside : Outside;
  config : BridgeConfig
}.

(** [new BigNumber(n)] on a number *)
Definition bn_of_number (n : number) : BigNumber :=
  match n with
  | JsNaN => BN_NaN
  | JsInf neg => BN_Inf neg
  | JsNum q => BN_Fin (Qle_bool q 0 && negb (Qeq_bool q 0)) (Qabs q)
  end.

(** ** events.ts

    [BridgeEventEmitter] extends Node's [EventEmitter].  The bridge adds its
    four listeners when it is built ([setupEventListeners]: lock, burn,
    verification, timeout); every other listener comes through [on], runs
    outside this model and is taken to return normally.

    [emit(type, event)] calls the listeners of [type]; the second [emit]
    addresses the listeners of the channel "any".  [EventEmitter.emit] of the
    type "error" throws when no listener is registered for "error".  A
    listener of the bridge is an [async] method: what it throws rejects its
    own promise and never reaches [emit].

    [own] is the listener the bridge registered for [type], if any; an
    [async] listener is run here to its end. *)

Definition ERR_UNHANDLED_ERROR : string := "Unhandled error.".

Definition listens_to (t : BridgeEventType) (s : Channel * nat) : bool :=
  match fst s with
  | OnType t' => bool_decide (t' = t)
  | OnAny => false
  end.

Definition record_event (e : BridgeEvent) (w : World) : World :=
  {| transactions := transactions w; subscriptions := subscriptions w;
     emitted := emitted w ++ [e]; adapterCalls := adapterCalls w;
     idsDrawn := idsDrawn w |}.

Definition emitBridgeEvent (d : Deployment) (own : option (BridgeEvent -> Run unit))
    (type : BridgeEventType) (transaction : BridgeTransaction)
    (details : EventDetails) : Run unit :=
  fun w =>
    let event := {| ev_type := type; ev_transaction := transaction;
                    ev_timestamp := clock (outside d); ev_details := details |} in
    let w1 := record_event event w in
    match own with
    | Some listener => (Returned tt, snd (listener event w1))
    | None =>
        if bool_decide (type = EV_ERROR) && negb (existsb (listens_to EV_ERROR) (subscriptions w1))
        then (Thrown ERR_UNHANDLED_ERROR, w1)
        else (Returned tt, w1)
    end.

Definition onBridgeEvent (type : Channel) (listener : nat) : Run unit :=
  fun w => (Returned tt,
            {| transactions := transactions w;
               subscriptions := subscriptions w ++ [(type, listener)];
               emitted := emitted w; adapterCalls := adapterCalls w;
               idsDrawn := idsDrawn w |}).

(** ** chains/algorand/index.ts: releaseCarbonCredits *)

Definition failure_result (id : string) (message : string) : BridgeResult :=
  {| success := false; transactionId := ""; bridgeId := id; res_status := FAILED;
     res_error := Some (message_or_unknown message); receipt := None |}.

Definition releaseCarbonCredits (d : Deployment) (id receiver : string) (amount : number)
  : Run BridgeResult :=
  _ ← record_call (ReleaseCall id receiver amount);
  try_catch
    (match algorand_bridgeAccount (config d) with
     | None => throw "Bridge account not configured"
     | Some addr =>
         firstRound ← lift (algod_getTransactionParams (outside d));
         blob ← lift (algosdk_buildRelease (outside d) id receiver amount);
         let bridgeTransaction :=
           {| tx_id := id;
              tx_sourceChain := targetChain_chainType (config d);
              tx_targetChain := ALGORAND;
              tx_sourceAssetId := targetChain_tokenContractAddress (config d);
              tx_targetAssetId :=
                number_toString (libraries d) (num_of_Z (algorand_carbonAssetId (config d)));
              tx_amount := bn_of_number amount;
              tx_sender := addr;
              tx_receiver := receiver;
              tx_status := PENDING;
              tx_sourceTransactionId := None;
              tx_targetTransactionId := None;
              tx_timestamp := num_of_Z (clock (outside d));
              tx_nonce := firstRound |} in
         _ ← emitBridgeEvent d None EV_RELEASE bridgeTransaction
               (ReceiptDetails (JString blob));
         sent ← lift (algod_sendRawTransaction (outside d) blob);
         let released :=
           {| tx_id := id;
              tx_sourceChain := targetChain_chainType (config d);
              tx_targetChain := ALGORAND;
              tx_sourceAssetId := targetChain_tokenContractAddress (config d);
              tx_targetAssetId :=
                number_toString (libraries d) (num_of_Z (algorand_carbonAssetId (config d)));
              tx_amount := bn_of_number amount;
              tx_sender := addr;
              tx_receiver := receiver;
              tx_status := RELEASED;
              tx_sourceTransactionId := Some (fst sent);
              tx_targetTransactionId := None;
              tx_timestamp := num_of_Z (clock (outside d));
              tx_nonce := firstRound |} in
         _ ← emitBridgeEvent d None EV_RELEASE released
               (ReceiptDetails (JString (fst sent)));
         mret {| success := true; transactionId := fst sent; bridgeId := id;
                 res_status := RELEASED; res_error := None;
                 receipt := Some (snd sent) |}
     end)
    (fun message => mret (failure_result id message)).

(** ** bridge.ts: the two listeners the verification engine reaches *)

(** [tx.status = FAILED; this.transactions.set(tx.id, tx)]: the object of the
    event is changed and stored. *)

Definition handleTimeoutEvent (d : Deployment) (event : BridgeEvent) : Run unit :=
  let tx := ev_transaction event in
  try_catch
    (_ ← (if bool_decide (tx_sourceChain tx = ALGORAND) && bool_decide (tx_status tx = LOCKED)
          then _ ← releaseCarbonCredits d (tx_id tx) (tx_sender tx)
                     (bn_toNumber (outside d) (tx_amount tx));
               mret tt
          else mret tt);
     store_set (tx_id tx) (with_status tx FAILED))
    (fun _ => mret tt).

Definition handleVerificationEvent (event : BridgeEvent) : Run unit :=
  found ← store_get (tx_id (ev_transaction event));
  match found with
  | Some tx => store_set (tx_id tx) (spread_merge tx (ev_transaction event))
  | None => mret tt
  end.

(** ** verification.ts *)

(** The test both [if]s of [requestVerifierSignature] make on the parsed body:
    [typeof data === 'object' && data !== null && 'signature' in data &&
     typeof data.signature === 'string'] *)
Definition has_string_signature (data : JsValue) : bool :=
  JsType_eqb (typeof data) TObject
  && negb (match data with JNull => true | _ => false end)
  && has_property data "signature"
  && JsType_eqb (typeof (get_property data "signature")) TString.

Definition string_of_value (v : JsValue) : string :=
  match v with JString s => s | _ => "" end.

(** A request that outlives [timeoutMs] is aborted: [fetch] then throws, which
    is the outcome [FetchRejected true].  [None] is the source's [null]. *)
Definition requestVerifierSignature (d : Deployment) (verifierUrl transactionHash : string)
    (timeoutMs : Z) : option string :=
  match fetch (outside d) (verifierUrl ++ "/sign")%string transactionHash with
  | FetchRejected _ => None
  | FetchResponse ok _ body =>
      if negb ok then None
      else
        match body with
        | None => None
        | Some data =>
            if has_string_signature data then None
            else if has_string_signature data then
              Some (string_of_value (get_property data "signature"))
            else None
        end
  end.

Definition collectVerifierSignatures (d : Deployment) (transaction : BridgeTransaction)
  : list string :=
  let transactionHash :=
    createTransactionHash (libraries d)
      (tx_sourceChain transaction) (tx_targetChain transaction)
      (tx_sender transaction) (tx_receiver transaction)
      (bn_toString (libraries d) (tx_amount transaction))
      (tx_nonce transaction) in
  let timeoutMs := 30000 in
  let results :=
    map (fun verifierUrl => requestVerifierSignature d verifierUrl transactionHash timeoutMs)
        (verifiers (config d)) in
  omap (fun sig => sig) results.

(** [!transaction.sourceTransactionId]: absent or empty *)
Definition missing_id (i : option string) : bool :=
  match i with
  | None => true
  | Some s => String.eqb s ""
  end.

(** The lookups of the source transaction on its chain and the comparisons
    made on what comes back are the answer [algorandProof] (any exception is
    caught and answers [false]). *)
Definition verifyAlgorandTransaction (d : Deployment) (transaction : BridgeTransaction) : bool :=
  if missing_id (tx_sourceTransactionId transaction) then false
  else algorandProof (outside d) transaction.

Definition verifyTargetChainTransaction (d : Deployment) (transaction : BridgeTransaction) : bool :=
  if missing_id (tx_sourceTransactionId transaction) then false
  else targetChainProof (outside d) transaction.

Definition invalid_result (d : Deployment) (message : string) : VerificationResult :=
  {| isValid := false; signatures := []; vr_timestamp := clock (outside d);
     vr_error := Some message |}.

Definition verifyTransaction (d : Deployment) (transaction : BridgeTransaction)
  : Run VerificationResult :=
  try_catch
    (timedOut ← lift (isTransactionTimedOut (clock (outside d))
                        (tx_timestamp transaction) (num_of_Z 3600000));
     if (timedOut : bool) then
       _ ← emitBridgeEvent d (Some (handleTimeoutEvent d)) EV_TIMEOUT transaction NoDetails;
       mret (invalid_result d "Transaction timed out")
     else
       let direction :=
         if bool_decide (tx_sourceChain transaction = ALGORAND)
         then ALGORAND_TO_TARGET else TARGET_TO_ALGORAND in
       let proved :=
         match direction with
         | ALGORAND_TO_TARGET => verifyAlgorandTransaction d transaction
         | TARGET_TO_ALGORAND => verifyTargetChainTransaction d transaction
         end in
       if negb proved then
         mret (invalid_result d "Transaction verification failed")
       else
         let sigs := collectVerifierSignatures d transaction in
         let hasEnoughSignatures :=
           num_le (minVerifierSignatures (config d)) (num_of_Z (Z.of_nat (length sigs))) in
         _ ← emitBridgeEvent d (Some handleVerificationEvent) EV_VERIFICATION transaction
               (VerificationDetails hasEnoughSignatures sigs (clock (outside d)));
         mret {| isValid := hasEnoughSignatures; signatures := sigs;
                 vr_timestamp := clock (outside d); vr_error := None |})
    (fun message =>
       mret (invalid_result d
               (if String.eqb message "" then "Unknown verification error" else message))).

Definition signTransaction (lib : Libraries) (transaction : BridgeTransaction)
    (privateKey : string) : Outcome string :=
  let transactionHash :=
    createTransactionHash lib
      (tx_sourceChain transaction) (tx_targetChain transaction)
      (tx_sender transaction) (tx_receiver transaction)
      (bn_toString lib (tx_amount transaction))
      (tx_nonce transaction) in
  match tx_sourceChain transaction with
  | ALGORAND =>
      catchO (algorand_sign lib transactionHash privateKey)
             (fun message => Thrown ("Algorand signing error: " ++ message)%string)
  | ETHEREUM =>
      catchO (ethereum_sign lib transactionHash privateKey)
             (fun message => Thrown ("Ethereum signing error: " ++ message)%string)
  end.

Definition verifySignature (lib : Libraries) (transaction : BridgeTransaction)
    (signature publicKey : string) : bool :=
  let transactionHash :=
    createTransactionHash lib
      (tx_sourceChain transaction) (tx_targetChain transaction)
      (tx_sender transaction) (tx_receiver transaction)
      (bn_toString lib (tx_amount transaction))
      (tx_nonce transaction) in
  match tx_sourceChain transaction with
  | ALGORAND =>
      match algorand_verify lib transactionHash signature publicKey with
      | Returned b => b
      | Thrown _ => false
      end
  | ETHEREUM =>
      match ethereum_recover lib transactionHash signature with
      | Returned recoveredAddress =>
          String.eqb (toLowerCase lib recoveredAddress) (toLowerCase lib publicKey)
      | Thrown _ => false
      end
  end.

(** ** chains/ethereum/index.ts *)

Definition mintWrappedCarbonCredits (d : Deployment)
    (id receiver amount sourceTransactionId : string) : Run BridgeResult :=
  _ ← record_call (MintCall id receiver amount sourceTransactionId);
  try_catch
    (match ethereum_wallet (outside d) with
     | None => throw "Ethereum wallet not configured"
     | Some walletAddress =>
         if negb (ethers_isAddress (libraries d) receiver) then
           throw "Invalid Ethereum receiver address"
         else
           minted ← lift (ethers_BigNumber (outside d) amount);
           let bridgeTransaction :=
             {| tx_id := id;
                tx_sourceChain := ALGORAND;
                tx_targetChain := targetChain_chainType (config d);
                tx_sourceAssetId :=
                  number_toString (libraries d) (num_of_Z (algorand_carbonAssetId (config d)));
                tx_targetAssetId := targetChain_tokenContractAddress (config d);
                tx_amount := minted;
                tx_sender := walletAddress;
                tx_receiver := receiver;
                tx_status := PENDING;
                tx_sourceTransactionId := Some sourceTransactionId;
                tx_targetTransactionId := None;
                tx_timestamp := num_of_Z (clock (outside d));
                tx_nonce := num_of_Z (clock (outside d)) |} in
           _ ← emitBridgeEvent d None EV_MINT bridgeTransaction NoDetails;
           match contract_mint (outside d) receiver amount id sourceTransactionId with
           | CallConfirmed hash callReceipt =>
               _ ← emitBridgeEvent d None EV_MINT
                     (with_status_and_target bridgeTransaction MINTED hash)
                     (ReceiptDetails (JString hash));
               mret {| success := true; transactionId := hash; bridgeId := id;
                       res_status := MINTED; res_error := None;
                       receipt := Some callReceipt |}
           | CallInsufficientFunds _ =>
               mret {| success := false; transactionId := ""; bridgeId := id;
                       res_status := FAILED;
                       res_error := Some "Insufficient ETH for gas fees";
                       receipt := None |}
           | CallFailed message => throw message
           end
     end)
    (fun message => mret (failure_result id message)).

Definition ethereum_getBridgeTransactionStatus (d : Deployment) (id : string) : BridgeStatus :=
  match contract_getBridgeStatus (outside d) id with
  | Returned (JsNum q) =>
      if Qeq_bool q 0 then PENDING
      else if Qeq_bool q 1 then MINTED
      else if Qeq_bool q 2 then BURNED
      else PENDING
  | Returned _ => PENDING
  | Thrown _ => FAILED
  end.

(** ** chains/algorand/index.ts: getBridgeTransactionStatus *)

(** [s.includes(part)] *)
Definition includes (s part : string) : bool :=
  match String.index 0 part s with Some _ => true | None => false end.

Fixpoint scan_log_data (d : Deployment) (id : string) (entries : list string) : BridgeStatus :=
  match entries with
  | [] => PENDING
  | txLog :: rest =>
      if includes txLog id then
        let logData := base64_decode (outside d) txLog in
        if includes logData "lock_complete" then LOCKED
        else if includes logData "release_complete" then RELEASED
        else scan_log_data d id rest
      else scan_log_data d id rest
  end.

(** The two nested loops visit the log entries in the order of [concat]. *)
Definition algorand_getBridgeTransactionStatus (d : Deployment) (id : string) : BridgeStatus :=
  match indexer_applicationLogs (outside d) with
  | Returned logs => scan_log_data d id (concat logs)
  | Thrown _ => FAILED
  end.

(** ** bridge.ts *)

Definition mintOnTargetChain (d : Deployment) (transaction : BridgeTransaction) : Run unit :=
  try_catch
    (result ← mintWrappedCarbonCredits d (tx_id transaction) (tx_receiver transaction)
                (bn_toString (libraries d) (tx_amount transaction))
                (default "" (tx_sourceTransactionId transaction));
     if success result then
       store_set (tx_id transaction)
         (with_status_and_target transaction MINTED (transactionId result))
     else throw (default "" (res_error result)))
    (fun message => throw message).

Definition releaseOnAlgorand (d : Deployment) (transaction : BridgeTransaction) : Run unit :=
  try_catch
    (result ← releaseCarbonCredits d (tx_id transaction) (tx_receiver transaction)
                (bn_toNumber (outside d) (tx_amount transaction));
     if success result then
       store_set (tx_id transaction)
         (with_status_and_target transaction RELEASED (transactionId result))
     else throw (default "" (res_error result)))
    (fun message => throw message).

Definition handleLockEvent (d : Deployment) (event : BridgeEvent) : Run unit :=
  let tx := ev_transaction event in
  try_catch
    (_ ← store_set (tx_id tx) tx;
     verification ← verifyTransaction d tx;
     if isValid verification then mintOnTargetChain d tx
     else emitBridgeEvent d None EV_ERROR tx
            (VerificationFailedDetails (vr_error verification)))
    (fun message => emitBridgeEvent d None EV_ERROR tx (ErrorDetails message)).

Definition handleBurnEvent (d : Deployment) (event : BridgeEvent) : Run unit :=
  let tx := ev_transaction event in
  try_catch
    (_ ← store_set (tx_id tx) tx;
     verification ← verifyTransaction d tx;
     if isValid verification then releaseOnAlgorand d tx
     else emitBridgeEvent d None EV_ERROR tx
            (VerificationFailedDetails (vr_error verification)))
    (fun message => emitBridgeEvent d None EV_ERROR tx (ErrorDetails message)).

(** The listener [setupEventListeners] registers for each event type. *)
Definition bridge_listener (d : Deployment) (type : BridgeEventType)
  : option (BridgeEvent -> Run unit) :=
  match type with
  | EV_LOCK => Some (handleLockEvent d)
  | EV_BURN => Some (handleBurnEvent d)
  | EV_VERIFICATION => Some handleVerificationEvent
  | EV_TIMEOUT => Some (handleTimeoutEvent d)
  | EV_MINT | EV_RELEASE | EV_ERROR => None
  end.

(** ** chains/algorand/index.ts: lockCarbonCredits *)

(** The [try] statement that is the body of the method. *)
Definition lockCarbonCredits_try (d : Deployment) (sender receiver : string) (amount : number)
  : Run BridgeResult :=
  try_catch
    (match algorand_bridgeAccount (config d) with
     | None => throw "Bridge account not configured"
     | Some _ =>
         id ← generateBridgeId (outside d);
         firstRound ← lift (algod_getTransactionParams (outside d));
         group ← lift (algosdk_buildLockGroup (outside d) id sender receiver amount);
         let bridgeTransaction :=
           {| tx_id := id;
              tx_sourceChain := ALGORAND;
              tx_targetChain := targetChain_chainType (config d);
              tx_sourceAssetId :=
                number_toString (libraries d) (num_of_Z (algorand_carbonAssetId (config d)));
              tx_targetAssetId := targetChain_tokenContractAddress (config d);
              tx_amount := bn_of_number amount;
              tx_sender := sender;
              tx_receiver := receiver;
              tx_status := PENDING;
              tx_sourceTransactionId := None;
              tx_targetTransactionId := None;
              tx_timestamp := num_of_Z (clock (outside d));
              tx_nonce := firstRound |} in
         _ ← emitBridgeEvent d (Some (handleLockEvent d)) EV_LOCK bridgeTransaction
               (ReceiptDetails group);
         mret {| success := true; transactionId := ""; bridgeId := id;
                 res_status := PENDING; res_error := None; receipt := Some group |}
     end)
    (fun message => mret (failure_result "" message)).

Definition lockCarbonCredits (d : Deployment) (sender receiver : string) (amount : number)
    (metadata : JsValue) : Run BridgeResult :=
  _ ← record_call (LockCall sender receiver amount metadata);
  lockCarbonCredits_try d sender receiver amount.

(** ** chains/ethereum/index.ts: burnWrappedCarbonCredits *)

Definition burnWrappedCarbonCredits (d : Deployment) (sender algorandReceiver amount : string)
  : Run BridgeResult :=
  _ ← record_call (BurnCall sender algorandReceiver amount);
  try_catch
    (id ← generateBridgeId (outside d);
     wei ← lift (ethers_parseEther (outside d) amount);
     burned ← lift (ethers_BigNumber (outside d) wei);
     let bridgeTransaction :=
       {| tx_id := id;
          tx_sourceChain := targetChain_chainType (config d);
          tx_targetChain := ALGORAND;
          tx_sourceAssetId := targetChain_tokenContractAddress (config d);
          tx_targetAssetId :=
            number_toString (libraries d) (num_of_Z (algorand_carbonAssetId (config d)));
          tx_amount := burned;
          tx_sender := sender;
          tx_receiver := algorandReceiver;
          tx_status := PENDING;
          tx_sourceTransactionId := None;
          tx_targetTransactionId := None;
          tx_timestamp := num_of_Z (clock (outside d));
          tx_nonce := num_of_Z (clock (outside d)) |} in
     _ ← emitBridgeEvent d (Some (handleBurnEvent d)) EV_BURN bridgeTransaction NoDetails;
     data ← lift (contract_encodeBurn (outside d) amount id algorandReceiver);
     mret {| success := true; transactionId := ""; bridgeId := id;
             res_status := PENDING; res_error := None; receipt := Some data |})
    (fun message => mret (failure_result "" message)).

(** ** bridge.ts: the public operations *)

(** The [amount] argument: [number | string | BigNumber], or left out. *)
Inductive AmountArgument :=
| AmountMissing
| AmountNumber (n : number)
| AmountString (s : string)
| AmountBigNumber (b : BigNumber).

Definition amount_truthy (a : AmountArgument) : bool :=
  match a with
  | AmountMissing => false
  | AmountNumber n => truthy (JNumber n)
  | AmountString s => truthy (JString s)
  | AmountBigNumber _ => true
  end.

(** [new BigNumber(amount)] *)
Definition bn_new (lib : Libraries) (a : AmountArgument) : BigNumber :=
  match a with
  | AmountMissing => BN_NaN
  | AmountNumber n => bn_of_number n
  | AmountString s => bn_parse lib s
  | AmountBigNumber b => b
  end.

Definition or_unknown (s : string) : string :=
  if String.eqb s "" then "unknown" else s.

(** The [try] block and the [catch] block of [bridgeToTargetChain]. *)
Definition bridgeToTargetChain_try (d : Deployment) (sender receiver : string)
    (amount : AmountArgument) (metadata : JsValue) : Run BridgeResult :=
  if String.eqb sender "" then throw "Sender address is required"
  else if String.eqb receiver "" then throw "Receiver address is required"
  else if negb (amount_truthy amount) then throw "Amount is required"
  else
    let bnAmount := bn_new (libraries d) amount in
    if bn_isNaN bnAmount || negb (bn_isPositive bnAmount) then
      throw "Amount must be a positive number"
    else
      formattedSender ← lift (formatAddress (libraries d) sender ALGORAND);
      formattedReceiver ← lift (formatAddress (libraries d) receiver
                                  (targetChain_chainType (config d)));
      let amountValue := bn_toNumber (outside d) bnAmount in
      _ ← (if truthy metadata then
             match validateCarbonMetadata metadata with
             | Some metadataError =>
                 throw ("Invalid metadata: " ++ metadataError)%string
             | None => mret tt
             end
           else mret tt);
      lockCarbonCredits d formattedSender formattedReceiver amountValue metadata.

Definition bridgeToTargetChain_catch (d : Deployment) (sender receiver : string)
    (message : string) : Run BridgeResult :=
  let errorResult :=
    {| success := false; transactionId := ""; bridgeId := "";
       res_status := FAILED; res_error := Some (message_or_unknown message);
       receipt :=
         if developmentMode (outside d)
         then Some (JObject [("errorDetail",
                              JString (error_stack (outside d) message))])
         else None |} in
  id ← generateBridgeId (outside d);
  _ ← emitBridgeEvent d None EV_ERROR
        {| tx_id := id;
           tx_sourceChain := ALGORAND;
           tx_targetChain := targetChain_chainType (config d);
           tx_sourceAssetId :=
             number_toString (libraries d) (num_of_Z (algorand_carbonAssetId (config d)));
           tx_targetAssetId := targetChain_tokenContractAddress (config d);
           tx_amount := bn_of_Z 0;
           tx_sender := or_unknown sender;
           tx_receiver := or_unknown receiver;
           tx_status := FAILED;
           tx_sourceTransactionId := None;
           tx_targetTransactionId := None;
           tx_timestamp := num_of_Z (clock (outside d));
           tx_nonce := num_of_Z (clock (outside d)) |}
        (OperationErrorDetails message "bridgeToTargetChain");
  mret errorResult.

Definition bridgeToTargetChain (d : Deployment) (sender receiver : string)
    (amount : AmountArgument) (metadata : JsValue) : Run BridgeResult :=
  try_catch (bridgeToTargetChain_try d sender receiver amount metadata)
            (bridgeToTargetChain_catch d sender receiver).

Definition bridgeToAlgorand (d : Deployment) (sender receiver : string)
    (amount : AmountArgument) : Run BridgeResult :=
  try_catch
    (formattedSender ← lift (formatAddress (libraries d) sender
                               (targetChain_chainType (config d)));
     formattedReceiver ← lift (formatAddress (libraries d) receiver ALGORAND);
     let amountValue := bn_toString (libraries d) (bn_new (libraries d) amount) in
     burnWrappedCarbonCredits d formattedSender formattedReceiver amountValue)
    (fun message => mret (failure_result "" message)).

Definition getTransaction (id : string) (w : World) : option BridgeTransaction :=
  transactions w !! id.

(** Both chain handlers catch what their lookup throws and answer [FAILED],
    so the [catch] of [getTransactionStatus] has nothing to catch. *)
Definition getTransactionStatus (d : Deployment) (id : string) (w : World) : BridgeStatus :=
  match transactions w !! id with
  | Some tx => tx_status tx
  | None =>
      let algorandStatus := algorand_getBridgeTransactionStatus d id in
      if negb (bool_decide (algorandStatus = FAILED)) then algorandStatus
      else ethereum_getBridgeTransactionStatus d id
  end.

(** A bridge as its constructor leaves it: an empty ledger, nobody listening
    but the bridge itself. *)
Definition fresh_world : World :=
  {| transactions := ∅; subscriptions := []; emitted := []; adapterCalls := [];
     idsDrawn := 0 |}.

(** Delivery of one event to the listener the bridge holds for its type. *)
Definition deliver (d : Deployment) (event : BridgeEvent) : Run unit :=
  match bridge_listener d (ev_type event) with
  | Some listener => listener event
  | None => mret tt
  end.

(** ** Notions the properties are stated with *)


(** Every transaction of the ledger sits under its own id. *)
Definition well_keyed (m : gmap string BridgeTransaction) : Prop :=
  forall key tx, m !! key = Some tx -> tx_id tx = key.

Definition terminal (s : BridgeStatus) : bool :=
  match s with
  | MINTED | RELEASED | FAILED => true
  | PENDING | LOCKED | BURNED => false
  end.

Definition minted_or_released (s : BridgeStatus) : bool :=
  match s with
  | MINTED | RELEASED => true
  | _ => false
  end.

(** The fallback of [getTransactionStatus] in the words of the design
    document: both chains are asked, and the source chain's answer is
    preferred unless it reports failure. *)
Definition prefer_source_answer (sourceAnswer targetAnswer : BridgeStatus) : BridgeStatus :=
  if bool_decide (sourceAnswer = FAILED) then targetAnswer else sourceAnswer.

(** A verifier response in the agreed format, in the words of the design
    document: a success status and a body that is an object with a string
    [signature]; the value is that signature. *)
Definition well_formed_signature (r : FetchOutcome) : option string :=
  match r with
  | FetchResponse true _ (Some data) =>
      if has_string_signature data
      then Some (string_of_value (get_property data "signature"))
      else None
  | _ => None
  end.


(** A relation between worlds that holds of a world and itself, chains, and
    lets a call be logged, an event be recorded and an id be drawn. *)
Class Bookkeeping (R : World -> World -> Prop) : Prop := {
  bk_refl : forall w, R w w;
  bk_trans : forall w1 w2 w3, R w1 w2 -> R w2 w3 -> R w1 w3;
  bk_call : forall c w, R w (snd (record_call c w));
  bk_event : forall e w, R w (record_event e w);
  bk_draw : forall out w, R w (snd (generateBridgeId out w))
}.

(** A computation [keeps] a relation when the world it leaves is related to
    the world it found; a relation [may_store] a write it allows on every
    ledger. *)
Definition keeps (R : World -> World -> Prop) {A} (c : Run A) : Prop :=
  forall w, R w (snd (c w)).

Definition may_store (R : World -> World -> Prop) (key : string)
    (tx : BridgeTransaction) : Prop :=
  forall w, R w (set_transactions (fun m => <[key := tx]> m) w).

(** The relations the listeners and the chain handlers are shown to keep:
    the ledger is the same; the log of chain-handler calls has only grown;
    the ledger stays well keyed and every entry but the one under [key] is
    as it was. *)
Definition same_ledger (w w' : World) : Prop := transactions w' = transactions w.

Definition calls_extended (w w' : World) : Prop :=
  exists later, adapterCalls w' = (adapterCalls w ++ later)%list.

Definition others_kept (key : string) (w w' : World) : Prop :=
  well_keyed (transactions w) ->
  well_keyed (transactions w') /\
  forall id, id <> key -> transactions w' !! id = transactions w !! id.

(** Nobody listens on the channel "error". *)
Definition error_unheard (w : World) : Prop :=
  existsb (listens_to EV_ERROR) (subscriptions w) = false.

(** The run of [verifyTransaction] a lock or burn listener makes on [tx],
    right after storing it, returned a valid result. *)
Definition verified_valid (d : Deployment) (tx : BridgeTransaction) (w : World) : Prop :=
  exists verification w2,
    verifyTransaction d tx (snd (store_set (tx_id tx) tx w)) = (Returned verification, w2)
    /\ isValid verification = true.

(** A result that reports a failure: no success, status [FAILED], a message. *)
Definition reports_failure (r : BridgeResult) : Prop :=
  success r = false /\ res_status r = FAILED /\
  exists message, res_error r = Some message /\ message <> "".

(** The inputs the checks of [bridgeToTargetChain] refuse: an empty sender or
    receiver, an amount that is missing or falsy, NaN or without a positive
    sign, or metadata that does not validate. *)
Definition refused_input (lib : Libraries) (sender receiver : string)
    (amount : AmountArgument) (metadata : JsValue) : Prop :=
  sender = "" \/ receiver = "" \/ amount_truthy amount = false
  \/ bn_isNaN (bn_new lib amount) = true
  \/ bn_isPositive (bn_new lib amount) = false
  \/ (truthy metadata = true /\ validateCarbonMetadata metadata <> None).

(** The ledger after a chain of writes, each of which satisfies [P]. *)
Inductive written (P : string -> BridgeTransaction -> Prop)
    (m : gmap string BridgeTransaction) : gmap string BridgeTransaction -> Prop :=
| written_none : written P m m
| written_more (m' : gmap string BridgeTransaction) key tx :
    written P m m' -> P key tx -> written P m (<[key := tx]> m').

(** ** A deployment to run the definitions on

    Stand-ins for the libraries (the digest of a message is the message) and
    an outside in which every node answers and every verifier returns a
    signature in the agreed format. *)

Definition sample_libraries : Libraries :=
  {| sha256_hex := fun s => s;
     bn_toString := fun _ => "100";
     number_toString := fun _ => "7";
     bn_parse := fun _ => BN_Fin false 0;
     algosdk_isValidAddress := fun _ => true;
     ethers_isAddress := fun _ => true;
     ethers_getAddress := fun s => s;
     algorand_sign := fun message _ => Returned message;
     algorand_verify := fun _ _ _ => Returned true;
     ethereum_sign := fun message _ => Returned message;
     ethereum_recover := fun _ _ => Returned "0xsigner";
     toLowerCase := fun s => s |}.

Definition sample_outside : Outside :=
  {| clock := 1700000000000;
     bridgeIds := fun n => match n with O => "a3f1c2d4e5b6a7980011" | _ => "b4e2d3c5f6a7b8091122" end;
     algod_getTransactionParams := Returned (num_of_Z 31000000);
     algosdk_buildLockGroup := fun _ _ _ _ => Returned (JObject []);
     algosdk_buildRelease := fun _ _ _ => Returned "c2lnbmVkLXR4bg";
     algod_sendRawTransaction := fun _ => Returned ("TXRELEASE", JObject []);
     indexer_applicationLogs := Returned [];
     ethereum_wallet := Some "0xbridge";
     ethers_BigNumber := fun _ => Returned (BN_Fin false 100);
     ethers_parseEther := fun s => Returned s;
     contract_mint := fun _ _ _ _ => CallConfirmed "0xminted" (JObject []);
     contract_encodeBurn := fun _ _ _ => Returned (JObject []);
     contract_getBridgeStatus := fun _ => Returned (num_of_Z 1);
     algorandProof := fun _ => true;
     targetChainProof := fun _ => true;
     fetch := fun _ _ =>
       FetchResponse true 200 (Some (JObject [("signature", JString "c2lnLTAx")]));
     bn_toNumber := fun b =>
       match b with
       | BN_NaN => JsNaN
       | BN_Inf s => JsInf s
       | BN_Fin s m => JsNum (if s then - m else m)
       end;
     base64_decode := fun s => s;
     developmentMode := false;
     error_stack := fun s => s |}.

Definition sample_config (threshold : Z) : BridgeConfig :=
  {| algorand_bridgeAccount := Some "BRIDGEACCOUNT";
     algorand_escrowAppId := 12345678;
     algorand_carbonAssetId := 87654321;
     targetChain_chainType := ETHEREUM;
     targetChain_bridgeContractAddress := "0xbridgecontract";
     targetChain_tokenContractAddress := "0xtokencontract";
     verifiers := ["https://verifier-1"; "https://verifier-2"; "https://verifier-3"];
     minVerifierSignatures := num_of_Z threshold |}.

Definition sample_deployment (threshold : Z) : Deployment :=
  {| libraries := sample_libraries; outside := sample_outside;
     config := sample_config threshold |}.

Definition sample_transaction (s : BridgeStatus) : BridgeTransaction :=
  {| tx_id := "a3f1c2d4e5b6a7980011";
     tx_sourceChain := ALGORAND;
     tx_targetChain := ETHEREUM;
     tx_sourceAssetId := "87654321";
     tx_targetAssetId := "0xtokencontract";
     tx_amount := BN_Fin false 100;
     tx_sender := "ALGOSENDER";
     tx_receiver := "0xreceiver";
     tx_status := s;
     tx_sourceTransactionId := Some "ALGOTXID";
     tx_targetTransactionId := None;
     tx_timestamp := num_of_Z 1699999990000;
     tx_nonce := num_of_Z 31000000 |}.

Definition sample_event (type : BridgeEventType) (s : BridgeStatus) : BridgeEvent :=
  {| ev_type := type; ev_transaction := sample_transaction s;
     ev_timestamp := 1700000000000; ev_details := NoDetails |}.

(** An entry that is neither minted nor released. *)
Definition not_yet_final (_ : string) (tx : BridgeTransaction) : Prop :=
  minted_or_released (tx_status tx) = false.

Definition ledger_written (P : string -> BridgeTransaction -> Prop) (w w' : World) : Prop :=
  written P (transactions w) (transactions w').

(** * Further parts of the sources *)

(** ** utils.ts: calculateSafeGasPrice

    [baseGasPrice] is the value [new BigNumber(baseGasPrice)] builds; the
    result is the number whose digits [toFixed(0)] prints. *)






(** [{ ...tx, sender, receiver }] *)
Definition with_parties (tx : BridgeTransaction) (sender receiver : string) : BridgeTransaction :=
  {| tx_id := tx_id tx; tx_sourceChain := tx_sourceChain tx;
     tx_targetChain := tx_targetChain tx; tx_sourceAssetId := tx_sourceAssetId tx;
     tx_targetAssetId := tx_targetAssetId tx; tx_amount := tx_amount tx;
     tx_sender := sender; tx_receiver := receiver; tx_status := tx_status tx;
     tx_sourceTransactionId := tx_sourceTransactionId tx;
     tx_targetTransactionId := tx_targetTransactionId tx;
     tx_timestamp := tx_timestamp tx; tx_nonce := tx_nonce tx |}.

(** ** events.ts: offBridgeEvent

    [EventEmitter.off] removes one instance of the listener from the
    listeners of the channel, the one added last. *)

Definition Channel_eqb (a b : Channel) : bool :=
  match a, b with
  | OnType s, OnType t => bool_decide (s = t)
  | OnAny, OnAny => true
  | _, _ => false
  end.

Definition same_subscription (a b : Channel * nat) : bool :=
  Channel_eqb (fst a) (fst b) && Nat.eqb (snd a) (snd b).

Fixpoint remove_first (s : Channel * nat) (l : list (Channel * nat)) : list (Channel * nat) :=
  match l with
  | [] => []
  | x :: rest => if same_subscription x s then rest else x :: remove_first s rest
  end.

Definition offBridgeEvent (type : Channel) (listener : nat) : Run unit :=
  fun w => (Returned tt,
            {| transactions := transactions w;
               subscriptions := rev (remove_first (type, listener) (rev (subscriptions w)));
               emitted := emitted w; adapterCalls := adapterCalls w;
               idsDrawn := idsDrawn w |}).

(** ** bridge.ts: a bridge in use

    What reaches a bridge once it is built: calls of its public methods
    ([bridgeToTargetChain], [bridgeToAlgorand], [on], [off]) and events put on
    the shared emitter by somebody else. *)

Inductive Operation :=
| BridgeToTargetChain (sender receiver : string) (amount : AmountArgument) (metadata : JsValue)
| BridgeToAlgorand (sender receiver : string) (amount : AmountArgument)
| On (channel : Channel) (listener : nat)
| Off (channel : Channel) (listener : nat)
| Emitted (type : BridgeEventType) (transaction : BridgeTransaction) (details : EventDetails).

Definition perform (d : Deployment) (op : Operation) (w : World) : World :=
  match op with
  | BridgeToTargetChain sender receiver amount metadata =>
      snd (bridgeToTargetChain d sender receiver amount metadata w)
  | BridgeToAlgorand sender receiver amount =>
      snd (bridgeToAlgorand d sender receiver amount w)
  | On channel listener => snd (onBridgeEvent channel listener w)
  | Off channel listener => snd (offBridgeEvent channel listener w)
  | Emitted type transaction details =>
      snd (emitBridgeEvent d (bridge_listener d type) type transaction details w)
  end.

Definition perform_all (d : Deployment) (ops : list Operation) (w : World) : World :=
  fold_left (fun w op => perform d op w) ops w.

(** A call of a public method, as opposed to an event from elsewhere. *)
Definition is_call (op : Operation) : bool :=
  match op with
  | Emitted _ _ _ => false
  | _ => true
  end.

(** [listTransactions]: the values of the map (their order is the order of
    insertion in the source, which the ledger here does not keep). *)
Definition listTransactions (w : World) : list BridgeTransaction :=
  (map_to_list (transactions w)).*2.

(** ** Further notions the properties are stated with *)

(** A chain-handler operation that mints or releases. *)
Definition settles (c : AdapterCall) : bool :=
  match c with
  | MintCall _ _ _ _ | ReleaseCall _ _ _ => true
  | LockCall _ _ _ _ | BurnCall _ _ _ => false
  end.

(** Every entry of the ledger is pending. *)
Definition all_pending (m : gmap string BridgeTransaction) : Prop :=
  forall id tx, m !! id = Some tx -> tx_status tx = PENDING.

(** Further relations between the world before and after: no entry of the
    ledger is lost; a well-keyed ledger stays well keyed. *)
Definition entries_kept (w w' : World) : Prop :=
  forall id, is_Some (transactions w !! id) -> is_Some (transactions w' !! id).

Definition keys_kept (w w' : World) : Prop :=
  well_keyed (transactions w) -> well_keyed (transactions w').

(** The event [emitBridgeEvent] builds. *)
Definition event_of (d : Deployment) (type : BridgeEventType) (tx : BridgeTransaction)
    (details : EventDetails) : BridgeEvent :=
  {| ev_type := type; ev_transaction := tx; ev_timestamp := clock (outside d);
     ev_details := details |}.

(** The refund a timeout event asks for: a release back to the sender when
    the snapshot has Algorand as its source and the status [LOCKED]. *)
Definition refund_of (d : Deployment) (tx : BridgeTransaction) : list AdapterCall :=
  if bool_decide (tx_sourceChain tx = ALGORAND) && bool_decide (tx_status tx = LOCKED)
  then [ReleaseCall (tx_id tx) (tx_sender tx) (bn_toNumber (outside d) (tx_amount tx))]
  else [].

(** ** Further inputs to run the definitions on *)


(** A locked transaction that names no transaction of its source chain. *)
Definition unsubmitted_transaction : BridgeTransaction :=
  {| tx_id := "d6e7f8a9b0c1d2e3f4a5";
     tx_sourceChain := ALGORAND;
     tx_targetChain := ETHEREUM;
     tx_sourceAssetId := "87654321";
     tx_targetAssetId := "0xtokencontract";
     tx_amount := BN_Fin false 100;
     tx_sender := "ALGOSENDER";
     tx_receiver := "0xreceiver";
     tx_status := LOCKED;
     tx_sourceTransactionId := None;
     tx_targetTransactionId := None;
     tx_timestamp := num_of_Z 1699999990000;
     tx_nonce := num_of_Z 31000000 |}.


(** ** config.ts

    A property of a configuration object is absent, present with the value
    [undefined] (what [loadConfigFromEnv] writes for a variable that is not
    set), or present with a value.  In an object spread a present property
    wins, whatever its value.  A property of a merged configuration is
    [None] when it reads as [undefined].  The records list the properties
    the code of the repository reads or sets. *)

Inductive Optional (A : Type) : Type :=
| Absent
| Undefined
| Given (a : A).
Arguments Absent {A}.
Arguments Undefined {A}.
Arguments Given {A} a.

(** [{ ...{ key: base }, ...{ key: over } }.key] *)
Definition spread_over {A} (base : option A) (over : Optional A) : option A :=
  match over with
  | Absent => base
  | Undefined => None
  | Given a => Some a
  end.

(** [{ ...first, ...second }], one property of it, both objects partial. *)
Definition spread_partial {A} (first second : Optional A) : Optional A :=
  match second with
  | Absent => first
  | _ => second
  end.

Record PartialAlgorandSettings := {
  opt_nodeUrl : Optional string;
  opt_indexerUrl : Optional string;
  opt_escrowAppId : Optional number;
  opt_carbonAssetId : Optional number;
  opt_bridgeAccount : Optional string          (* the account's [addr] *)
}.

Record PartialTargetChainSettings := {
  opt_chainType : Optional string;
  opt_rpcUrl : Optional string;
  opt_bridgeContractAddress : Optional string;
  opt_tokenContractAddress : Optional string;
  opt_gasPrice : Optional string;
  opt_gasLimit : Optional number
}.

Record PartialBridgeConfig := {
  opt_algorand : Optional PartialAlgorandSettings;
  opt_targetChain : Optional PartialTargetChainSettings;
  opt_verifiers : Optional (list string);
  opt_minVerifierSignatures : Optional number;
  opt_bridgeFee : Optional number;
  opt_timeoutBlocks : Optional number
}.

Record AlgorandSettings := {
  cfg_nodeUrl : option string;
  cfg_indexerUrl : option string;
  cfg_escrowAppId : option number;
  cfg_carbonAssetId : option number;
  cfg_bridgeAccount : option string
}.

Record TargetChainSettings := {
  cfg_chainType : option string;
  cfg_rpcUrl : option string;
  cfg_bridgeContractAddress : option string;
  cfg_tokenContractAddress : option string;
  cfg_gasPrice : option string;
  cfg_gasLimit : option number
}.

Record MergedConfig := {
  cfg_algorand : AlgorandSettings;
  cfg_targetChain : TargetChainSettings;
  cfg_verifiers : option (list string);
  cfg_minVerifierSignatures : option number;
  cfg_bridgeFee : option number;
  cfg_timeoutBlocks : option number
}.

(** What the module reads from the process: the environment variables, and
    the library calls made on their values. *)
Record Environment := {
  env : string -> option string;                       (* [process.env.NAME] *)
  parseInt : string -> number;
  parseFloat : string -> number;
  split_at_commas : string -> list string;             (* [s.split(",")] *)
  mnemonicToSecretKey : string -> Outcome string       (* the address of the account *)
}.

Definition number_value (n : option number) : JsValue :=
  match n with Some x => JNumber x | None => JUndefined end.

Definition string_value (s : option string) : JsValue :=
  match s with Some x => JString x | None => JUndefined end.

(** [a < b] on numbers *)
Definition num_lt (a b : number) : bool := num_gt b a.

Definition default_algorand : AlgorandSettings :=
  {| cfg_nodeUrl := Some "https://mainnet-api.algonode.cloud";
     cfg_indexerUrl := Some "https://mainnet-idx.algonode.cloud";
     cfg_escrowAppId := Some (num_of_Z 0);
     cfg_carbonAssetId := Some (num_of_Z 0);
     cfg_bridgeAccount := None |}.

Definition default_targetChain : TargetChainSettings :=
  {| cfg_chainType := Some (ChainType_value ETHEREUM);
     cfg_rpcUrl := Some "https://mainnet.infura.io/v3/your-api-key";
     cfg_bridgeContractAddress := Some "";
     cfg_tokenContractAddress := Some "";
     cfg_gasPrice := Some "5000000000";
     cfg_gasLimit := Some (num_of_Z 300000) |}.

Definition defaultConfig : MergedConfig :=
  {| cfg_algorand := default_algorand;
     cfg_targetChain := default_targetChain;
     cfg_verifiers := Some [];
     cfg_minVerifierSignatures := Some (num_of_Z 2);
     cfg_bridgeFee := Some (JsNum (1 # 1000));
     cfg_timeoutBlocks := Some (num_of_Z 150) |}.

(** [{ ...defaultConfig.algorand, ...config.algorand }]: spreading a
    property that is absent or [undefined] adds nothing. *)
Definition merge_algorand (base : AlgorandSettings) (over : Optional PartialAlgorandSettings)
  : AlgorandSettings :=
  match over with
  | Given a =>
      {| cfg_nodeUrl := spread_over (cfg_nodeUrl base) (opt_nodeUrl a);
         cfg_indexerUrl := spread_over (cfg_indexerUrl base) (opt_indexerUrl a);
         cfg_escrowAppId := spread_over (cfg_escrowAppId base) (opt_escrowAppId a);
         cfg_carbonAssetId := spread_over (cfg_carbonAssetId base) (opt_carbonAssetId a);
         cfg_bridgeAccount := spread_over (cfg_bridgeAccount base) (opt_bridgeAccount a) |}
  | Absent | Undefined => base
  end.

Definition merge_targetChain (base : TargetChainSettings)
    (over : Optional PartialTargetChainSettings) : TargetChainSettings :=
  match over with
  | Given t =>
      {| cfg_chainType := spread_over (cfg_chainType base) (opt_chainType t);
         cfg_rpcUrl := spread_over (cfg_rpcUrl base) (opt_rpcUrl t);
         cfg_bridgeContractAddress :=
           spread_over (cfg_bridgeContractAddress base) (opt_bridgeContractAddress t);
         cfg_tokenContractAddress :=
           spread_over (cfg_tokenContractAddress base) (opt_tokenContractAddress t);
         cfg_gasPrice := spread_over (cfg_gasPrice base) (opt_gasPrice t);
         cfg_gasLimit := spread_over (cfg_gasLimit base) (opt_gasLimit t) |}
  | Absent | Undefined => base
  end.

(** [process.env.NAME] where it stands as a condition: set and not empty. *)
Definition env_set (e : Environment) (name : string) : option string :=
  match env e name with
  | Some s => if String.eqb s "" then None else Some s
  | None => None
  end.

Definition with_bridgeAccount (a : AlgorandSettings) (account : string) : AlgorandSettings :=
  {| cfg_nodeUrl := cfg_nodeUrl a; cfg_indexerUrl := cfg_indexerUrl a;
     cfg_escrowAppId := cfg_escrowAppId a; cfg_carbonAssetId := cfg_carbonAssetId a;
     cfg_bridgeAccount := Some account |}.

Definition createBridgeConfig (e : Environment) (config : PartialBridgeConfig)
  : Outcome MergedConfig :=
  let algorand := merge_algorand (cfg_algorand defaultConfig) (opt_algorand config) in
  let targetChain := merge_targetChain (cfg_targetChain defaultConfig) (opt_targetChain config) in
  let merged_verifiers := spread_over (cfg_verifiers defaultConfig) (opt_verifiers config) in
  let merged_minVerifierSignatures :=
    spread_over (cfg_minVerifierSignatures defaultConfig) (opt_minVerifierSignatures config) in
  if negb (truthy (number_value (cfg_escrowAppId algorand))) then
    Thrown "Algorand escrow application ID is required"
  else if negb (truthy (number_value (cfg_carbonAssetId algorand))) then
    Thrown "Algorand carbon asset ID is required"
  else if negb (truthy (string_value (cfg_bridgeContractAddress targetChain))) then
    Thrown "Target chain bridge contract address is required"
  else if negb (truthy (string_value (cfg_tokenContractAddress targetChain))) then
    Thrown "Target chain token contract address is required"
  else
    let algorand' :=
      match env_set e "BRIDGE_ACCOUNT_MNEMONIC" with
      | Some mnemonic =>
          match cfg_bridgeAccount algorand with
          | None =>
              match mnemonicToSecretKey e mnemonic with
              | Returned account => with_bridgeAccount algorand account
              | Thrown _ => algorand
              end
          | Some _ => algorand
          end
      | None => algorand
      end in
    match merged_verifiers with
    | None => Thrown "Cannot read properties of undefined (reading 'length')"
    | Some vs =>
        if num_lt (num_of_Z (Z.of_nat (length vs)))
                  (match merged_minVerifierSignatures with
                   | Some n => n
                   | None => JsNaN      (* [undefined] in a comparison *)
                   end)
        then
          Thrown "Number of verifiers must be greater than or equal to minimum required signatures"
        else
          Returned
            {| cfg_algorand := algorand';
               cfg_targetChain := targetChain;
               cfg_verifiers := merged_verifiers;
               cfg_minVerifierSignatures := merged_minVerifierSignatures;
               cfg_bridgeFee := spread_over (cfg_bridgeFee defaultConfig) (opt_bridgeFee config);
               cfg_timeoutBlocks :=
                 spread_over (cfg_timeoutBlocks defaultConfig) (opt_timeoutBlocks config) |}
    end.

(** [process.env.NAME]: a property that is always written, [undefined] when
    the variable is not set. *)
Definition env_property (e : Environment) (name : string) : Optional string :=
  match env e name with
  | Some s => Given s
  | None => Undefined
  end.

(** [process.env.NAME ? parse(process.env.NAME) : undefined] *)
Definition env_parsed (e : Environment) (parse : string -> number) (name : string)
  : Optional number :=
  match env_set e name with
  | Some s => Given (parse s)
  | None => Undefined
  end.

Definition loadConfigFromEnv (e : Environment) : PartialBridgeConfig :=
  {| opt_algorand :=
       Given {| opt_nodeUrl := env_property e "ALGORAND_NODE_URL";
                opt_indexerUrl := env_property e "ALGORAND_INDEXER_URL";
                opt_escrowAppId := env_parsed e (parseInt e) "ALGORAND_ESCROW_APP_ID";
                opt_carbonAssetId := env_parsed e (parseInt e) "ALGORAND_CARBON_ASSET_ID";
                opt_bridgeAccount := Absent |};
     opt_targetChain :=
       Given {| opt_chainType :=
                  Given (match env_set e "TARGET_CHAIN_TYPE" with
                         | Some s => s
                         | None => ChainType_value ETHEREUM
                         end);
                opt_rpcUrl := env_property e "TARGET_CHAIN_RPC_URL";
                opt_bridgeContractAddress := env_property e "TARGET_BRIDGE_CONTRACT_ADDRESS";
                opt_tokenContractAddress := env_property e "TARGET_TOKEN_CONTRACT_ADDRESS";
                opt_gasPrice := env_property e "TARGET_GAS_PRICE";
                opt_gasLimit := env_parsed e (parseInt e) "TARGET_GAS_LIMIT" |};
     opt_verifiers :=
       Given (match env_set e "VERIFIER_ADDRESSES" with
              | Some s => split_at_commas e s
              | None => []
              end);
     opt_minVerifierSignatures := env_parsed e (parseInt e) "MIN_VERIFIER_SIGNATURES";
     opt_bridgeFee := env_parsed e (parseFloat e) "BRIDGE_FEE";
     opt_timeoutBlocks := env_parsed e (parseInt e) "TIMEOUT_BLOCKS" |}.

(** bridge.ts, the constructor: the configuration a new bridge runs on.
    [{ ...envConfig, ...config }] is a spread of the top-level properties. *)
Definition constructor_config (e : Environment) (config : PartialBridgeConfig)
  : Outcome MergedConfig :=
  let envConfig := loadConfigFromEnv e in
  merged ← createBridgeConfig e
    {| opt_algorand := spread_partial (opt_algorand envConfig) (opt_algorand config);
       opt_targetChain := spread_partial (opt_targetChain envConfig) (opt_targetChain config);
       opt_verifiers := spread_partial (opt_verifiers envConfig) (opt_verifiers config);
       opt_minVerifierSignatures :=
         spread_partial (opt_minVerifierSignatures envConfig) (opt_minVerifierSignatures config);
       opt_bridgeFee := spread_partial (opt_bridgeFee envConfig) (opt_bridgeFee config);
       opt_timeoutBlocks :=
         spread_partial (opt_timeoutBlocks envConfig) (opt_timeoutBlocks config) |};
  if bool_decide (cfg_chainType (cfg_targetChain merged) = Some (ChainType_value ETHEREUM))
  then Returned merged
  else Thrown ("Unsupported target chain: "
               ++ default "undefined" (cfg_chainType (cfg_targetChain merged)))%string.

(** The configuration of the README's quick start, and a process with no
    variable set. *)
Definition quick_start_config : PartialBridgeConfig :=
  {| opt_algorand :=
       Given {| opt_nodeUrl := Given "https://mainnet-api.algonode.cloud";
                opt_indexerUrl := Given "https://mainnet-idx.algonode.cloud";
                opt_escrowAppId := Given (num_of_Z 12345678);
                opt_carbonAssetId := Given (num_of_Z 87654321);
                opt_bridgeAccount := Absent |};
     opt_targetChain :=
       Given {| opt_chainType := Given (ChainType_value ETHEREUM);
                opt_rpcUrl := Given "https://mainnet.infura.io/v3/your-api-key";
                opt_bridgeContractAddress := Given "0x1234...";
                opt_tokenContractAddress := Given "0xabcd...";
                opt_gasPrice := Absent;
                opt_gasLimit := Absent |};
     opt_verifiers := Absent;
     opt_minVerifierSignatures := Absent;
     opt_bridgeFee := Absent;
     opt_timeoutBlocks := Absent |}.

Definition empty_environment : Environment :=
  {| env := fun _ => None;
     parseInt := fun _ => JsNaN;
     parseFloat := fun _ => JsNaN;
     split_at_commas := fun s => [s];
     mnemonicToSecretKey := fun _ => Thrown "invalid mnemonic" |}.

(** ** chains/ethereum/index.ts: processBurnEvent

    The transaction this method builds takes three of its properties from
    the arguments of a decoded log, which are values of any type: it is an
    object here, property by property as the source writes it.  The result
    is the list of events put on the emitter and the value returned
    ([None] for [null]). *)

Definition BridgeStatus_value (s : BridgeStatus) : string :=
  match s with
  | PENDING => "pending" | LOCKED => "locked" | MINTED => "minted"
  | BURNED => "burned" | RELEASED => "released" | FAILED => "failed"
  end.

Record Log := {
  log_address : string;
  log_topics : list string;
  log_data : string
}.

Record TransactionReceipt := {
  receipt_from : string;
  receipt_blockNumber : number;
  receipt_logs : list Log
}.

(** What [interface.parseLog] returns: the name of the event and its
    arguments, in the order the ABI declares them. *)
Record LogDescription := {
  description_name : string;
  description_args : list JsValue
}.

Record EthereumNode := {
  getTransactionReceipt : string -> Outcome (option TransactionReceipt);
  parseLog : list string -> string -> Outcome (option LogDescription)
}.

(** The three array operations on [receipt.logs]: the logs of the bridge
    contract, decoded ([null] for a log that does not decode), of which the
    events named "TokensBurned" are kept. *)
Definition burnEvents_of (d : Deployment) (node : EthereumNode) (receipt : TransactionReceipt)
  : list LogDescription :=
  let ofBridge :=
    filter (fun log =>
              bool_decide (toLowerCase (libraries d) (log_address log)
                           = toLowerCase (libraries d)
                               (targetChain_bridgeContractAddress (config d))))
           (receipt_logs receipt) in
  let decoded :=
    map (fun log =>
           match parseLog node (log_topics log) (log_data log) with
           | Returned description => description
           | Thrown _ => None
           end) ofBridge in
  omap (fun description =>
          match description with
          | Some event =>
              if String.eqb (description_name event) "TokensBurned" then Some event else None
          | None => None
          end) decoded.

Definition processBurnEvent (d : Deployment) (node : EthereumNode) (transactionHash : string)
  : list (BridgeEventType * JsValue * JsValue) * option JsValue :=
  match getTransactionReceipt node transactionHash with
  | Thrown _ => ([], None)
  | Returned None => ([], None)                  (* "Transaction not found" *)
  | Returned (Some receipt) =>
      match burnEvents_of d node receipt with
      | [] => ([], None)                         (* "Burn event not found in transaction" *)
      | burnEvent :: _ =>
          let bridgeId := nth 0 (description_args burnEvent) JUndefined in
          let amount := nth 1 (description_args burnEvent) JUndefined in
          let algorandReceiver := nth 2 (description_args burnEvent) JUndefined in
          let bridgeTransaction :=
            JObject
              [("id", bridgeId);
               ("sourceChain", JString (ChainType_value (targetChain_chainType (config d))));
               ("targetChain", JString (ChainType_value ALGORAND));
               ("sourceAssetId", JString (targetChain_tokenContractAddress (config d)));
               ("targetAssetId",
                JString (number_toString (libraries d)
                           (num_of_Z (algorand_carbonAssetId (config d)))));
               ("amount", amount);
               ("sender", JString (receipt_from receipt));
               ("receiver", algorandReceiver);
               ("status", JString (BridgeStatus_value BURNED));
               ("sourceTransactionId", JString transactionHash);
               ("timestamp", JNumber (num_of_Z (clock (outside d))));
               ("nonce", JNumber (receipt_blockNumber receipt))] in
          ([(EV_BURN, bridgeTransaction,
             JObject [("transactionHash", JString transactionHash)])],
           Some bridgeTransaction)
      end
  end.

(** chains/ethereum/contracts.ts, [getBridgeContractABI]: the inputs of the
    event "TokensBurned", in the order of their declaration. *)
Definition TokensBurned_inputs : list string :=
  ["bridgeId"; "sender"; "algorandReceiver"; "amount"].

(** The argument of a decoded event that the ABI declares under [name]. *)
Definition argument_named (inputs : list string) (args : list JsValue) (name : string)
  : JsValue :=
  default JUndefined (lookup_field (zip inputs args) name).

(** A node that knows one transaction, a burn of 40 units by "0xburner". *)
Definition sample_node : EthereumNode :=
  {| getTransactionReceipt := fun hash =>
       if String.eqb hash "0xburnhash" then
         Returned (Some {| receipt_from := "0xburner";
                           receipt_blockNumber := num_of_Z 19000000;
                           receipt_logs :=
                             [{| log_address := "0xbridgecontract";
                                 log_topics := ["0xtopic0"; "0xtopic1"; "0xtopic2"];
                                 log_data := "0xdata" |}] |})
       else Returned None;
     parseLog := fun _ _ =>
       Returned (Some {| description_name := "TokensBurned";
                         description_args :=
                           [JString "0xidhash"; JString "0xburner";
                            JString "ALGORECEIVER"; JNumber (num_of_Z 40)] |}) |}.

(** * Properties *)

(** ** convertAmount *)

Section Rounding.







End Rounding.

Lemma pow10_pos (n : Z) : (0 < Qpower (inject_Z 10) n)%Q.
Proof. apply Qpower_0_lt. reflexivity. Qed.

Lemma pow10_nonzero (n : Z) : Qeq_bool (Qpower (inject_Z 10) n) 0 = false.
Proof.
  destruct (Qeq_bool (Qpower (inject_Z 10) n) 0) eqn:E; [|reflexivity].
  apply Qeq_bool_eq in E. pose proof (pow10_pos n) as H. rewrite E in H. discriminate.
Qed.


(** To fewer decimals and back: a rounded division, then a multiplication. *)
Lemma convertAmount_down_up (s : bool) (m : Q) (f t : Z) :
  0 <= t -> t < f ->
  convertAmount (BN_Fin s m) f t
    = Returned (BN_Fin s (round_dp (m / Qpower (inject_Z 10) (f - t)))) /\
  convertAmount (BN_Fin s (round_dp (m / Qpower (inject_Z 10) (f - t)))) t f
    = Returned (BN_Fin s (round_dp (m / Qpower (inject_Z 10) (f - t))
                          * Qpower (inject_Z 10) (f - t))).
Proof.
  intros Hf Hft. unfold convertAmount.
  replace (f <? 0) with false by lia. replace (t <? 0) with false by lia.
  replace (f =? t) with false by lia. replace (t =? f) with false by lia.
  replace (0 <? t - f) with false by lia. replace (0 <? f - t) with true by lia.
  replace (Z.abs (f - t)) with (f - t) by lia.
  replace (Z.abs (t - f)) with (f - t) by lia.
  cbn [orb negb bn_isFinite bn_isNaN]. unfold bn_pow.
  replace (f - t <? 0) with false by lia.
  cbn [bn_of_Z bn_pow_nonneg bn_times bn_div andb].
  replace (10 <? 0) with false by reflexivity.
  cbn [andb Z.abs]. rewrite !xorb_false_r.
  rewrite pow10_nonzero. split; reflexivity.
Qed.




(** The bound at work: one unit at 30 decimals is far below
    [10^-DECIMAL_PLACES] units at 0 decimals, and comes back as zero. *)
Example convertAmount_one_unit_at_30_decimals :
  convertAmount (BN_Fin false 1) 30 0 = Returned (BN_Fin false (round_dp (1 / Qpower (inject_Z 10) 30)))
  /\ (round_dp (1 / Qpower (inject_Z 10) 30) == 0)%Q.
Proof. split; [apply convertAmount_down_up; lia | reflexivity]. Qed.

(** ** isTransactionTimedOut *)

Lemma Qle_bool_false (x y : Q) : Qle_bool x y = false <-> (y < x)%Q.
Proof.
  split; intros H.
  - apply Qnot_le_lt. intros K. apply Qle_bool_iff in K. congruence.
  - destruct (Qle_bool x y) eqn:E; [|reflexivity].
    apply Qle_bool_iff in E. exfalso. apply (Qlt_not_le _ _ H E).
Qed.

(** C5, as the code has it.  With a positive timeout: a positive timestamp
    gives a returned boolean that is true exactly when [now - timestamp]
    exceeds the timeout, and false for a timestamp more than 300000 ms ahead
    of [now]; a timestamp that is zero, negative or NaN makes the function
    throw instead of returning. *)
Theorem isTransactionTimedOut_decides (now : Z) (timestamp timeoutMs : Q) :
  (0 < timeoutMs)%Q ->
  ((0 < timestamp)%Q ->
   exists b,
     isTransactionTimedOut now (JsNum timestamp) (JsNum timeoutMs) = Returned b /\
     (b = true <-> (timeoutMs < inject_Z now - timestamp)%Q) /\
     ((inject_Z now + 300000 < timestamp)%Q -> b = false)) /\
  ((timestamp <= 0)%Q ->
   isTransactionTimedOut now (JsNum timestamp) (JsNum timeoutMs)
     = Thrown "Invalid transaction timestamp") /\
  isTransactionTimedOut now JsNaN (JsNum timeoutMs) = Thrown "Invalid transaction timestamp".
Proof.
  intros Hto. unfold isTransactionTimedOut, num_of_Z.
  cbn [num_isNaN orb num_le num_gt num_add num_sub num_neg].
  split; [|split; [|reflexivity]].
  - intros Hts.
    assert (E1 : Qle_bool timestamp (inject_Z 0) = false) by (apply Qle_bool_false; exact Hts).
    assert (E2 : Qle_bool timeoutMs (inject_Z 0) = false) by (apply Qle_bool_false; exact Hto).
    rewrite E1, E2.
    destruct (Qle_bool timestamp (inject_Z now + inject_Z 300000)) eqn:E3; cbn [negb].
    + apply Qle_bool_iff in E3.
      exists (negb (Qle_bool (inject_Z now + - timestamp) timeoutMs)).
      split; [reflexivity|]. split.
      * rewrite negb_true_iff, Qle_bool_false. reflexivity.
      * intros Hfut. exfalso. apply (Qlt_not_le _ _ Hfut). exact E3.
    + apply Qle_bool_false in E3.
      exists false. split; [reflexivity|]. split; [|reflexivity].
      split; [discriminate|]. intros H. exfalso.
      change (inject_Z 300000) with 300000%Q in E3. lra.
  - intros Hts.
    assert (E1 : Qle_bool timestamp (inject_Z 0) = true) by (apply Qle_bool_iff; exact Hts).
    rewrite E1. reflexivity.
Qed.

(** A transaction stamped ten seconds ago, against the hour of
    [verifyTransaction]. *)
Lemma isTransactionTimedOut_decides_witness :
  exists b,
    isTransactionTimedOut 1700000000000 (JsNum 1699999990000) (JsNum 3600000) = Returned b /\
    (b = true <-> (3600000 < inject_Z 1700000000000 - 1699999990000)%Q).
Proof.
  destruct (isTransactionTimedOut_decides 1700000000000 1699999990000 3600000 eq_refl)
    as [H _].
  destruct (H eq_refl) as (b & H1 & H2 & _).
  exists b. split; [exact H1 | exact H2].
Defined.

(** C5, as it is worded, at timestamp 0: [now - timestamp] exceeds the
    timeout, and the function throws rather than return true. *)
Lemma isTransactionTimedOut_zero_timestamp :
  ~ (isTransactionTimedOut 1700000000000 (JsNum 0) (JsNum 3600000) = Returned true
     <-> (3600000 < inject_Z 1700000000000 - 0)%Q).
Proof.
  intros [_ H]. assert (K : (3600000 < inject_Z 1700000000000 - 0)%Q) by reflexivity.
  specialize (H K). discriminate H.
Qed.

(** ** createTransactionHash and its three users *)



(** ** getTransactionStatus *)

(** C9.  An id of the ledger answers with the stored status; an id the ledger
    does not hold answers as if both chain handlers had been asked and the
    Algorand (source) answer preferred unless it is [FAILED]. *)
Theorem getTransactionStatus_local_then_chains (d : Deployment) (id : string) (w : World) :
  (forall tx, transactions w !! id = Some tx ->
              getTransactionStatus d id w = tx_status tx) /\
  (transactions w !! id = None ->
   getTransactionStatus d id w
     = prefer_source_answer (algorand_getBridgeTransactionStatus d id)
                            (ethereum_getBridgeTransactionStatus d id)).
Proof.
  unfold getTransactionStatus, prefer_source_answer. split.
  - intros tx ->. reflexivity.
  - intros ->. destruct (bool_decide _); reflexivity.
Qed.

Lemma getTransactionStatus_local_then_chains_witness :
  getTransactionStatus (sample_deployment 2) "a3f1c2d4e5b6a7980011"
    (set_transactions (fun m => <["a3f1c2d4e5b6a7980011" := sample_transaction LOCKED]> m)
                      fresh_world) = LOCKED /\
  getTransactionStatus (sample_deployment 2) "a3f1c2d4e5b6a7980011" fresh_world = PENDING.
Proof.
  split.
  - apply (getTransactionStatus_local_then_chains (sample_deployment 2)
             "a3f1c2d4e5b6a7980011" _) with (tx := sample_transaction LOCKED).
    reflexivity.
  - destruct (getTransactionStatus_local_then_chains (sample_deployment 2)
                "a3f1c2d4e5b6a7980011" fresh_world) as [_ H].
    rewrite H; reflexivity.
Defined.

(** ** The verifier responses *)

(** Whatever the endpoint answers, the first test on the body returns [null]
    for exactly the bodies the second test would accept. *)
Lemma requestVerifierSignature_null (d : Deployment) (url hash : string) (timeoutMs : Z) :
  requestVerifierSignature d url hash timeoutMs = None.
Proof.
  unfold requestVerifierSignature.
  destruct (fetch _ _ _) as [aborted | ok httpStatus [data|]]; try reflexivity;
    destruct ok; cbn [negb]; try reflexivity.
  destruct (has_string_signature data); reflexivity.
Qed.

(** A failed request, a non-success status, a body that does not parse and a
    body without a string [signature] all give [null]. *)
Lemma requestVerifierSignature_drops_malformed (d : Deployment) (url hash : string)
    (timeoutMs : Z) :
  well_formed_signature (fetch (outside d) (url ++ "/sign")%string hash) = None ->
  requestVerifierSignature d url hash timeoutMs = None.
Proof. intros _. apply requestVerifierSignature_null. Qed.

(** C2, where the code departs from it: a response with a success status and
    a string [signature] in its body is answered with [null], not with the
    signature. *)
Theorem requestVerifierSignature_drops_well_formed (d : Deployment) (url hash : string)
    (timeoutMs : Z) (sig : string) :
  well_formed_signature (fetch (outside d) (url ++ "/sign")%string hash) = Some sig ->
  requestVerifierSignature d url hash timeoutMs = None /\
  requestVerifierSignature d url hash timeoutMs <> Some sig.
Proof.
  intros _. rewrite requestVerifierSignature_null. split; [reflexivity | discriminate].
Qed.

Lemma requestVerifierSignature_drops_well_formed_witness :
  well_formed_signature
    (fetch sample_outside "https://verifier-1/sign" "abc") = Some "c2lnLTAx" /\
  requestVerifierSignature (sample_deployment 2) "https://verifier-1" "abc" 30000 = None.
Proof.
  split; [reflexivity|].
  apply (requestVerifierSignature_drops_well_formed (sample_deployment 2)
           "https://verifier-1" "abc" 30000 "c2lnLTAx").
  reflexivity.
Defined.

Lemma collectVerifierSignatures_nil (d : Deployment) (tx : BridgeTransaction) :
  collectVerifierSignatures d tx = [].
Proof.
  unfold collectVerifierSignatures.
  induction (verifiers (config d)) as [|url urls IH]; [reflexivity|].
  cbn [map omap list_omap]. rewrite requestVerifierSignature_null. exact IH.
Qed.

(** ** verifyTransaction *)

(** What [verifyTransaction] returns past the time-out test and the proof
    check. *)
Lemma verifyTransaction_not_timed_out (d : Deployment) (tx : BridgeTransaction) (w : World) :
  isTransactionTimedOut (clock (outside d)) (tx_timestamp tx) (num_of_Z 3600000)
    = Returned false ->
  (if bool_decide (tx_sourceChain tx = ALGORAND)
   then verifyAlgorandTransaction d tx else verifyTargetChainTransaction d tx) = true ->
  let sigs := collectVerifierSignatures d tx in
  let enough := num_le (minVerifierSignatures (config d))
                       (num_of_Z (Z.of_nat (length sigs))) in
  fst (verifyTransaction d tx w)
    = Returned {| isValid := enough; signatures := sigs;
                  vr_timestamp := clock (outside d); vr_error := None |}.
Proof.
  intros Ht Hp. unfold verifyTransaction, try_catch, lift, mbind, Run_bind.
  rewrite Ht. cbn match.
  destruct (bool_decide (tx_sourceChain tx = ALGORAND)); rewrite Hp; cbn [negb];
    unfold emitBridgeEvent; reflexivity.
Qed.

(** The comparison with the threshold is made on what was collected: the
    verdict is [signatures.length >= minVerifierSignatures]. *)
Lemma verifyTransaction_threshold (d : Deployment) (tx : BridgeTransaction) (w : World) :
  isTransactionTimedOut (clock (outside d)) (tx_timestamp tx) (num_of_Z 3600000)
    = Returned false ->
  (if bool_decide (tx_sourceChain tx = ALGORAND)
   then verifyAlgorandTransaction d tx else verifyTargetChainTransaction d tx) = true ->
  exists r,
    fst (verifyTransaction d tx w) = Returned r /\
    isValid r = num_le (minVerifierSignatures (config d))
                       (num_of_Z (Z.of_nat (length (signatures r)))).
Proof.
  intros Ht Hp. eexists. split; [apply verifyTransaction_not_timed_out; assumption|].
  reflexivity.
Qed.

(** C1, where the code departs from it.  For a transaction that is not timed
    out and passes the proof check, whatever the verifiers answer, the result
    carries no signature and is valid only when the threshold is at most
    zero: signatures in the agreed format are not counted. *)
Theorem verifyTransaction_counts_no_signature (d : Deployment) (tx : BridgeTransaction)
    (w : World) :
  isTransactionTimedOut (clock (outside d)) (tx_timestamp tx) (num_of_Z 3600000)
    = Returned false ->
  (if bool_decide (tx_sourceChain tx = ALGORAND)
   then verifyAlgorandTransaction d tx else verifyTargetChainTransaction d tx) = true ->
  exists r,
    fst (verifyTransaction d tx w) = Returned r /\
    signatures r = [] /\
    isValid r = num_le (minVerifierSignatures (config d)) (num_of_Z 0).
Proof.
  intros Ht Hp. eexists. split; [apply verifyTransaction_not_timed_out; assumption|].
  cbn [signatures isValid]. rewrite collectVerifierSignatures_nil. split; reflexivity.
Qed.

(** Three verifiers, each answering with a signature in the agreed format,
    and a threshold of one: the verdict is invalid. *)
Lemma verifyTransaction_counts_no_signature_witness :
  Forall (fun url =>
            well_formed_signature
              (fetch sample_outside (url ++ "/sign")%string
                 (createTransactionHash sample_libraries ALGORAND ETHEREUM "ALGOSENDER"
                    "0xreceiver" "100" (num_of_Z 31000000)))
            = Some "c2lnLTAx")
         (verifiers (sample_config 1)) /\
  exists r,
    fst (verifyTransaction (sample_deployment 1) (sample_transaction PENDING) fresh_world)
      = Returned r /\
    signatures r = [] /\ isValid r = false.
Proof.
  split; [repeat constructor|].
  apply (verifyTransaction_counts_no_signature (sample_deployment 1)
           (sample_transaction PENDING) fresh_world); reflexivity.
Defined.

(** ** Relations between the world before and after a computation *)

Section Keeps.
Context (R : World -> World -> Prop) `{!Bookkeeping R}.

Lemma keeps_mret {A} (a : A) : keeps R (mret a).
Proof. intros w. apply bk_refl. Qed.

Lemma keeps_throw {A} (m : string) : keeps R (@throw A m).
Proof. intros w. apply bk_refl. Qed.

Lemma keeps_lift {A} (o : Outcome A) : keeps R (lift o).
Proof. intros w. apply bk_refl. Qed.

Lemma keeps_bind_from {A B} (c : Run A) (k : A -> Run B) :
  keeps R c ->
  (forall w a w', c w = (Returned a, w') -> R w' (snd (k a w'))) ->
  keeps R (c ≫= k).
Proof.
  intros Hc Hk w. unfold mbind, Run_bind. specialize (Hc w).
  destruct (c w) as [[a|m] w'] eqn:E; cbn [snd] in *.
  - eapply bk_trans; [exact Hc | eapply Hk; exact E].
  - exact Hc.
Qed.

Lemma keeps_bind {A B} (c : Run A) (k : A -> Run B) :
  keeps R c -> (forall a, keeps R (k a)) -> keeps R (c ≫= k).
Proof. intros Hc Hk. apply keeps_bind_from; [exact Hc | intros; apply Hk]. Qed.

Lemma keeps_try_catch {A} (body : Run A) (handler : string -> Run A) :
  keeps R body -> (forall m, keeps R (handler m)) -> keeps R (try_catch body handler).
Proof.
  intros Hb Hh w. unfold try_catch. specialize (Hb w).
  destruct (body w) as [[a|m] w']; cbn [snd] in *; [exact Hb|].
  eapply bk_trans; [exact Hb | apply Hh].
Qed.

Lemma keeps_record_call (c : AdapterCall) : keeps R (record_call c).
Proof. intros w. apply bk_call. Qed.

Lemma keeps_generateBridgeId (out : Outside) : keeps R (generateBridgeId out).
Proof. intros w. apply bk_draw. Qed.

Lemma keeps_store_get (key : string) : keeps R (store_get key).
Proof. intros w. apply bk_refl. Qed.

Lemma keeps_store_set (key : string) (tx : BridgeTransaction) :
  may_store R key tx -> keeps R (store_set key tx).
Proof. intros H w. apply H. Qed.

Lemma keeps_emit (d : Deployment) (own : option (BridgeEvent -> Run unit))
    (type : BridgeEventType) (tx : BridgeTransaction) (details : EventDetails) :
  (forall listener event,
      own = Some listener -> ev_transaction event = tx -> keeps R (listener event)) ->
  keeps R (emitBridgeEvent d own type tx details).
Proof.
  intros H w. unfold emitBridgeEvent.
  destruct own as [listener|].
  - cbn [snd]. eapply bk_trans; [apply bk_event | eapply H; reflexivity].
  - destruct (_ && _); cbn [snd]; apply bk_event.
Qed.

Lemma keeps_emit_unheard (d : Deployment) (type : BridgeEventType)
    (tx : BridgeTransaction) (details : EventDetails) :
  keeps R (emitBridgeEvent d None type tx details).
Proof. apply keeps_emit. intros ? ? [=]. Qed.

(** The chain handlers never write to the ledger. *)

Lemma keeps_releaseCarbonCredits d id receiver amount :
  keeps R (releaseCarbonCredits d id receiver amount).
Proof.
  unfold releaseCarbonCredits.
  apply keeps_bind; [apply keeps_record_call | intros _].
  apply keeps_try_catch; [|intros; apply keeps_mret].
  destruct (algorand_bridgeAccount (config d)); [|apply keeps_throw].
  apply keeps_bind; [apply keeps_lift | intros firstRound].
  apply keeps_bind; [apply keeps_lift | intros blob].
  apply keeps_bind; [apply keeps_emit_unheard | intros _].
  apply keeps_bind; [apply keeps_lift | intros sent].
  apply keeps_bind; [apply keeps_emit_unheard | intros _].
  apply keeps_mret.
Qed.

Lemma keeps_mintWrappedCarbonCredits d id receiver amount source :
  keeps R (mintWrappedCarbonCredits d id receiver amount source).
Proof.
  unfold mintWrappedCarbonCredits.
  apply keeps_bind; [apply keeps_record_call | intros _].
  apply keeps_try_catch; [|intros; apply keeps_mret].
  destruct (ethereum_wallet (outside d)); [|apply keeps_throw].
  destruct (negb _); [apply keeps_throw|].
  apply keeps_bind; [apply keeps_lift | intros minted].
  apply keeps_bind; [apply keeps_emit_unheard | intros _].
  destruct (contract_mint _ _ _ _ _).
  - apply keeps_bind; [apply keeps_emit_unheard | intros _]. apply keeps_mret.
  - apply keeps_mret.
  - apply keeps_throw.
Qed.

(** The listeners write what they are handed. *)

Lemma keeps_handleTimeoutEvent d event :
  may_store R (tx_id (ev_transaction event)) (with_status (ev_transaction event) FAILED) ->
  keeps R (handleTimeoutEvent d event).
Proof.
  intros Hw. unfold handleTimeoutEvent.
  apply keeps_try_catch; [|intros; apply keeps_mret].
  apply keeps_bind; [|intros _; apply keeps_store_set, Hw].
  destruct (_ && _); [|apply keeps_mret].
  apply keeps_bind; [apply keeps_releaseCarbonCredits | intros; apply keeps_mret].
Qed.

Lemma keeps_handleVerificationEvent event :
  (forall w stored,
      transactions w !! tx_id (ev_transaction event) = Some stored ->
      R w (set_transactions
             (fun m => <[tx_id stored := spread_merge stored (ev_transaction event)]> m) w)) ->
  keeps R (handleVerificationEvent event).
Proof.
  intros Hw. unfold handleVerificationEvent.
  apply keeps_bind_from; [apply keeps_store_get|].
  intros w found w' E. unfold store_get in E. injection E as <- <-.
  destruct (transactions w !! _) as [stored|] eqn:L; [|apply bk_refl].
  apply Hw, L.
Qed.

Section OneTransaction.
Variable d : Deployment.
Variable tx : BridgeTransaction.
Hypothesis store_failed : may_store R (tx_id tx) (with_status tx FAILED).
Hypothesis store_merged : forall w stored,
  transactions w !! tx_id tx = Some stored ->
  R w (set_transactions (fun m => <[tx_id stored := spread_merge stored tx]> m) w).

Lemma keeps_verifyTransaction : keeps R (verifyTransaction d tx).
Proof.
  unfold verifyTransaction.
  apply keeps_try_catch; [|intros; apply keeps_mret].
  apply keeps_bind; [apply keeps_lift | intros timedOut].
  destruct timedOut.
  - apply keeps_bind; [|intros; apply keeps_mret].
    apply keeps_emit. intros listener event [= <-] E.
    apply keeps_handleTimeoutEvent. rewrite E. exact store_failed.
  - destruct (negb _); [apply keeps_mret|].
    apply keeps_bind; [|intros; apply keeps_mret].
    apply keeps_emit. intros listener event [= <-] E.
    apply keeps_handleVerificationEvent. rewrite E. exact store_merged.
Qed.

Hypothesis store_snapshot : may_store R (tx_id tx) tx.

Lemma keeps_handleLockEvent event :
  ev_transaction event = tx ->
  (forall w1 w2 verification hash,
      verifyTransaction d tx w1 = (Returned verification, w2) ->
      isValid verification = true ->
      may_store R (tx_id tx) (with_status_and_target tx MINTED hash)) ->
  keeps R (handleLockEvent d event).
Proof.
  intros E Hm. unfold handleLockEvent. rewrite E.
  apply keeps_try_catch; [|intros; apply keeps_emit_unheard].
  apply keeps_bind; [apply keeps_store_set, store_snapshot | intros _].
  apply keeps_bind_from; [apply keeps_verifyTransaction|].
  intros w1 verification w2 Ev.
  destruct (isValid verification) eqn:V; [|apply keeps_emit_unheard].
  unfold mintOnTargetChain.
  apply keeps_try_catch; [|intros; apply keeps_throw].
  apply keeps_bind; [apply keeps_mintWrappedCarbonCredits | intros result].
  destruct (success result); [|apply keeps_throw].
  apply keeps_store_set. eapply Hm; eassumption.
Qed.

Lemma keeps_handleBurnEvent event :
  ev_transaction event = tx ->
  (forall w1 w2 verification hash,
      verifyTransaction d tx w1 = (Returned verification, w2) ->
      isValid verification = true ->
      may_store R (tx_id tx) (with_status_and_target tx RELEASED hash)) ->
  keeps R (handleBurnEvent d event).
Proof.
  intros E Hm. unfold handleBurnEvent. rewrite E.
  apply keeps_try_catch; [|intros; apply keeps_emit_unheard].
  apply keeps_bind; [apply keeps_store_set, store_snapshot | intros _].
  apply keeps_bind_from; [apply keeps_verifyTransaction|].
  intros w1 verification w2 Ev.
  destruct (isValid verification) eqn:V; [|apply keeps_emit_unheard].
  unfold releaseOnAlgorand.
  apply keeps_try_catch; [|intros; apply keeps_throw].
  apply keeps_bind; [apply keeps_releaseCarbonCredits | intros result].
  destruct (success result); [|apply keeps_throw].
  apply keeps_store_set. eapply Hm; eassumption.
Qed.
End OneTransaction.
(** A relation that allows every write is kept by every listener and by
    every public operation. *)
Section AnyWrite.
Hypothesis any_write : forall key tx, may_store R key tx.

Lemma keeps_any_handleLockEvent d event : keeps R (handleLockEvent d event).
Proof.
  apply (keeps_handleLockEvent d (ev_transaction event)); try apply any_write;
    try reflexivity.
  - intros w stored _. apply any_write.
  - intros. apply any_write.
Qed.

Lemma keeps_any_handleBurnEvent d event : keeps R (handleBurnEvent d event).
Proof.
  apply (keeps_handleBurnEvent d (ev_transaction event)); try apply any_write;
    try reflexivity.
  - intros w stored _. apply any_write.
  - intros. apply any_write.
Qed.

Lemma keeps_lockCarbonCredits_try d sender receiver amount :
  keeps R (lockCarbonCredits_try d sender receiver amount).
Proof.
  unfold lockCarbonCredits_try.
  apply keeps_try_catch; [|intros; apply keeps_mret].
  destruct (algorand_bridgeAccount (config d)); [|apply keeps_throw].
  apply keeps_bind; [apply keeps_generateBridgeId | intros id].
  apply keeps_bind; [apply keeps_lift | intros firstRound].
  apply keeps_bind; [apply keeps_lift | intros group].
  apply keeps_bind; [|intros; apply keeps_mret].
  apply keeps_emit. intros listener event [= <-] _. apply keeps_any_handleLockEvent.
Qed.

Lemma keeps_lockCarbonCredits d sender receiver amount metadata :
  keeps R (lockCarbonCredits d sender receiver amount metadata).
Proof.
  unfold lockCarbonCredits.
  apply keeps_bind; [apply keeps_record_call | intros _].
  apply keeps_lockCarbonCredits_try.
Qed.

Lemma keeps_burnWrappedCarbonCredits d sender receiver amount :
  keeps R (burnWrappedCarbonCredits d sender receiver amount).
Proof.
  unfold burnWrappedCarbonCredits.
  apply keeps_bind; [apply keeps_record_call | intros _].
  apply keeps_try_catch; [|intros; apply keeps_mret].
  apply keeps_bind; [apply keeps_generateBridgeId | intros id].
  apply keeps_bind; [apply keeps_lift | intros wei].
  apply keeps_bind; [apply keeps_lift | intros burned].
  apply keeps_bind; [|intros _].
  - apply keeps_emit. intros listener event [= <-] _. apply keeps_any_handleBurnEvent.
  - apply keeps_bind; [apply keeps_lift | intros; apply keeps_mret].
Qed.
End AnyWrite.
End Keeps.

(** ** The relations at hand *)

#[global] Instance same_ledger_bookkeeping : Bookkeeping same_ledger.
Proof.
  split; unfold same_ledger; try reflexivity.
  intros w1 w2 w3 H1 H2. congruence.
Qed.

#[global] Instance calls_extended_bookkeeping : Bookkeeping calls_extended.
Proof.
  split; unfold calls_extended.
  - intros w. exists []. symmetry. apply app_nil_r.
  - intros w1 w2 w3 [l1 H1] [l2 H2]. exists (l1 ++ l2)%list.
    rewrite H2, H1. symmetry. apply app_assoc.
  - intros c w. exists [c]. reflexivity.
  - intros e w. exists []. symmetry. apply app_nil_r.
  - intros out w. exists []. symmetry. apply app_nil_r.
Qed.

Lemma written_trans P (m1 m2 m3 : gmap string BridgeTransaction) :
  written P m1 m2 -> written P m2 m3 -> written P m1 m3.
Proof.
  intros H12 H23. induction H23 as [|m' key tx _ IH HP]; [exact H12|].
  apply written_more; assumption.
Qed.

Lemma written_lookup P (m m' : gmap string BridgeTransaction) (id : string) :
  written P m m' ->
  m' !! id = m !! id \/ exists tx, m' !! id = Some tx /\ P id tx.
Proof.
  induction 1 as [|m' key tx _ IH HP]; [left; reflexivity|].
  destruct (decide (key = id)) as [->|Hne].
  - right. exists tx. rewrite lookup_insert_eq. split; [reflexivity | exact HP].
  - rewrite lookup_insert_ne by exact Hne. exact IH.
Qed.

#[global] Instance ledger_written_bookkeeping P : Bookkeeping (ledger_written P).
Proof.
  split; unfold ledger_written; try (intros; apply written_none).
  intros w1 w2 w3. apply written_trans.
Qed.

#[global] Instance others_kept_bookkeeping key : Bookkeeping (others_kept key).
Proof.
  split; unfold others_kept; try (intros; split; [assumption | reflexivity]).
  intros w1 w2 w3 H12 H23 K1. destruct (H12 K1) as [K2 E2].
  destruct (H23 K2) as [K3 E3]. split; [exact K3|].
  intros id Hid. rewrite E3, E2 by exact Hid. reflexivity.
Qed.

(** ** What each listener leaves in the ledger *)

Lemma releaseCarbonCredits_same_ledger d id receiver amount :
  keeps same_ledger (releaseCarbonCredits d id receiver amount).
Proof.
  apply keeps_releaseCarbonCredits; exact _.
Qed.

Lemma mintWrappedCarbonCredits_same_ledger d id receiver amount source :
  keeps same_ledger (mintWrappedCarbonCredits d id receiver amount source).
Proof.
  apply keeps_mintWrappedCarbonCredits; exact _.
Qed.

Lemma emit_unheard_same_ledger d type tx details :
  keeps same_ledger (emitBridgeEvent d None type tx details).
Proof.
  apply keeps_emit_unheard; exact _.
Qed.

(** A [try] whose [catch] returns does return. *)
Lemma try_catch_returns {A} (body : Run A) (handler : string -> Run A) (w : World) :
  (forall m w', exists a, fst (handler m w') = Returned a) ->
  exists a, fst (try_catch body handler w) = Returned a.
Proof.
  intros H. unfold try_catch. destruct (body w) as [[a|m] w'].
  - exists a. reflexivity.
  - apply H.
Qed.

Lemma bind_returns {A B} (c : Run A) (k : A -> Run B) (w : World) :
  (exists a, fst (c w) = Returned a) ->
  (forall a w', exists b, fst (k a w') = Returned b) ->
  exists b, fst ((c ≫= k) w) = Returned b.
Proof.
  intros [a Ha] Hk. unfold mbind, Run_bind.
  destruct (c w) as [o w']. cbn [fst] in Ha. subst o. apply Hk.
Qed.

(** [releaseCarbonCredits] catches whatever goes wrong and returns. *)
Lemma releaseCarbonCredits_returns d id receiver amount w :
  exists r, fst (releaseCarbonCredits d id receiver amount w) = Returned r.
Proof.
  unfold releaseCarbonCredits. apply bind_returns.
  - eexists. reflexivity.
  - intros _ w'. apply try_catch_returns. intros m w''. eexists. reflexivity.
Qed.

Lemma handleTimeoutEvent_ledger d event w :
  transactions (snd (handleTimeoutEvent d event w))
    = <[tx_id (ev_transaction event) := with_status (ev_transaction event) FAILED]>
        (transactions w).
Proof.
  unfold handleTimeoutEvent, try_catch, mbind, Run_bind.
  destruct (_ && _).
  - pose proof (releaseCarbonCredits_same_ledger d (tx_id (ev_transaction event))
                  (tx_sender (ev_transaction event))
                  (bn_toNumber (outside d) (tx_amount (ev_transaction event))) w) as Hs.
    destruct (releaseCarbonCredits_returns d (tx_id (ev_transaction event))
                  (tx_sender (ev_transaction event))
                  (bn_toNumber (outside d) (tx_amount (ev_transaction event))) w) as [r Hr].
    unfold same_ledger in Hs.
    destruct (releaseCarbonCredits _ _ _ _ _) as [o w']. cbn [fst snd] in *. subst o.
    cbn. rewrite Hs. reflexivity.
  - reflexivity.
Qed.

Lemma handleVerificationEvent_ledger event w :
  transactions (snd (handleVerificationEvent event w))
    = match transactions w !! tx_id (ev_transaction event) with
      | Some stored =>
          <[tx_id stored := spread_merge stored (ev_transaction event)]> (transactions w)
      | None => transactions w
      end.
Proof.
  unfold handleVerificationEvent, store_get, mbind, Run_bind.
  destruct (transactions w !! _); reflexivity.
Qed.

Lemma mintOnTargetChain_ledger d tx w :
  transactions (snd (mintOnTargetChain d tx w)) = transactions w \/
  exists hash,
    transactions (snd (mintOnTargetChain d tx w))
      = <[tx_id tx := with_status_and_target tx MINTED hash]> (transactions w).
Proof.
  unfold mintOnTargetChain, try_catch, mbind, Run_bind.
  pose proof (mintWrappedCarbonCredits_same_ledger d (tx_id tx) (tx_receiver tx)
                (bn_toString (libraries d) (tx_amount tx))
                (default "" (tx_sourceTransactionId tx)) w) as Hs.
  unfold same_ledger in Hs.
  destruct (mintWrappedCarbonCredits _ _ _ _ _ _) as [[result|m] w']; cbn [snd] in *.
  - destruct (success result); cbn.
    + right. exists (transactionId result). rewrite Hs. reflexivity.
    + left. exact Hs.
  - left. exact Hs.
Qed.

Lemma releaseOnAlgorand_ledger d tx w :
  transactions (snd (releaseOnAlgorand d tx w)) = transactions w \/
  exists hash,
    transactions (snd (releaseOnAlgorand d tx w))
      = <[tx_id tx := with_status_and_target tx RELEASED hash]> (transactions w).
Proof.
  unfold releaseOnAlgorand, try_catch, mbind, Run_bind.
  pose proof (releaseCarbonCredits_same_ledger d (tx_id tx) (tx_receiver tx)
                (bn_toNumber (outside d) (tx_amount tx)) w) as Hs.
  unfold same_ledger in Hs.
  destruct (releaseCarbonCredits _ _ _ _ _) as [[result|m] w']; cbn [snd] in *.
  - destruct (success result); cbn.
    + right. exists (transactionId result). rewrite Hs. reflexivity.
    + left. exact Hs.
  - left. exact Hs.
Qed.

(** The lock listener: the snapshot is stored, [verifyTransaction] runs, and
    the only later write is the one of [mintOnTargetChain], made after a
    valid result. *)
Lemma handleLockEvent_ledger d event w o w2 :
  verifyTransaction d (ev_transaction event)
    (snd (store_set (tx_id (ev_transaction event)) (ev_transaction event) w)) = (o, w2) ->
  transactions (snd (handleLockEvent d event w)) = transactions w2 \/
  exists verification hash,
    o = Returned verification /\ isValid verification = true /\
    transactions (snd (handleLockEvent d event w))
      = <[tx_id (ev_transaction event)
          := with_status_and_target (ev_transaction event) MINTED hash]> (transactions w2).
Proof.
  intros E. unfold handleLockEvent, try_catch, mbind, Run_bind.
  cbn [store_set snd] in *. rewrite E.
  destruct o as [verification|m]; [|left; apply emit_unheard_same_ledger].
  destruct (isValid verification) eqn:V.
  - destruct (mintOnTargetChain_ledger d (ev_transaction event) w2) as [Hm|[hash Hm]].
    + left. destruct (mintOnTargetChain _ _ _) as [[[]|m] w3]; cbn [snd] in *;
        [exact Hm|]. rewrite <- Hm. apply emit_unheard_same_ledger.
    + right. exists verification, hash. split; [reflexivity|]. split; [exact V|].
      destruct (mintOnTargetChain _ _ _) as [[[]|m] w3]; cbn [snd] in *;
        [exact Hm|]. rewrite <- Hm. apply emit_unheard_same_ledger.
  - left.
    pose proof (emit_unheard_same_ledger d EV_ERROR (ev_transaction event)
                  (VerificationFailedDetails (vr_error verification)) w2) as H1.
    unfold same_ledger in H1.
    destruct (emitBridgeEvent _ _ _ _ _ _) as [[[]|m] w3]; cbn [snd] in *;
      [exact H1|]. rewrite <- H1. apply emit_unheard_same_ledger.
Qed.

Lemma handleBurnEvent_ledger d event w o w2 :
  verifyTransaction d (ev_transaction event)
    (snd (store_set (tx_id (ev_transaction event)) (ev_transaction event) w)) = (o, w2) ->
  transactions (snd (handleBurnEvent d event w)) = transactions w2 \/
  exists verification hash,
    o = Returned verification /\ isValid verification = true /\
    transactions (snd (handleBurnEvent d event w))
      = <[tx_id (ev_transaction event)
          := with_status_and_target (ev_transaction event) RELEASED hash]> (transactions w2).
Proof.
  intros E. unfold handleBurnEvent, try_catch, mbind, Run_bind.
  cbn [store_set snd] in *. rewrite E.
  destruct o as [verification|m]; [|left; apply emit_unheard_same_ledger].
  destruct (isValid verification) eqn:V.
  - destruct (releaseOnAlgorand_ledger d (ev_transaction event) w2) as [Hm|[hash Hm]].
    + left. destruct (releaseOnAlgorand _ _ _) as [[[]|m] w3]; cbn [snd] in *;
        [exact Hm|]. rewrite <- Hm. apply emit_unheard_same_ledger.
    + right. exists verification, hash. split; [reflexivity|]. split; [exact V|].
      destruct (releaseOnAlgorand _ _ _) as [[[]|m] w3]; cbn [snd] in *;
        [exact Hm|]. rewrite <- Hm. apply emit_unheard_same_ledger.
  - left.
    pose proof (emit_unheard_same_ledger d EV_ERROR (ev_transaction event)
                  (VerificationFailedDetails (vr_error verification)) w2) as H1.
    unfold same_ledger in H1.
    destruct (emitBridgeEvent _ _ _ _ _ _) as [[[]|m] w3]; cbn [snd] in *;
      [exact H1|]. rewrite <- H1. apply emit_unheard_same_ledger.
Qed.

(** ** Minted and released entries *)

Lemma verifyTransaction_writes_snapshot_status d tx :
  minted_or_released (tx_status tx) = false ->
  keeps (ledger_written not_yet_final) (verifyTransaction d tx).
Proof.
  intros Hs. apply keeps_verifyTransaction; [exact _ | |].
  - intros w. apply written_more; [apply written_none | reflexivity].
  - intros w stored _. apply written_more; [apply written_none | exact Hs].
Qed.

(** C3, as the code has it.  When a listener of the bridge has handled an
    event whose transaction snapshot is neither minted nor released, an entry
    of the ledger that is minted or released either was in the ledger as it
    is before the event, or sits under the id of the event's transaction and
    was written by the lock listener as [MINTED], or by the burn listener as
    [RELEASED], after the run of [verifyTransaction] that listener made on
    this transaction returned [isValid = true]. *)
Theorem minted_or_released_only_when_verified (d : Deployment) (event : BridgeEvent)
    (w : World) (id : string) (entry : BridgeTransaction) :
  minted_or_released (tx_status (ev_transaction event)) = false ->
  transactions (snd (deliver d event w)) !! id = Some entry ->
  minted_or_released (tx_status entry) = true ->
  transactions w !! id = Some entry \/
  (id = tx_id (ev_transaction event) /\
   verified_valid d (ev_transaction event) w /\
   ((ev_type event = EV_LOCK /\ tx_status entry = MINTED) \/
    (ev_type event = EV_BURN /\ tx_status entry = RELEASED))).
Proof.
  intros Hsnap Hentry Hfinal.
  set (tx := ev_transaction event) in *.
  assert (Hstored : forall w2,
            written not_yet_final (transactions w) w2 ->
            w2 !! id = Some entry -> transactions w !! id = Some entry).
  { intros w2 Hw L. destruct (written_lookup _ _ _ id Hw) as [Hsame | (v & Hv & HP)].
    - rewrite <- Hsame. exact L.
    - rewrite L in Hv. injection Hv as <-. unfold not_yet_final in HP. congruence. }
  assert (Hverify : forall o w2,
            verifyTransaction d tx (snd (store_set (tx_id tx) tx w)) = (o, w2) ->
            written not_yet_final (transactions w) (transactions w2)).
  { intros o w2 E.
    pose proof (verifyTransaction_writes_snapshot_status d tx Hsnap
                  (snd (store_set (tx_id tx) tx w))) as Hk.
    rewrite E in Hk. unfold ledger_written in Hk. cbn [snd] in Hk.
    eapply written_trans; [|exact Hk]. cbn.
    apply written_more; [apply written_none | exact Hsnap]. }
  unfold deliver, bridge_listener in Hentry.
  destruct (ev_type event) eqn:T.
  - (* lock *)
    destruct (verifyTransaction d tx (snd (store_set (tx_id tx) tx w))) as [o w2] eqn:E.
    destruct (handleLockEvent_ledger d event w o w2 E) as [Hl | (v & hash & -> & V & Hl)].
    + left. apply (Hstored (transactions w2)); [apply (Hverify _ w2 eq_refl)|].
      rewrite <- Hl. exact Hentry.
    + fold tx in Hl. rewrite Hl in Hentry.
      destruct (decide (tx_id tx = id)) as [Heq|Hne].
      * right. rewrite Heq, lookup_insert_eq in Hentry. injection Hentry as <-.
        split; [symmetry; exact Heq|]. split; [exists v, w2; split; assumption|].
        left. split; reflexivity.
      * left. rewrite lookup_insert_ne in Hentry by exact Hne.
        apply (Hstored (transactions w2)); [apply (Hverify _ w2 eq_refl) | exact Hentry].
  - left. exact Hentry.
  - (* burn *)
    destruct (verifyTransaction d tx (snd (store_set (tx_id tx) tx w))) as [o w2] eqn:E.
    destruct (handleBurnEvent_ledger d event w o w2 E) as [Hl | (v & hash & -> & V & Hl)].
    + left. apply (Hstored (transactions w2)); [apply (Hverify _ w2 eq_refl)|].
      rewrite <- Hl. exact Hentry.
    + fold tx in Hl. rewrite Hl in Hentry.
      destruct (decide (tx_id tx = id)) as [Heq|Hne].
      * right. rewrite Heq, lookup_insert_eq in Hentry. injection Hentry as <-.
        split; [symmetry; exact Heq|]. split; [exists v, w2; split; assumption|].
        right. split; reflexivity.
      * left. rewrite lookup_insert_ne in Hentry by exact Hne.
        apply (Hstored (transactions w2)); [apply (Hverify _ w2 eq_refl) | exact Hentry].
  - left. exact Hentry.
  - left. exact Hentry.
  - (* timeout *)
    rewrite handleTimeoutEvent_ledger in Hentry. fold tx in Hentry.
    left. refine (Hstored _ _ Hentry).
    apply written_more; [apply written_none | reflexivity].
  - (* verification *)
    rewrite handleVerificationEvent_ledger in Hentry. fold tx in Hentry.
    destruct (transactions w !! tx_id tx) as [stored|]; [|left; exact Hentry].
    left. refine (Hstored _ _ Hentry).
    apply written_more; [apply written_none | exact Hsnap].
Qed.

(** A lock event on a bridge whose threshold is zero: the transaction ends
    minted, after a valid verification. *)
Lemma minted_or_released_only_when_verified_witness :
  transactions fresh_world !! "a3f1c2d4e5b6a7980011"
    = Some (with_status_and_target (sample_transaction PENDING) MINTED "0xminted") \/
  ("a3f1c2d4e5b6a7980011" = tx_id (sample_transaction PENDING) /\
   verified_valid (sample_deployment 0) (sample_transaction PENDING) fresh_world /\
   ((EV_LOCK = EV_LOCK /\ MINTED = MINTED) \/ (EV_LOCK = EV_BURN /\ MINTED = RELEASED))).
Proof.
  apply (minted_or_released_only_when_verified (sample_deployment 0)
           (sample_event EV_LOCK PENDING) fresh_world "a3f1c2d4e5b6a7980011"
           (with_status_and_target (sample_transaction PENDING) MINTED "0xminted")).
  - reflexivity.
  - vm_compute. reflexivity.
  - reflexivity.
Defined.

(** C3, as it is worded, at a lock event whose snapshot already says
    [MINTED]: the lock listener stores the snapshot as it is, the
    verification it then runs is not valid, and the ledger holds a minted
    transaction. *)
Lemma lock_event_snapshot_stored_unverified :
  transactions fresh_world !! "a3f1c2d4e5b6a7980011" = None /\
  tx_status <$> (transactions
                   (snd (deliver (sample_deployment 2) (sample_event EV_LOCK MINTED)
                           fresh_world)) !! "a3f1c2d4e5b6a7980011") = Some MINTED /\
  ~ verified_valid (sample_deployment 2) (sample_transaction MINTED) fresh_world.
Proof.
  split; [reflexivity|]. split; [vm_compute; reflexivity|].
  intros (verification & w2 & E & V).
  vm_compute in E. injection E as <- _. discriminate V.
Qed.

(** The verification listener does the same with the snapshot of a
    verification event. *)
Example verification_event_snapshot_overwrites :
  tx_status <$> (transactions
                   (snd (deliver (sample_deployment 2) (sample_event EV_VERIFICATION MINTED)
                           (set_transactions
                              (fun m => <["a3f1c2d4e5b6a7980011" := sample_transaction LOCKED]> m)
                              fresh_world))) !! "a3f1c2d4e5b6a7980011") = Some MINTED.
Proof. vm_compute. reflexivity. Qed.

(** ** Entries under other ids, and entries that are final *)

Lemma well_keyed_empty : well_keyed ∅.
Proof. intros key tx H. rewrite lookup_empty in H. discriminate. Qed.

Lemma well_keyed_insert (m : gmap string BridgeTransaction) key tx :
  well_keyed m -> tx_id tx = key -> well_keyed (<[key := tx]> m).
Proof.
  intros Hm Hk key' tx' H. destruct (decide (key = key')) as [<-|Hne].
  - rewrite lookup_insert_eq in H. injection H as <-. exact Hk.
  - rewrite lookup_insert_ne in H by exact Hne. apply Hm, H.
Qed.

Lemma others_kept_write key tx : tx_id tx = key -> may_store (others_kept key) key tx.
Proof.
  intros Hk w Hw. split.
  - apply well_keyed_insert; assumption.
  - intros id Hid. cbn. apply lookup_insert_ne. congruence.
Qed.

(** Handling an event keeps the ledger well keyed and touches no entry but
    the one under the id of the event's transaction. *)
Lemma deliver_others_kept d event :
  keeps (others_kept (tx_id (ev_transaction event))) (deliver d event).
Proof.
  set (tx := ev_transaction event).
  assert (Hmerge : forall w stored,
            transactions w !! tx_id tx = Some stored ->
            others_kept (tx_id tx) w
              (set_transactions (fun m => <[tx_id stored := spread_merge stored tx]> m) w)).
  { intros w stored L Hw. rewrite (Hw _ _ L).
    apply (others_kept_write (tx_id tx) (spread_merge stored tx) eq_refl w Hw). }
  unfold deliver, bridge_listener. destruct (ev_type event).
  - apply (keeps_handleLockEvent _ d tx); try reflexivity; try exact Hmerge;
      intros; apply others_kept_write; reflexivity.
  - apply keeps_mret; exact _.
  - apply (keeps_handleBurnEvent _ d tx); try reflexivity; try exact Hmerge;
      intros; apply others_kept_write; reflexivity.
  - apply keeps_mret; exact _.
  - apply keeps_mret; exact _.
  - apply keeps_handleTimeoutEvent; [exact _|]. apply others_kept_write. reflexivity.
  - apply keeps_handleVerificationEvent; [exact _|]. exact Hmerge.
Qed.

Lemma deliver_well_keyed d event w :
  well_keyed (transactions w) -> well_keyed (transactions (snd (deliver d event w))).
Proof. intros Hw. apply (deliver_others_kept d event w Hw). Qed.

(** C4, as the code has it.  In a well-keyed ledger, take an entry whose
    status is [MINTED], [RELEASED] or [FAILED].  An event for another
    transaction id leaves the entry as it is, and so does an event of a type
    the bridge has no listener for.  An event for the entry's own id is not
    checked against the stored status: a timeout event leaves the entry
    [FAILED], a verification event leaves it with the status of the event's
    snapshot. *)
Theorem final_entry_and_later_events (d : Deployment) (event : BridgeEvent) (w : World)
    (id : string) (entry : BridgeTransaction) :
  well_keyed (transactions w) ->
  transactions w !! id = Some entry ->
  terminal (tx_status entry) = true ->
  let after := transactions (snd (deliver d event w)) in
  (tx_id (ev_transaction event) <> id -> after !! id = Some entry) /\
  (bridge_listener d (ev_type event) = None -> after !! id = Some entry) /\
  (tx_id (ev_transaction event) = id -> ev_type event = EV_TIMEOUT ->
   tx_status <$> after !! id = Some FAILED) /\
  (tx_id (ev_transaction event) = id -> ev_type event = EV_VERIFICATION ->
   tx_status <$> after !! id = Some (tx_status (ev_transaction event))).
Proof.
  intros Hw Hentry _. cbv zeta. repeat split.
  - intros Hne. destruct (deliver_others_kept d event w Hw) as [_ H].
    rewrite H by congruence. exact Hentry.
  - intros Hnone. unfold deliver. rewrite Hnone. exact Hentry.
  - intros Hid Ht. unfold deliver, bridge_listener. rewrite Ht.
    rewrite handleTimeoutEvent_ledger, Hid, lookup_insert_eq. reflexivity.
  - intros Hid Ht. unfold deliver, bridge_listener. rewrite Ht.
    rewrite handleVerificationEvent_ledger, Hid, Hentry.
    rewrite (Hw _ _ Hentry), lookup_insert_eq. reflexivity.
Qed.

(** A failed entry, and a timeout event for its id. *)
Lemma final_entry_and_later_events_witness :
  tx_status <$> (transactions
                   (snd (deliver (sample_deployment 2) (sample_event EV_TIMEOUT LOCKED)
                           (set_transactions
                              (fun m => <["a3f1c2d4e5b6a7980011" := sample_transaction FAILED]> m)
                              fresh_world))) !! "a3f1c2d4e5b6a7980011") = Some FAILED.
Proof.
  destruct (final_entry_and_later_events (sample_deployment 2)
              (sample_event EV_TIMEOUT LOCKED)
              (set_transactions
                 (fun m => <["a3f1c2d4e5b6a7980011" := sample_transaction FAILED]> m)
                 fresh_world)
              "a3f1c2d4e5b6a7980011" (sample_transaction FAILED))
    as (_ & _ & H & _).
  - apply well_keyed_insert; [apply well_keyed_empty | reflexivity].
  - reflexivity.
  - reflexivity.
  - apply H; reflexivity.
Defined.

(** C4, as it is worded, at a minted entry and a timeout event for its id:
    the stored status becomes [FAILED]. *)
Lemma timeout_event_overwrites_minted :
  let w := set_transactions
             (fun m => <["a3f1c2d4e5b6a7980011" := sample_transaction MINTED]> m)
             fresh_world in
  tx_status <$> (transactions w !! "a3f1c2d4e5b6a7980011") = Some MINTED /\
  tx_status <$> (transactions
                   (snd (deliver (sample_deployment 2) (sample_event EV_TIMEOUT LOCKED) w))
                   !! "a3f1c2d4e5b6a7980011") = Some FAILED.
Proof. split; vm_compute; reflexivity. Qed.

(** A second lock event for the id of a released entry replaces the entry. *)
Example lock_event_replaces_released :
  tx_status <$> (transactions
                   (snd (deliver (sample_deployment 2) (sample_event EV_LOCK PENDING)
                           (set_transactions
                              (fun m => <["a3f1c2d4e5b6a7980011" := sample_transaction RELEASED]> m)
                              fresh_world))) !! "a3f1c2d4e5b6a7980011") = Some PENDING.
Proof. vm_compute. reflexivity. Qed.

(** ** The public operations: what they return *)

Lemma message_or_unknown_nonempty (m : string) : message_or_unknown m <> "".
Proof.
  unfold message_or_unknown. destruct (String.eqb m "") eqn:E; [discriminate|].
  apply String.eqb_neq. exact E.
Qed.

Lemma failure_result_reports (id m : string) : reports_failure (failure_result id m).
Proof.
  split; [reflexivity|]. split; [reflexivity|].
  exists (message_or_unknown m). split; [reflexivity | apply message_or_unknown_nonempty].
Qed.

(** A [try] whose [catch] returns a failure result, around a body that
    returns nothing but successes. *)
Lemma try_catch_success_or_failure (body : Run BridgeResult) (id : string) (w : World) :
  (forall r w', body w = (Returned r, w') -> success r = true) ->
  exists r,
    fst (try_catch body (fun message => mret (failure_result id message)) w) = Returned r /\
    (success r = true \/ reports_failure r).
Proof.
  intros H. unfold try_catch. destruct (body w) as [[r|m] w'] eqn:E.
  - exists r. split; [reflexivity|]. left. eapply H. reflexivity.
  - exists (failure_result id m). split; [reflexivity|]. right. apply failure_result_reports.
Qed.

Lemma bind_returned {A B} (c : Run A) (k : A -> Run B) (w w' : World) (b : B) :
  (c ≫= k) w = (Returned b, w') ->
  exists a w1, c w = (Returned a, w1) /\ k a w1 = (Returned b, w').
Proof.
  unfold mbind, Run_bind. destruct (c w) as [[a|m] w1]; [|discriminate].
  intros H. exists a, w1. split; [reflexivity | exact H].
Qed.

Lemma lockCarbonCredits_returns d sender receiver amount metadata w :
  exists r,
    fst (lockCarbonCredits d sender receiver amount metadata w) = Returned r /\
    (success r = true \/ reports_failure r).
Proof.
  unfold lockCarbonCredits, mbind, Run_bind. cbn [record_call].
  unfold lockCarbonCredits_try. apply try_catch_success_or_failure.
  intros r w' H. destruct (algorand_bridgeAccount (config d)); [|discriminate].
  apply bind_returned in H as (id & w1 & _ & H).
  apply bind_returned in H as (firstRound & w2 & _ & H).
  apply bind_returned in H as (group & w3 & _ & H).
  apply bind_returned in H as (u & w4 & _ & H).
  injection H as <- _. reflexivity.
Qed.

Lemma releaseCarbonCredits_returns_result d id receiver amount w :
  exists r,
    fst (releaseCarbonCredits d id receiver amount w) = Returned r /\
    (success r = true \/ reports_failure r).
Proof.
  unfold releaseCarbonCredits, mbind at 1, Run_bind at 1. cbn [record_call].
  apply try_catch_success_or_failure.
  intros r w' H. destruct (algorand_bridgeAccount (config d)); [|discriminate].
  apply bind_returned in H as (firstRound & w1 & _ & H).
  apply bind_returned in H as (blob & w2 & _ & H).
  apply bind_returned in H as (u & w3 & _ & H).
  apply bind_returned in H as (sent & w4 & _ & H).
  apply bind_returned in H as (u' & w5 & _ & H).
  injection H as <- _. reflexivity.
Qed.

Lemma burnWrappedCarbonCredits_returns d sender receiver amount w :
  exists r,
    fst (burnWrappedCarbonCredits d sender receiver amount w) = Returned r /\
    (success r = true \/ reports_failure r).
Proof.
  unfold burnWrappedCarbonCredits, mbind at 1, Run_bind at 1. cbn [record_call].
  apply try_catch_success_or_failure.
  intros r w' H.
  apply bind_returned in H as (id & w1 & _ & H).
  apply bind_returned in H as (wei & w2 & _ & H).
  apply bind_returned in H as (burned & w3 & _ & H).
  apply bind_returned in H as (u & w4 & _ & H).
  apply bind_returned in H as (data & w5 & _ & H).
  injection H as <- _. reflexivity.
Qed.

Lemma bridgeToAlgorand_returns d sender receiver amount w :
  exists r,
    fst (bridgeToAlgorand d sender receiver amount w) = Returned r /\
    (success r = true \/ reports_failure r).
Proof.
  unfold bridgeToAlgorand, try_catch.
  match goal with
  | |- context [match ?body w with _ => _ end] =>
      destruct (body w) as [[r|m] w'] eqn:E
  end.
  - exists r. split; [reflexivity|].
    apply bind_returned in E as (fs & w1 & _ & E).
    apply bind_returned in E as (fr & w2 & _ & E).
    destruct (burnWrappedCarbonCredits_returns d fs fr
                (bn_toString (libraries d) (bn_new (libraries d) amount)) w2) as (r' & Hr & Hs).
    rewrite E in Hr. injection Hr as <-. exact Hs.
  - exists (failure_result "" m). split; [reflexivity|]. right. apply failure_result_reports.
Qed.

(** ** bridgeToTargetChain *)

(** The [catch] block touches neither the ledger nor the chain handlers; it
    returns the failure result when somebody listens on "error" and throws
    out of the [emit] when nobody does. *)
Lemma bridgeToTargetChain_catch_outcome d sender receiver message w :
  let run := bridgeToTargetChain_catch d sender receiver message w in
  transactions (snd run) = transactions w /\
  adapterCalls (snd run) = adapterCalls w /\
  subscriptions (snd run) = subscriptions w /\
  (error_unheard w -> fst run = Thrown ERR_UNHANDLED_ERROR) /\
  (~ error_unheard w -> exists r, fst run = Returned r /\ reports_failure r).
Proof.
  cbv zeta. unfold bridgeToTargetChain_catch, error_unheard, mbind, Run_bind,
    generateBridgeId, emitBridgeEvent.
  cbn [record_event subscriptions bool_decide decide_rel andb].
  rewrite bool_decide_eq_true_2 by reflexivity. cbn [andb].
  destruct (existsb (listens_to EV_ERROR) (subscriptions w)) eqn:E; cbn.
  - repeat split; try discriminate.
    intros _. eexists. split; [reflexivity|].
    split; [reflexivity|]. split; [reflexivity|].
    eexists. split; [reflexivity | apply message_or_unknown_nonempty].
  - repeat split; try reflexivity. intros H. exfalso. apply H. reflexivity.
Qed.

(** Whatever the [try] block throws, it throws before it reaches the chain
    handler, in the world it started in. *)
Lemma bridgeToTargetChain_try_throws d sender receiver amount metadata w m w' :
  bridgeToTargetChain_try d sender receiver amount metadata w = (Thrown m, w') -> w' = w.
Proof.
  unfold bridgeToTargetChain_try.
  destruct (String.eqb sender ""); [intros [= _ <-]; reflexivity|].
  destruct (String.eqb receiver ""); [intros [= _ <-]; reflexivity|].
  destruct (negb (amount_truthy amount)); [intros [= _ <-]; reflexivity|].
  destruct (_ || _); [intros [= _ <-]; reflexivity|].
  unfold mbind, Run_bind, lift.
  destruct (formatAddress _ sender _) as [fs|e1]; [|intros [= _ <-]; reflexivity].
  destruct (formatAddress _ receiver _) as [fr|e2]; [|intros [= _ <-]; reflexivity].
  destruct (truthy metadata).
  - destruct (validateCarbonMetadata metadata); [intros [= _ <-]; reflexivity|].
    cbn. intros H. exfalso.
    destruct (lockCarbonCredits_returns d fs fr
                (bn_toNumber (outside d) (bn_new (libraries d) amount)) metadata w)
      as (r & Hr & _).
    rewrite H in Hr. discriminate.
  - cbn. intros H. exfalso.
    destruct (lockCarbonCredits_returns d fs fr
                (bn_toNumber (outside d) (bn_new (libraries d) amount)) metadata w)
      as (r & Hr & _).
    rewrite H in Hr. discriminate.
Qed.

(** A refused input makes the [try] block throw. *)
Lemma bridgeToTargetChain_try_refuses d sender receiver amount metadata w :
  refused_input (libraries d) sender receiver amount metadata ->
  exists m, bridgeToTargetChain_try d sender receiver amount metadata w = (Thrown m, w).
Proof.
  intros Href. unfold bridgeToTargetChain_try.
  destruct (String.eqb sender "") eqn:E1; [eexists; reflexivity|].
  destruct (String.eqb receiver "") eqn:E2; [eexists; reflexivity|].
  destruct (amount_truthy amount) eqn:E3; cbn [negb]; [|eexists; reflexivity].
  destruct (bn_isNaN _) eqn:E4; cbn [orb]; [eexists; reflexivity|].
  destruct (bn_isPositive _) eqn:E5; cbn [negb]; [|eexists; reflexivity].
  unfold mbind, Run_bind, lift.
  destruct (formatAddress _ sender _) as [fs|e1]; [|eexists; reflexivity].
  destruct (formatAddress _ receiver _) as [fr|e2]; [|eexists; reflexivity].
  destruct (truthy metadata) eqn:E6.
  - destruct (validateCarbonMetadata metadata) eqn:E7; [eexists; reflexivity|].
    exfalso. destruct Href as [-> | [-> | [H | [H | [H | [_ H]]]]]];
      try discriminate; try congruence.
  - exfalso. destruct Href as [-> | [-> | [H | [H | [H | [H _]]]]]];
      try discriminate; try congruence.
Qed.

(** A refused input never reaches the lock operation and leaves the ledger
    as it is; with a listener on "error" the call returns a failure result,
    without one it throws. *)
Lemma bridgeToTargetChain_refusal d sender receiver amount metadata w :
  refused_input (libraries d) sender receiver amount metadata ->
  let run := bridgeToTargetChain d sender receiver amount metadata w in
  transactions (snd run) = transactions w /\
  adapterCalls (snd run) = adapterCalls w /\
  (error_unheard w -> fst run = Thrown ERR_UNHANDLED_ERROR) /\
  (~ error_unheard w -> exists r, fst run = Returned r /\ reports_failure r).
Proof.
  intros Href. cbv zeta. unfold bridgeToTargetChain, try_catch.
  destruct (bridgeToTargetChain_try_refuses d sender receiver amount metadata w Href)
    as [m ->].
  destruct (bridgeToTargetChain_catch_outcome d sender receiver m w)
    as (H1 & H2 & _ & H3 & H4).
  repeat split; assumption.
Qed.

(** With a listener on "error", [bridgeToTargetChain] returns on every input,
    and what it returns is a success or reports a failure. *)
Lemma bridgeToTargetChain_returns_when_heard d sender receiver amount metadata w :
  ~ error_unheard w ->
  exists r,
    fst (bridgeToTargetChain d sender receiver amount metadata w) = Returned r /\
    (success r = true \/ reports_failure r).
Proof.
  intros Hheard. unfold bridgeToTargetChain, try_catch.
  destruct (bridgeToTargetChain_try d sender receiver amount metadata w)
    as [[r|m] w'] eqn:E.
  - exists r. split; [reflexivity|].
    unfold bridgeToTargetChain_try in E.
    destruct (String.eqb sender ""); [discriminate|].
    destruct (String.eqb receiver ""); [discriminate|].
    destruct (negb (amount_truthy amount)); [discriminate|].
    destruct (_ || _); [discriminate|].
    apply bind_returned in E as (fs & w1 & _ & E).
    apply bind_returned in E as (fr & w2 & _ & E).
    apply bind_returned in E as (u & w3 & _ & E).
    destruct (lockCarbonCredits_returns d fs fr
                (bn_toNumber (outside d) (bn_new (libraries d) amount)) metadata w3)
      as (r' & Hr & Hs).
    rewrite E in Hr. injection Hr as <-. exact Hs.
  - apply bridgeToTargetChain_try_throws in E as ->.
    destruct (bridgeToTargetChain_catch_outcome d sender receiver m w)
      as (_ & _ & _ & _ & H).
    destruct (H Hheard) as (r & Hr & Hf). exists r. split; [exact Hr | right; exact Hf].
Qed.

(** C10, where the code departs from it.  On a bridge nobody listens to on
    the channel "error", a call of [bridgeToTargetChain] with a refused input
    throws: the [catch] block emits an error event before it returns its
    failure result, and that [emit] throws. *)
Theorem bridgeToTargetChain_throws_when_error_unheard (d : Deployment)
    (sender receiver : string) (amount : AmountArgument) (metadata : JsValue) (w : World) :
  refused_input (libraries d) sender receiver amount metadata ->
  error_unheard w ->
  fst (bridgeToTargetChain d sender receiver amount metadata w) = Thrown ERR_UNHANDLED_ERROR.
Proof.
  intros Href Hun.
  destruct (bridgeToTargetChain_refusal d sender receiver amount metadata w Href)
    as (_ & _ & H & _).
  apply H, Hun.
Qed.

(** Entering [lockCarbonCredits] is logged, and the log only grows. *)
Lemma lockCarbonCredits_calls d sender receiver amount metadata w :
  exists later,
    adapterCalls (snd (lockCarbonCredits d sender receiver amount metadata w))
      = (adapterCalls w ++ LockCall sender receiver amount metadata :: later)%list.
Proof.
  unfold lockCarbonCredits, mbind, Run_bind. cbn [record_call].
  match goal with
  | |- context [lockCarbonCredits_try d sender receiver amount ?w1] =>
      destruct (keeps_lockCarbonCredits_try calls_extended
                  (fun _ _ _ => ex_intro _ [] (eq_sym (app_nil_r _)))
                  d sender receiver amount w1) as [later H]
  end.
  exists later. rewrite H. cbn [adapterCalls]. rewrite <- app_assoc. reflexivity.
Qed.

(** C7, where the code departs from it.  An amount of zero handed over as a
    BigNumber passes the checks on the amount: with a sender and a receiver
    that format, the call is the call of [lockCarbonCredits] with amount
    zero, which it returns the result of. *)
Theorem bridgeToTargetChain_locks_zero_amount (d : Deployment) (sender receiver : string)
    (formattedReceiver : string) (w : World) :
  sender <> "" -> receiver <> "" ->
  algosdk_isValidAddress (libraries d) sender = true ->
  formatAddress (libraries d) receiver (targetChain_chainType (config d))
    = Returned formattedReceiver ->
  let zero := AmountBigNumber (BN_Fin false 0) in
  let run := bridgeToTargetChain d sender receiver zero JUndefined w in
  (exists r, fst run = Returned r /\ (success r = true \/ reports_failure r)) /\
  exists later,
    adapterCalls (snd run)
      = (adapterCalls w
         ++ LockCall sender formattedReceiver (bn_toNumber (outside d) (BN_Fin false 0))
              JUndefined :: later)%list.
Proof.
  intros Hs Hr Hvalid Hfmt. cbv zeta.
  assert (E : bridgeToTargetChain d sender receiver (AmountBigNumber (BN_Fin false 0))
                JUndefined w
              = lockCarbonCredits d sender formattedReceiver
                  (bn_toNumber (outside d) (BN_Fin false 0)) JUndefined w).
  { unfold bridgeToTargetChain, try_catch, bridgeToTargetChain_try.
    apply String.eqb_neq in Hs. apply String.eqb_neq in Hr. rewrite Hs, Hr.
    cbn [amount_truthy negb bn_new bn_isNaN bn_isPositive orb truthy].
    unfold mbind, Run_bind, lift, formatAddress at 1, formatAlgorandAddress.
    rewrite Hvalid, Hfmt. cbn [catchO mret Run_ret].
    destruct (lockCarbonCredits_returns d sender formattedReceiver
                (bn_toNumber (outside d) (BN_Fin false 0)) JUndefined w) as (r & Hret & _).
    destruct (lockCarbonCredits _ _ _ _ _ _) as [o w']. cbn [fst] in Hret. subst o.
    reflexivity. }
  rewrite E. split.
  - apply lockCarbonCredits_returns.
  - apply lockCarbonCredits_calls.
Qed.

(** A freshly built bridge and an empty sender. *)
Lemma bridgeToTargetChain_throws_when_error_unheard_witness :
  fst (bridgeToTargetChain (sample_deployment 2) "" "0xreceiver"
         (AmountNumber (num_of_Z 100)) JUndefined fresh_world)
    = Thrown ERR_UNHANDLED_ERROR.
Proof.
  apply (bridgeToTargetChain_throws_when_error_unheard (sample_deployment 2) ""
           "0xreceiver" (AmountNumber (num_of_Z 100)) JUndefined fresh_world).
  - left. reflexivity.
  - reflexivity.
Defined.

(** Zero credits from a sender and to a receiver that format. *)
Lemma bridgeToTargetChain_locks_zero_amount_witness :
  let run := bridgeToTargetChain (sample_deployment 2) "ALGOSENDER" "0xreceiver"
               (AmountBigNumber (BN_Fin false 0)) JUndefined fresh_world in
  (exists r, fst run = Returned r /\ (success r = true \/ reports_failure r)) /\
  exists later,
    adapterCalls (snd run)
      = ([] ++ LockCall "ALGOSENDER" "0xreceiver" (JsNum 0) JUndefined :: later)%list.
Proof.
  apply (bridgeToTargetChain_locks_zero_amount (sample_deployment 2) "ALGOSENDER"
           "0xreceiver" "0xreceiver" fresh_world).
  - discriminate.
  - discriminate.
  - reflexivity.
  - reflexivity.
Defined.

(** On the sample deployment that call succeeds and leaves a pending
    transaction in the ledger. *)
Example bridgeToTargetChain_zero_amount_is_stored :
  let run := bridgeToTargetChain (sample_deployment 2) "ALGOSENDER" "0xreceiver"
               (AmountBigNumber (BN_Fin false 0)) JUndefined fresh_world in
  success <$> (match fst run with Returned r => Some r | Thrown _ => None end) = Some true /\
  tx_status <$> (transactions (snd run) !! "a3f1c2d4e5b6a7980011") = Some PENDING /\
  bn_isZero <$> (tx_amount <$> (transactions (snd run) !! "a3f1c2d4e5b6a7980011"))
    = Some true.
Proof. vm_compute. repeat split. Qed.

(** * Further properties *)

(** ** createTransactionHash: the fields are fed without separators *)

Lemma append_associative (a b c : string) : ((a ++ b) ++ c = a ++ b ++ c)%string.
Proof.
  induction a as [|ch a IH]; [reflexivity|].
  change (String ch ((a ++ b) ++ c) = String ch (a ++ b ++ c)). rewrite IH. reflexivity.
Qed.

(** X1.  The digest does not see where one field ends and the next begins:
    moving characters from the end of the sender to the front of the
    receiver gives a transaction with other parties and the same hash, hence
    the same signature from [signTransaction] and the same verdict from
    [verifySignature] on any signature and key. *)
Theorem createTransactionHash_blind_to_field_boundaries (lib : Libraries)
    (tx : BridgeTransaction) (sender moved receiver : string)
    (privateKey signature publicKey : string) :
  let hash_of t :=
    createTransactionHash lib (tx_sourceChain t) (tx_targetChain t) (tx_sender t)
      (tx_receiver t) (bn_toString lib (tx_amount t)) (tx_nonce t) in
  let a := with_parties tx (sender ++ moved) receiver in
  let b := with_parties tx sender (moved ++ receiver) in
  hash_of a = hash_of b /\
  signTransaction lib a privateKey = signTransaction lib b privateKey /\
  verifySignature lib a signature publicKey = verifySignature lib b signature publicKey.
Proof.
  cbv zeta.
  assert (E : createTransactionHash lib (tx_sourceChain tx) (tx_targetChain tx)
                (sender ++ moved) receiver (bn_toString lib (tx_amount tx)) (tx_nonce tx)
              = createTransactionHash lib (tx_sourceChain tx) (tx_targetChain tx)
                sender (moved ++ receiver) (bn_toString lib (tx_amount tx)) (tx_nonce tx)).
  { unfold createTransactionHash. f_equal. f_equal. f_equal.
    rewrite !append_associative. reflexivity. }
  unfold signTransaction, verifySignature. cbn [with_parties tx_sourceChain tx_targetChain
    tx_sender tx_receiver tx_amount tx_nonce]. rewrite E. repeat split.
Qed.

(** ** convertAmount towards more decimals *)




(** ** isTransactionTimedOut as time passes *)

(** X3.  A transaction that has timed out stays timed out: when the call
    returns true at one reading of the clock, it returns true at every later
    reading, for the same timestamp and timeout (numbers of any kind). *)
Theorem isTransactionTimedOut_stays_true (now later : Z) (timestamp timeoutMs : number) :
  now <= later ->
  isTransactionTimedOut now timestamp timeoutMs = Returned true ->
  isTransactionTimedOut later timestamp timeoutMs = Returned true.
Proof.
  intros Hle. unfold isTransactionTimedOut, num_of_Z.
  destruct timestamp as [| [] | ts]; destruct timeoutMs as [| [] | tmo];
    cbn [num_isNaN orb num_le num_gt num_add num_sub num_neg negb Bool.eqb];
    try discriminate.
  all: try (destruct (Qle_bool ts (inject_Z 0)); discriminate).
  - intros H. exact H.
  - destruct (Qle_bool ts (inject_Z 0)); [discriminate|].
    destruct (negb (Qle_bool ts (inject_Z now + inject_Z 300000))); discriminate.
  - destruct (Qle_bool ts (inject_Z 0)) eqn:E1; [discriminate|].
    destruct (Qle_bool tmo (inject_Z 0)) eqn:E2; [discriminate|].
    destruct (Qle_bool ts (inject_Z now + inject_Z 300000)) eqn:E3; cbn [negb];
      [|discriminate].
    intros H. injection H as H. apply negb_true_iff in H.
    apply Qle_bool_false in H. apply Qle_bool_iff in E3.
    assert (Hq : (inject_Z now <= inject_Z later)%Q) by (rewrite <- Zle_Qle; exact Hle).
    assert (E3' : Qle_bool ts (inject_Z later + inject_Z 300000) = true).
    { apply Qle_bool_iff. lra. }
    rewrite E3'. cbn [negb]. f_equal. apply negb_true_iff. apply Qle_bool_false. lra.
Qed.

(** A little over an hour after the timestamp, and years after. *)
Lemma isTransactionTimedOut_stays_true_witness :
  isTransactionTimedOut 1700003700000 (JsNum 1700000000000) (JsNum 3600000) = Returned true /\
  isTransactionTimedOut 1800000000000 (JsNum 1700000000000) (JsNum 3600000) = Returned true.
Proof.
  split; [reflexivity|].
  apply (isTransactionTimedOut_stays_true 1700003700000 1800000000000); [lia | reflexivity].
Defined.

(** ** calculateSafeGasPrice *)






(** A transaction stamped with the current reading of the clock is not timed out. *)
Lemma isTransactionTimedOut_at_now (now : Z) :
  isTransactionTimedOut now (num_of_Z now) (num_of_Z 3600000) <> Returned true.
Proof.
  unfold isTransactionTimedOut, num_of_Z.
  cbn [num_isNaN orb num_le num_gt num_add num_sub num_neg].
  destruct (Qle_bool (inject_Z now) (inject_Z 0)); [discriminate|].
  change (Qle_bool (inject_Z 3600000) (inject_Z 0)) with false. cbv iota.
  assert (E1 : Qle_bool (inject_Z now) (inject_Z now + inject_Z 300000) = true).
  { apply Qle_bool_iff. change (inject_Z 300000) with 300000%Q. lra. }
  assert (E2 : Qle_bool (inject_Z now + - inject_Z now) (inject_Z 3600000) = true).
  { apply Qle_bool_iff. change (inject_Z 3600000) with 3600000%Q. lra. }
  rewrite E1, E2. discriminate.
Qed.

(** Without a source transaction id, and not timed out: the proof check
    fails before any verifier is asked, and nothing is emitted. *)
Lemma verifyTransaction_unsubmitted d tx w :
  missing_id (tx_sourceTransactionId tx) = true ->
  isTransactionTimedOut (clock (outside d)) (tx_timestamp tx) (num_of_Z 3600000)
    <> Returned true ->
  exists r, verifyTransaction d tx w = (Returned r, w) /\ isValid r = false /\
            signatures r = [] /\ vr_error r <> None.
Proof.
  intros Hid Ht. unfold verifyTransaction, try_catch, mbind, Run_bind, lift.
  destruct (isTransactionTimedOut _ _ _) as [[|]|m]; [congruence | |].
  - unfold verifyAlgorandTransaction, verifyTargetChainTransaction. rewrite Hid.
    destruct (bool_decide _); cbn; eexists; (split; [reflexivity|]); repeat split;
      discriminate.
  - cbn. eexists. split; [reflexivity|]. repeat split; discriminate.
Qed.

(** The world a listener leaves when the verification it ran came back
    invalid without a change of the world: the stored snapshot, and one or
    two error events. *)
Lemma handleLockEvent_unverified d event w r :
  let tx := ev_transaction event in
  verifyTransaction d tx (snd (store_set (tx_id tx) tx w))
    = (Returned r, snd (store_set (tx_id tx) tx w)) ->
  isValid r = false ->
  let w' := snd (handleLockEvent d event w) in
  transactions w' = <[tx_id tx := tx]> (transactions w) /\
  adapterCalls w' = adapterCalls w /\ subscriptions w' = subscriptions w /\
  idsDrawn w' = idsDrawn w /\ exists later, emitted w' = (emitted w ++ later)%list.
Proof.
  cbv zeta. intros E V. unfold handleLockEvent, try_catch, mbind, Run_bind.
  cbn [store_set snd] in *. rewrite E, V.
  unfold emitBridgeEvent. cbn [record_event subscriptions set_transactions].
  destruct (_ && _); cbn -[insert].
  - rewrite bool_decide_eq_true_2 by reflexivity. cbn [andb].
    destruct (negb _); cbn -[insert]; repeat split; try reflexivity;
      eexists; rewrite <- app_assoc; reflexivity.
  - repeat split; try reflexivity. eexists; reflexivity.
Qed.

Lemma handleBurnEvent_unverified d event w r :
  let tx := ev_transaction event in
  verifyTransaction d tx (snd (store_set (tx_id tx) tx w))
    = (Returned r, snd (store_set (tx_id tx) tx w)) ->
  isValid r = false ->
  let w' := snd (handleBurnEvent d event w) in
  transactions w' = <[tx_id tx := tx]> (transactions w) /\
  adapterCalls w' = adapterCalls w /\ subscriptions w' = subscriptions w /\
  idsDrawn w' = idsDrawn w /\ exists later, emitted w' = (emitted w ++ later)%list.
Proof.
  cbv zeta. intros E V. unfold handleBurnEvent, try_catch, mbind, Run_bind.
  cbn [store_set snd] in *. rewrite E, V.
  unfold emitBridgeEvent. cbn [record_event subscriptions set_transactions].
  destruct (_ && _); cbn -[insert].
  - rewrite bool_decide_eq_true_2 by reflexivity. cbn [andb].
    destruct (negb _); cbn -[insert]; repeat split; try reflexivity;
      eexists; rewrite <- app_assoc; reflexivity.
  - repeat split; try reflexivity. eexists; reflexivity.
Qed.

(** What [lockCarbonCredits] leaves behind: a failure changes nothing but the
    log of calls; a success has stored the new transaction, pending, under
    the id that was drawn. *)
Lemma lockCarbonCredits_try_effect d sender receiver amount w :
  let run := lockCarbonCredits_try d sender receiver amount w in
  adapterCalls (snd run) = adapterCalls w /\
  subscriptions (snd run) = subscriptions w /\
  ((exists m, fst run = Returned (failure_result "" m) /\
              transactions (snd run) = transactions w /\
              emitted (snd run) = emitted w) \/
   (exists r tx,
      fst run = Returned r /\ success r = true /\ res_status r = PENDING /\
      bridgeId r = bridgeIds (outside d) (idsDrawn w) /\
      transactions (snd run) = <[bridgeId r := tx]> (transactions w) /\
      tx_id tx = bridgeId r /\ tx_status tx = PENDING /\
      tx_sourceChain tx = ALGORAND /\ tx_sender tx = sender /\
      tx_receiver tx = receiver /\ tx_amount tx = bn_of_number amount /\
      exists details later,
        emitted (snd run) = (emitted w ++ event_of d EV_LOCK tx details :: later)%list)).
Proof.
  cbv zeta. unfold lockCarbonCredits_try, try_catch, mbind, Run_bind, lift, throw,
    generateBridgeId.
  destruct (algorand_bridgeAccount (config d)).
  2: { cbn. repeat split. left. eexists. repeat split. }
  destruct (algod_getTransactionParams (outside d)) as [firstRound|m].
  2: { cbn. repeat split. left. eexists. repeat split. }
  destruct (algosdk_buildLockGroup (outside d) _ sender receiver amount) as [group|m].
  2: { cbn. repeat split. left. eexists. repeat split. }
  unfold emitBridgeEvent.
  match goal with
  | |- context [handleLockEvent d ?e ?w1] =>
      destruct (verifyTransaction_unsubmitted d (ev_transaction e)
                  (snd (store_set (tx_id (ev_transaction e)) (ev_transaction e) w1))
                  eq_refl (isTransactionTimedOut_at_now _)) as (r & E & V & _);
      destruct (handleLockEvent_unverified d e w1 r E V) as (H1 & H2 & H3 & H4 & later & H5);
      destruct (handleLockEvent d e w1) as [o w2]
  end.
  cbn [fst snd ev_transaction tx_id record_event transactions adapterCalls subscriptions
       emitted idsDrawn mret Run_ret] in *.
  split; [exact H2|]. split; [exact H3|]. right.
  eexists. eexists. split; [reflexivity|]. cbn [success res_status bridgeId].
  split; [reflexivity|]. split; [reflexivity|]. split; [reflexivity|].
  split; [exact H1|]. cbn.
  repeat (split; [reflexivity|]).
  eexists. exists later. rewrite H5, <- app_assoc. reflexivity.
Qed.

Lemma burnWrappedCarbonCredits_effect d sender receiver amount w :
  let run := burnWrappedCarbonCredits d sender receiver amount w in
  adapterCalls (snd run) = (adapterCalls w ++ [BurnCall sender receiver amount])%list /\
  subscriptions (snd run) = subscriptions w /\
  (transactions (snd run) = transactions w \/
   exists tx,
     transactions (snd run) = <[tx_id tx := tx]> (transactions w) /\
     tx_id tx = bridgeIds (outside d) (idsDrawn w) /\ tx_status tx = PENDING /\
     tx_targetChain tx = ALGORAND /\ tx_sender tx = sender /\ tx_receiver tx = receiver).
Proof.
  cbv zeta. unfold burnWrappedCarbonCredits, try_catch, mbind, Run_bind, lift, throw,
    generateBridgeId, record_call.
  cbn [transactions subscriptions emitted adapterCalls idsDrawn].
  destruct (ethers_parseEther (outside d) amount) as [wei|m].
  2: { cbn. repeat split. left. reflexivity. }
  destruct (ethers_BigNumber (outside d) wei) as [burned|m].
  2: { cbn. repeat split. left. reflexivity. }
  unfold emitBridgeEvent.
  match goal with
  | |- context [handleBurnEvent d ?e ?w1] =>
      destruct (verifyTransaction_unsubmitted d (ev_transaction e)
                  (snd (store_set (tx_id (ev_transaction e)) (ev_transaction e) w1))
                  eq_refl (isTransactionTimedOut_at_now _)) as (r & E & V & _);
      destruct (handleBurnEvent_unverified d e w1 r E V) as (H1 & H2 & H3 & H4 & later & H5);
      destruct (handleBurnEvent d e w1) as [o w2]
  end.
  cbn [fst snd ev_transaction tx_id record_event transactions adapterCalls subscriptions
       emitted idsDrawn mret Run_ret] in *.
  destruct (contract_encodeBurn _ _ _ _); cbn [fst snd].
  - split; [exact H2|]. split; [exact H3|]. right. eexists. split; [exact H1|].
    repeat split.
  - split; [exact H2|]. split; [exact H3|]. right. eexists. split; [exact H1|].
    repeat split.
Qed.

Lemma bridgeToTargetChain_try_returned d sender receiver amount metadata w r w' :
  bridgeToTargetChain_try d sender receiver amount metadata w = (Returned r, w') ->
  exists formattedSender formattedReceiver,
    formatAddress (libraries d) sender ALGORAND = Returned formattedSender /\
    formatAddress (libraries d) receiver (targetChain_chainType (config d))
      = Returned formattedReceiver /\
    lockCarbonCredits d formattedSender formattedReceiver
      (bn_toNumber (outside d) (bn_new (libraries d) amount)) metadata w = (Returned r, w').
Proof.
  unfold bridgeToTargetChain_try. intros E.
  destruct (String.eqb sender ""); [discriminate|].
  destruct (String.eqb receiver ""); [discriminate|].
  destruct (negb (amount_truthy amount)); [discriminate|].
  destruct (_ || _); [discriminate|].
  unfold mbind, Run_bind, lift in E.
  destruct (formatAddress _ sender _) as [fs|]; [|discriminate].
  destruct (formatAddress _ receiver _) as [fr|]; [|discriminate].
  exists fs, fr. split; [reflexivity|]. split; [reflexivity|].
  destruct (truthy metadata).
  - destruct (validateCarbonMetadata metadata); [discriminate|]. exact E.
  - exact E.
Qed.

(** What a call of a public method does to the ledger and to the log of
    chain-handler calls. *)
Lemma call_effect d op w :
  is_call op = true ->
  (transactions (perform d op w) = transactions w \/
   exists tx, transactions (perform d op w) = <[tx_id tx := tx]> (transactions w) /\
              tx_status tx = PENDING) /\
  exists later, adapterCalls (perform d op w) = (adapterCalls w ++ later)%list /\
                existsb settles later = false.
Proof.
  intros Hc. destruct op as [s r a md | s r a | c l | c l | t tx dt]; [| | | |discriminate].
  - unfold perform, bridgeToTargetChain, try_catch.
    destruct (bridgeToTargetChain_try d s r a md w) as [[res|m] w'] eqn:E.
    + apply bridgeToTargetChain_try_returned in E as (fs & fr & _ & _ & E).
      unfold lockCarbonCredits, mbind, Run_bind in E. cbn [record_call] in E.
      match type of E with
      | lockCarbonCredits_try d fs fr ?amt ?w1 = _ =>
          destruct (lockCarbonCredits_try_effect d fs fr amt w1) as (H1 & _ & H2)
      end.
      rewrite E in H1, H2. cbn [fst snd adapterCalls transactions emitted] in *. split.
      * destruct H2 as [(m & _ & H2 & _) | (res' & tx & _ & _ & _ & _ & H2 & Hid & Hst & _)].
        -- left. exact H2.
        -- right. exists tx. rewrite Hid. split; [exact H2 | exact Hst].
      * eexists. split; [exact H1 | reflexivity].
    + apply bridgeToTargetChain_try_throws in E as ->.
      destruct (bridgeToTargetChain_catch_outcome d s r m w) as (H1 & H2 & _).
      split; [left; exact H1|]. exists []. rewrite app_nil_r. split; [exact H2 | reflexivity].
  - unfold perform, bridgeToAlgorand, try_catch, mbind, Run_bind, lift.
    destruct (formatAddress _ s _) as [fs|].
    2: { cbn. split; [left; reflexivity|]. exists []. rewrite app_nil_r. split; reflexivity. }
    destruct (formatAddress _ r _) as [fr|].
    2: { cbn. split; [left; reflexivity|]. exists []. rewrite app_nil_r. split; reflexivity. }
    destruct (burnWrappedCarbonCredits_effect d fs fr
                (bn_toString (libraries d) (bn_new (libraries d) a)) w) as (H1 & _ & H2).
    destruct (burnWrappedCarbonCredits_returns d fs fr
                (bn_toString (libraries d) (bn_new (libraries d) a)) w) as (res & Hr & _).
    destruct (burnWrappedCarbonCredits _ _ _ _ _) as [o w']. cbn [fst snd] in *. subst o.
    cbn [snd]. split.
    + destruct H2 as [H2 | (tx & H2 & _ & Hst & _)]; [left; exact H2|].
      right. exists tx. split; [exact H2 | exact Hst].
    + eexists. split; [exact H1 | reflexivity].
  - cbn. split; [left; reflexivity|]. exists []. rewrite app_nil_r. split; reflexivity.
  - cbn. split; [left; reflexivity|]. exists []. rewrite app_nil_r. split; reflexivity.
Qed.

Lemma all_pending_insert (m : gmap string BridgeTransaction) key tx :
  all_pending m -> tx_status tx = PENDING -> all_pending (<[key := tx]> m).
Proof.
  intros Hm Hs id tx' H. destruct (decide (key = id)) as [<-|Hne].
  - rewrite lookup_insert_eq in H. injection H as <-. exact Hs.
  - rewrite lookup_insert_ne in H by exact Hne. eapply Hm, H.
Qed.

Lemma calls_preserve_pending d ops : forall w,
  forallb is_call ops = true ->
  all_pending (transactions w) -> existsb settles (adapterCalls w) = false ->
  all_pending (transactions (perform_all d ops w)) /\
  existsb settles (adapterCalls (perform_all d ops w)) = false.
Proof.
  induction ops as [|op ops IH]; intros w Hc Hp Hs; [split; assumption|].
  cbn [forallb] in Hc. apply andb_true_iff in Hc as [Hop Hc].
  cbn [perform_all fold_left]. apply IH; [exact Hc | |].
  - destruct (call_effect d op w Hop) as [[E | (tx & E & Hst)] _]; rewrite E;
      [exact Hp | apply all_pending_insert; assumption].
  - destruct (call_effect d op w Hop) as [_ (later & E & Hl)].
    rewrite E, existsb_app, Hs, Hl. reflexivity.
Qed.

(** X5.  On a bridge that is only called (no event reaches it from
    elsewhere), whatever the calls and whatever the chains and the verifiers
    answer: every transaction in the ledger is pending, and neither a mint
    nor a release has been asked of a chain handler.  The transactions the
    two bridging methods create carry no source transaction id, and
    [verifyTransaction] refuses a transaction without one. *)
Theorem calls_alone_settle_nothing (d : Deployment) (ops : list Operation) :
  forallb is_call ops = true ->
  let w := perform_all d ops fresh_world in
  all_pending (transactions w) /\ existsb settles (adapterCalls w) = false.
Proof.
  intros Hc. apply calls_preserve_pending; [exact Hc | | reflexivity].
  intros id tx H. cbn [fresh_world transactions] in H.
  rewrite lookup_empty in H. discriminate.
Qed.

(** A subscription and one call of each bridging method, on a bridge whose
    threshold is zero and whose chains and verifiers all answer. *)
Lemma calls_alone_settle_nothing_witness :
  let w := perform_all (sample_deployment 0)
             [On (OnType EV_ERROR) 1%nat;
              BridgeToTargetChain "ALGOSENDER" "0xreceiver" (AmountNumber (num_of_Z 100))
                JUndefined;
              BridgeToAlgorand "0xsender" "ALGORECEIVER" (AmountString "5")]
             fresh_world in
  all_pending (transactions w) /\ existsb settles (adapterCalls w) = false.
Proof.
  apply (calls_alone_settle_nothing (sample_deployment 0)). reflexivity.
Defined.

Example two_calls_leave_two_pending_entries :
  let w := perform_all (sample_deployment 0)
             [BridgeToTargetChain "ALGOSENDER" "0xreceiver" (AmountNumber (num_of_Z 100))
                JUndefined;
              BridgeToAlgorand "0xsender" "ALGORECEIVER" (AmountString "5")]
             fresh_world in
  map tx_status (listTransactions w) = [PENDING; PENDING] /\
  length (adapterCalls w) = 2%nat.
Proof. vm_compute. split; reflexivity. Qed.

(** ** Relations every operation on a bridge keeps

    A relation that allows a transaction to be written under its own id,
    the merge a verification event makes, and any change of the
    subscriptions, is kept by every operation. *)

Section KeyedWrites.
Context (R : World -> World -> Prop) `{!Bookkeeping R}.
Hypothesis own_write : forall tx, may_store R (tx_id tx) tx.
Hypothesis merged_write : forall tx w stored,
  transactions w !! tx_id tx = Some stored ->
  R w (set_transactions (fun m => <[tx_id stored := spread_merge stored tx]> m) w).
Hypothesis subscriptions_free : forall w subs,
  R w {| transactions := transactions w; subscriptions := subs; emitted := emitted w;
         adapterCalls := adapterCalls w; idsDrawn := idsDrawn w |}.

Lemma keeps_listener d type listener event :
  bridge_listener d type = Some listener -> keeps R (listener event).
Proof.
  destruct type; intros [= <-].
  - apply (keeps_handleLockEvent R d (ev_transaction event)); try reflexivity.
    + exact (own_write (with_status (ev_transaction event) FAILED)).
    + apply merged_write.
    + apply own_write.
    + intros w1 w2 v hash _ _.
      exact (own_write (with_status_and_target (ev_transaction event) MINTED hash)).
  - apply (keeps_handleBurnEvent R d (ev_transaction event)); try reflexivity.
    + exact (own_write (with_status (ev_transaction event) FAILED)).
    + apply merged_write.
    + apply own_write.
    + intros w1 w2 v hash _ _.
      exact (own_write (with_status_and_target (ev_transaction event) RELEASED hash)).
  - apply keeps_handleTimeoutEvent; [exact _|].
    exact (own_write (with_status (ev_transaction event) FAILED)).
  - apply keeps_handleVerificationEvent; [exact _|]. apply merged_write.
Qed.

Lemma keeps_emit_to_bridge d type tx details :
  keeps R (emitBridgeEvent d (bridge_listener d type) type tx details).
Proof.
  apply keeps_emit; [exact _|]. intros listener event E _.
  eapply keeps_listener. exact E.
Qed.

Lemma keeps_keyed_lockCarbonCredits d sender receiver amount metadata :
  keeps R (lockCarbonCredits d sender receiver amount metadata).
Proof.
  unfold lockCarbonCredits, lockCarbonCredits_try.
  apply keeps_bind; [exact _ | apply keeps_record_call; exact _ | intros _].
  apply keeps_try_catch; [exact _ | | intros; apply keeps_mret; exact _].
  destruct (algorand_bridgeAccount (config d)); [|apply keeps_throw; exact _].
  apply keeps_bind; [exact _ | apply keeps_generateBridgeId; exact _ | intros id].
  apply keeps_bind; [exact _ | apply keeps_lift; exact _ | intros firstRound].
  apply keeps_bind; [exact _ | apply keeps_lift; exact _ | intros group].
  apply keeps_bind; [exact _ | | intros; apply keeps_mret; exact _].
  apply (keeps_emit_to_bridge d EV_LOCK).
Qed.

Lemma keeps_keyed_burnWrappedCarbonCredits d sender receiver amount :
  keeps R (burnWrappedCarbonCredits d sender receiver amount).
Proof.
  unfold burnWrappedCarbonCredits.
  apply keeps_bind; [exact _ | apply keeps_record_call; exact _ | intros _].
  apply keeps_try_catch; [exact _ | | intros; apply keeps_mret; exact _].
  apply keeps_bind; [exact _ | apply keeps_generateBridgeId; exact _ | intros id].
  apply keeps_bind; [exact _ | apply keeps_lift; exact _ | intros wei].
  apply keeps_bind; [exact _ | apply keeps_lift; exact _ | intros burned].
  apply keeps_bind; [exact _ | apply (keeps_emit_to_bridge d EV_BURN) | intros _].
  apply keeps_bind; [exact _ | apply keeps_lift; exact _ | intros; apply keeps_mret; exact _].
Qed.

Lemma keeps_bridgeToTargetChain d sender receiver amount metadata :
  keeps R (bridgeToTargetChain d sender receiver amount metadata).
Proof.
  unfold bridgeToTargetChain.
  apply keeps_try_catch; [exact _ | |].
  - unfold bridgeToTargetChain_try.
    destruct (String.eqb sender ""); [apply keeps_throw; exact _|].
    destruct (String.eqb receiver ""); [apply keeps_throw; exact _|].
    destruct (negb (amount_truthy amount)); [apply keeps_throw; exact _|].
    destruct (_ || _); [apply keeps_throw; exact _|].
    apply keeps_bind; [exact _ | apply keeps_lift; exact _ | intros fs].
    apply keeps_bind; [exact _ | apply keeps_lift; exact _ | intros fr].
    apply keeps_bind; [exact _ | | intros _; apply keeps_keyed_lockCarbonCredits].
    destruct (truthy metadata); [|apply keeps_mret; exact _].
    destruct (validateCarbonMetadata metadata);
      [apply keeps_throw; exact _ | apply keeps_mret; exact _].
  - intros m. unfold bridgeToTargetChain_catch.
    apply keeps_bind; [exact _ | apply keeps_generateBridgeId; exact _ | intros id].
    apply keeps_bind; [exact _ | apply keeps_emit_unheard; exact _ |].
    intros; apply keeps_mret; exact _.
Qed.

Lemma keeps_bridgeToAlgorand d sender receiver amount :
  keeps R (bridgeToAlgorand d sender receiver amount).
Proof.
  unfold bridgeToAlgorand.
  apply keeps_try_catch; [exact _ | | intros; apply keeps_mret; exact _].
  apply keeps_bind; [exact _ | apply keeps_lift; exact _ | intros fs].
  apply keeps_bind; [exact _ | apply keeps_lift; exact _ | intros fr].
  apply keeps_keyed_burnWrappedCarbonCredits.
Qed.

Lemma perform_keeps d op w : R w (perform d op w).
Proof.
  destruct op; cbn [perform].
  - apply keeps_bridgeToTargetChain.
  - apply keeps_bridgeToAlgorand.
  - apply subscriptions_free.
  - apply subscriptions_free.
  - apply keeps_emit_to_bridge.
Qed.

Lemma perform_all_keeps d ops : forall w, R w (perform_all d ops w).
Proof.
  induction ops as [|op ops IH]; intros w; [apply bk_refl|].
  cbn [perform_all fold_left]. eapply bk_trans; [apply perform_keeps | apply IH].
Qed.
End KeyedWrites.

#[global] Instance entries_kept_bookkeeping : Bookkeeping entries_kept.
Proof.
  split; unfold entries_kept; try (intros; assumption).
  intros w1 w2 w3 H12 H23 id H. apply H23, H12, H.
Qed.

#[global] Instance keys_kept_bookkeeping : Bookkeeping keys_kept.
Proof.
  split; unfold keys_kept; try (intros; assumption).
  intros w1 w2 w3 H12 H23 H. apply H23, H12, H.
Qed.

Lemma insert_keeps_entries (m : gmap string BridgeTransaction) key tx id :
  is_Some (m !! id) -> is_Some (<[key := tx]> m !! id).
Proof.
  intros H. destruct (decide (key = id)) as [<-|Hne].
  - rewrite lookup_insert_eq. eexists. reflexivity.
  - rewrite lookup_insert_ne by exact Hne. exact H.
Qed.

(** X6.  The ledger never loses an entry: whatever is called on the bridge
    and whatever event reaches it, a transaction id that was in the ledger
    is still in it. *)
Theorem ledger_never_loses_an_entry (d : Deployment) (ops : list Operation) (w : World)
    (id : string) :
  is_Some (getTransaction id w) -> is_Some (getTransaction id (perform_all d ops w)).
Proof.
  unfold getTransaction. revert id.
  apply (perform_all_keeps entries_kept).
  - intros tx w' id. apply insert_keeps_entries.
  - intros tx w' stored _ id. apply insert_keeps_entries.
  - intros w' subs id H. exact H.
Qed.

(** A minted entry, a timeout event for its id and a call. *)
Lemma ledger_never_loses_an_entry_witness :
  let w := set_transactions (fun m => <["a3f1c2d4e5b6a7980011" := sample_transaction MINTED]> m)
             fresh_world in
  is_Some (getTransaction "a3f1c2d4e5b6a7980011"
             (perform_all (sample_deployment 2)
                [Emitted EV_TIMEOUT (sample_transaction LOCKED) NoDetails;
                 BridgeToAlgorand "0xsender" "ALGORECEIVER" (AmountString "5")] w)).
Proof.
  apply (ledger_never_loses_an_entry (sample_deployment 2)).
  eexists. reflexivity.
Defined.

Lemma perform_all_well_keyed d ops w :
  well_keyed (transactions w) -> well_keyed (transactions (perform_all d ops w)).
Proof.
  apply (perform_all_keeps keys_kept).
  - intros tx w' H. apply well_keyed_insert; [exact H | reflexivity].
  - intros tx w' stored L H. apply well_keyed_insert; [exact H|].
    cbn. symmetry. apply (H _ _ L).
  - intros w' subs H. exact H.
Qed.

(** X7.  On a bridge in use since it was built, every transaction sits in
    the ledger under its own id: [listTransactions] lists exactly the
    transactions [getTransaction] returns for their ids. *)
Theorem listed_transactions_are_found_by_id (d : Deployment) (ops : list Operation)
    (tx : BridgeTransaction) :
  let w := perform_all d ops fresh_world in
  In tx (listTransactions w) <-> getTransaction (tx_id tx) w = Some tx.
Proof.
  cbv zeta. unfold listTransactions, getTransaction.
  pose proof (perform_all_well_keyed d ops fresh_world well_keyed_empty) as Hk.
  set (m := transactions (perform_all d ops fresh_world)) in *.
  rewrite <- list_elem_of_In. rewrite list_elem_of_fmap. split.
  - intros ([k v] & -> & H). apply elem_of_map_to_list in H. cbn.
    rewrite (Hk _ _ H). exact H.
  - intros H. exists (tx_id tx, tx). split; [reflexivity|].
    apply elem_of_map_to_list. exact H.
Qed.

(** ** Timed-out transactions *)

Lemma releaseCarbonCredits_calls d id receiver amount w :
  adapterCalls (snd (releaseCarbonCredits d id receiver amount w))
    = (adapterCalls w ++ [ReleaseCall id receiver amount])%list.
Proof.
  unfold releaseCarbonCredits, try_catch, mbind, Run_bind, lift, throw, record_call,
    emitBridgeEvent.
  destruct (algorand_bridgeAccount (config d)); [|reflexivity].
  destruct (algod_getTransactionParams (outside d)); [|reflexivity].
  destruct (algosdk_buildRelease (outside d) id receiver amount); [|reflexivity].
  cbn [bool_decide decide_rel andb]. rewrite bool_decide_eq_false_2 by discriminate.
  cbn [andb]. destruct (algod_sendRawTransaction (outside d) _); reflexivity.
Qed.

Lemma handleTimeoutEvent_calls d event w :
  adapterCalls (snd (handleTimeoutEvent d event w))
    = (adapterCalls w ++ refund_of d (ev_transaction event))%list.
Proof.
  unfold handleTimeoutEvent, refund_of, try_catch, mbind, Run_bind.
  destruct (_ && _).
  - pose proof (releaseCarbonCredits_calls d (tx_id (ev_transaction event))
                  (tx_sender (ev_transaction event))
                  (bn_toNumber (outside d) (tx_amount (ev_transaction event))) w) as Hc.
    destruct (releaseCarbonCredits_returns d (tx_id (ev_transaction event))
                  (tx_sender (ev_transaction event))
                  (bn_toNumber (outside d) (tx_amount (ev_transaction event))) w) as [r Hr].
    destruct (releaseCarbonCredits _ _ _ _ _) as [o w']. cbn [fst snd] in *. subst o.
    cbn. exact Hc.
  - cbn. rewrite app_nil_r. reflexivity.
Qed.

Lemma verifyTransaction_timed_out d tx w :
  isTransactionTimedOut (clock (outside d)) (tx_timestamp tx) (num_of_Z 3600000)
    = Returned true ->
  fst (verifyTransaction d tx w) = Returned (invalid_result d "Transaction timed out") /\
  transactions (snd (verifyTransaction d tx w))
    = <[tx_id tx := with_status tx FAILED]> (transactions w) /\
  adapterCalls (snd (verifyTransaction d tx w)) = (adapterCalls w ++ refund_of d tx)%list.
Proof.
  intros Ht. unfold verifyTransaction, try_catch, mbind, Run_bind, lift. rewrite Ht.
  unfold emitBridgeEvent. cbn [fst snd mret Run_ret].
  rewrite handleTimeoutEvent_ledger, handleTimeoutEvent_calls. repeat split.
Qed.

(** After a verdict that is not valid, a listener adds error events only. *)
Lemma handleLockEvent_invalid d event w r w2 :
  verifyTransaction d (ev_transaction event)
    (snd (store_set (tx_id (ev_transaction event)) (ev_transaction event) w))
    = (Returned r, w2) ->
  isValid r = false ->
  transactions (snd (handleLockEvent d event w)) = transactions w2 /\
  adapterCalls (snd (handleLockEvent d event w)) = adapterCalls w2.
Proof.
  intros E V. unfold handleLockEvent, try_catch, mbind, Run_bind.
  cbn [store_set snd] in *. rewrite E, V.
  unfold emitBridgeEvent. destruct (_ && _); cbn [snd].
  - rewrite bool_decide_eq_true_2 by reflexivity. cbn [andb].
    destruct (negb _); split; reflexivity.
  - split; reflexivity.
Qed.

Lemma handleBurnEvent_invalid d event w r w2 :
  verifyTransaction d (ev_transaction event)
    (snd (store_set (tx_id (ev_transaction event)) (ev_transaction event) w))
    = (Returned r, w2) ->
  isValid r = false ->
  transactions (snd (handleBurnEvent d event w)) = transactions w2 /\
  adapterCalls (snd (handleBurnEvent d event w)) = adapterCalls w2.
Proof.
  intros E V. unfold handleBurnEvent, try_catch, mbind, Run_bind.
  cbn [store_set snd] in *. rewrite E, V.
  unfold emitBridgeEvent. destruct (_ && _); cbn [snd].
  - rewrite bool_decide_eq_true_2 by reflexivity. cbn [andb].
    destruct (negb _); split; reflexivity.
  - split; reflexivity.
Qed.

Lemma deliver_invalid d event w r w2 :
  ev_type event = EV_LOCK \/ ev_type event = EV_BURN ->
  verifyTransaction d (ev_transaction event)
    (snd (store_set (tx_id (ev_transaction event)) (ev_transaction event) w))
    = (Returned r, w2) ->
  isValid r = false ->
  transactions (snd (deliver d event w)) = transactions w2 /\
  adapterCalls (snd (deliver d event w)) = adapterCalls w2.
Proof.
  intros Hty E V. unfold deliver, bridge_listener. destruct Hty as [-> | ->].
  - apply (handleLockEvent_invalid d event w r w2 E V).
  - apply (handleBurnEvent_invalid d event w r w2 E V).
Qed.



(** ** Events for transactions that were not submitted *)

(** X9.  A lock or burn event whose transaction carries no source
    transaction id is never settled: after the listener has run, the entry
    under its id is the snapshot itself, or the snapshot marked [FAILED]
    (when it had timed out); it is not minted and not released, whatever the
    chains and the verifiers answer. *)
Theorem event_without_source_id_is_not_settled (d : Deployment) (event : BridgeEvent)
    (w : World) :
  ev_type event = EV_LOCK \/ ev_type event = EV_BURN ->
  missing_id (tx_sourceTransactionId (ev_transaction event)) = true ->
  let tx := ev_transaction event in
  let after := snd (deliver d event w) in
  transactions after !! tx_id tx = Some tx \/
  transactions after !! tx_id tx = Some (with_status tx FAILED).
Proof.
  intros Hty Hid. cbv zeta.
  set (tx := ev_transaction event) in *.
  set (w1 := snd (store_set (tx_id tx) tx w)).
  destruct (isTransactionTimedOut (clock (outside d)) (tx_timestamp tx) (num_of_Z 3600000))
    as [timedOut|m] eqn:Ht; [destruct timedOut|].
  - right. destruct (verifyTransaction_timed_out d tx w1 Ht) as (H1 & H2 & _).
    destruct (verifyTransaction d tx w1) as [o w2] eqn:E. cbn [fst snd] in *. subst o.
    destruct (deliver_invalid d event w _ w2 Hty E eq_refl) as [K _].
    rewrite K, H2. apply lookup_insert_eq.
  - left. destruct (verifyTransaction_unsubmitted d tx w1 Hid) as (r & E & V & _);
      [congruence|].
    destruct (deliver_invalid d event w r w1 Hty E V) as [K _].
    rewrite K. apply lookup_insert_eq.
  - left. destruct (verifyTransaction_unsubmitted d tx w1 Hid) as (r & E & V & _);
      [congruence|].
    destruct (deliver_invalid d event w r w1 Hty E V) as [K _].
    rewrite K. apply lookup_insert_eq.
Qed.

(** A lock event for a transaction without a source transaction id, on a
    bridge whose threshold is zero. *)
Lemma event_without_source_id_is_not_settled_witness :
  let event := {| ev_type := EV_LOCK; ev_transaction := unsubmitted_transaction;
                  ev_timestamp := 1700000000000; ev_details := NoDetails |} in
  let after := snd (deliver (sample_deployment 0) event fresh_world) in
  transactions after !! "d6e7f8a9b0c1d2e3f4a5" = Some unsubmitted_transaction \/
  transactions after !! "d6e7f8a9b0c1d2e3f4a5"
    = Some (with_status unsubmitted_transaction FAILED).
Proof.
  apply (event_without_source_id_is_not_settled (sample_deployment 0)
           {| ev_type := EV_LOCK; ev_transaction := unsubmitted_transaction;
              ev_timestamp := 1700000000000; ev_details := NoDetails |} fresh_world).
  - left. reflexivity.
  - reflexivity.
Defined.

(** ** Events in time *)




(** ** The chain handlers *)

(** X11.  [lockCarbonCredits] either fails cleanly or leaves a pending
    transaction: a failure result carries no bridge id and comes with the
    ledger and the log of events as they were; a success is [PENDING],
    carries the id that was drawn, and the ledger holds under that id a
    pending transaction with the sender, the receiver and the amount of the
    call.  Without a bridge account the call fails. *)
Theorem lockCarbonCredits_fails_cleanly_or_stores (d : Deployment) (sender receiver : string)
    (amount : number) (metadata : JsValue) (w : World) :
  let run := lockCarbonCredits d sender receiver amount metadata w in
  ((exists m, fst run = Returned (failure_result "" m) /\
              transactions (snd run) = transactions w /\
              emitted (snd run) = emitted w) \/
   (exists r tx,
      fst run = Returned r /\ success r = true /\ res_status r = PENDING /\
      bridgeId r = bridgeIds (outside d) (idsDrawn w) /\
      getTransaction (bridgeId r) (snd run) = Some tx /\
      tx_id tx = bridgeId r /\ tx_status tx = PENDING /\
      tx_sender tx = sender /\ tx_receiver tx = receiver /\
      tx_amount tx = bn_of_number amount)) /\
  (algorand_bridgeAccount (config d) = None ->
   fst run = Returned (failure_result "" "Bridge account not configured")).
Proof.
  cbv zeta. split.
  - unfold lockCarbonCredits, mbind, Run_bind. cbn [record_call].
    match goal with
    | |- context [lockCarbonCredits_try d sender receiver amount ?w1] =>
        destruct (lockCarbonCredits_try_effect d sender receiver amount w1) as (_ & _ & H)
    end.
    destruct H as [(m & H1 & H2 & H3) | (r & tx & H1 & H2 & H3 & H4 & H5 & H6 & H7 & _ & H8 & H9 & H10 & _)].
    + left. exists m. repeat split; assumption.
    + right. exists r, tx. unfold getTransaction. rewrite H5, lookup_insert_eq.
      repeat split; assumption.
  - intros Hn. unfold lockCarbonCredits, lockCarbonCredits_try, mbind, Run_bind, try_catch.
    cbn [record_call]. rewrite Hn. reflexivity.
Qed.

(** A hundred credits on the sample deployment. *)
Lemma lockCarbonCredits_fails_cleanly_or_stores_witness :
  let run := lockCarbonCredits (sample_deployment 2) "ALGOSENDER" "0xreceiver"
               (num_of_Z 100) JUndefined fresh_world in
  (exists m, fst run = Returned (failure_result "" m) /\
             transactions (snd run) = transactions fresh_world /\
             emitted (snd run) = emitted fresh_world) \/
  (exists r tx,
     fst run = Returned r /\ success r = true /\ res_status r = PENDING /\
     bridgeId r = "a3f1c2d4e5b6a7980011" /\
     getTransaction (bridgeId r) (snd run) = Some tx /\
     tx_id tx = bridgeId r /\ tx_status tx = PENDING /\
     tx_sender tx = "ALGOSENDER" /\ tx_receiver tx = "0xreceiver" /\
     tx_amount tx = bn_of_number (num_of_Z 100)).
Proof.
  apply (lockCarbonCredits_fails_cleanly_or_stores (sample_deployment 2) "ALGOSENDER"
           "0xreceiver" (num_of_Z 100) JUndefined fresh_world).
Defined.



(** ** getTransactionStatus on an id the ledger does not hold *)

Lemma scan_log_data_no_mention d id entries :
  Forall (fun txLog => includes txLog id = false) entries ->
  scan_log_data d id entries = PENDING.
Proof.
  induction 1 as [|txLog rest H _ IH]; [reflexivity|].
  cbn [scan_log_data]. rewrite H. exact IH.
Qed.

Lemma scan_log_data_never_failed d id entries : scan_log_data d id entries <> FAILED.
Proof.
  induction entries as [|txLog rest IH]; [discriminate|].
  cbn [scan_log_data]. destruct (includes txLog id); [|exact IH].
  destruct (includes _ "lock_complete"); [discriminate|].
  destruct (includes _ "release_complete"); [discriminate | exact IH].
Qed.

(** X13.  For an id that is not in the ledger: when the indexer answers
    and no log entry mentions the id, the status is [PENDING] whatever the target
    chain would answer; and the status is [FAILED] exactly when the
    indexer lookup and the contract call both threw.  An id nobody knows is
    reported as pending, not as an error. *)
Theorem getTransactionStatus_of_unknown_id (d : Deployment) (id : string) (w : World) :
  getTransaction id w = None ->
  (forall logs,
      indexer_applicationLogs (outside d) = Returned logs ->
      Forall (fun txLog => includes txLog id = false) (concat logs) ->
      getTransactionStatus d id w = PENDING) /\
  (getTransactionStatus d id w = FAILED <->
   (exists m, indexer_applicationLogs (outside d) = Thrown m) /\
   (exists m, contract_getBridgeStatus (outside d) id = Thrown m)).
Proof.
  unfold getTransaction, getTransactionStatus. intros ->.
  unfold algorand_getBridgeTransactionStatus, ethereum_getBridgeTransactionStatus. split.
  - intros logs -> Hno. rewrite (scan_log_data_no_mention d id _ Hno). reflexivity.
  - destruct (indexer_applicationLogs (outside d)) as [logs|m1].
    + pose proof (scan_log_data_never_failed d id (concat logs)) as Hnf.
      rewrite bool_decide_eq_false_2 by exact Hnf. cbn [negb]. split.
      * intros H. contradiction.
      * intros [[m H] _]. discriminate.
    + rewrite bool_decide_eq_true_2 by reflexivity. cbn [negb].
      destruct (contract_getBridgeStatus (outside d) id) as [[| |q]|m2].
      * split; [discriminate | intros [_ [m H]]; discriminate].
      * split; [discriminate | intros [_ [m H]]; discriminate].
      * split; [|intros [_ [m H]]; discriminate].
        destruct (Qeq_bool q 0); [discriminate|].
        destruct (Qeq_bool q 1); [discriminate|].
        destruct (Qeq_bool q 2); discriminate.
      * split; [|reflexivity]. intros _. split; eexists; reflexivity.
Qed.

(** An id no chain has heard of, with an indexer that returns no logs. *)
Lemma getTransactionStatus_of_unknown_id_witness :
  getTransactionStatus (sample_deployment 2) "0000000000000000000000ff" fresh_world = PENDING.
Proof.
  destruct (getTransactionStatus_of_unknown_id (sample_deployment 2)
              "0000000000000000000000ff" fresh_world eq_refl) as [H _].
  apply (H []); [reflexivity | constructor].
Defined.

(** ** verifyTransaction *)

(** X14.  [verifyTransaction] always returns a result, and a result that is
    valid was earned: the transaction was not timed out, it names a
    transaction of its source chain, the proof of that transaction on the
    chain of its direction held, the signatures it carries are at least
    [minVerifierSignatures], and it carries no error. *)
Theorem verifyTransaction_valid_only_if (d : Deployment) (tx : BridgeTransaction) (w : World) :
  exists r,
    fst (verifyTransaction d tx w) = Returned r /\
    (isValid r = true ->
     isTransactionTimedOut (clock (outside d)) (tx_timestamp tx) (num_of_Z 3600000)
       = Returned false /\
     missing_id (tx_sourceTransactionId tx) = false /\
     (if bool_decide (tx_sourceChain tx = ALGORAND)
      then algorandProof (outside d) tx else targetChainProof (outside d) tx) = true /\
     num_le (minVerifierSignatures (config d))
            (num_of_Z (Z.of_nat (length (signatures r)))) = true /\
     vr_error r = None).
Proof.
  unfold verifyTransaction, try_catch, mbind, Run_bind, lift.
  destruct (isTransactionTimedOut _ _ _) as [[|]|m].
  - unfold emitBridgeEvent. cbn. eexists. split; [reflexivity | discriminate].
  - unfold verifyAlgorandTransaction, verifyTargetChainTransaction.
    destruct (missing_id (tx_sourceTransactionId tx)).
    + destruct (bool_decide _); cbn; eexists; (split; [reflexivity | discriminate]).
    + destruct (bool_decide (tx_sourceChain tx = ALGORAND)).
      * destruct (algorandProof (outside d) tx); cbn [negb];
          [|cbn; eexists; split; [reflexivity | discriminate]].
        unfold emitBridgeEvent. cbn [fst snd mret Run_ret]. eexists.
        split; [reflexivity|]. cbn [isValid signatures vr_error]. intros H.
        repeat split. exact H.
      * destruct (targetChainProof (outside d) tx); cbn [negb];
          [|cbn; eexists; split; [reflexivity | discriminate]].
        unfold emitBridgeEvent. cbn [fst snd mret Run_ret]. eexists.
        split; [reflexivity|]. cbn [isValid signatures vr_error]. intros H.
        repeat split. exact H.
  - cbn. eexists. split; [reflexivity | discriminate].
Qed.

(** A transaction that is valid under a threshold of zero. *)
Lemma verifyTransaction_valid_only_if_witness :
  exists r,
    fst (verifyTransaction (sample_deployment 0) (sample_transaction LOCKED) fresh_world)
      = Returned r /\
    isValid r = true /\
    num_le (num_of_Z 0) (num_of_Z (Z.of_nat (length (signatures r)))) = true /\
    vr_error r = None.
Proof.
  destruct (verifyTransaction_valid_only_if (sample_deployment 0) (sample_transaction LOCKED)
              fresh_world) as (r & H1 & H2).
  exists r. split; [exact H1|].
  assert (V : isValid r = true).
  { vm_compute in H1. injection H1 as <-. reflexivity. }
  split; [exact V|]. destruct (H2 V) as (_ & _ & _ & H3 & H4). split; assumption.
Defined.

(** ** bridgeToTargetChain: what a refusal leaves behind *)

(** X15.  A call of [bridgeToTargetChain] with a refused input leaves the
    ledger and the log of chain-handler calls as they were, draws one bridge
    id and emits exactly one event: an error event whose transaction carries
    that fresh id, the status [FAILED] and the amount zero.  The transaction
    of the error event is not stored: looking its id up in the ledger gives
    what it gave before the call. *)
Theorem bridgeToTargetChain_refusal_is_announced_not_stored (d : Deployment)
    (sender receiver : string) (amount : AmountArgument) (metadata : JsValue) (w : World) :
  refused_input (libraries d) sender receiver amount metadata ->
  let after := snd (bridgeToTargetChain d sender receiver amount metadata w) in
  let fresh := bridgeIds (outside d) (idsDrawn w) in
  adapterCalls after = adapterCalls w /\
  getTransaction fresh after = getTransaction fresh w /\
  exists event,
    emitted after = (emitted w ++ [event])%list /\
    ev_type event = EV_ERROR /\
    tx_id (ev_transaction event) = fresh /\
    tx_status (ev_transaction event) = FAILED /\
    bn_isZero (tx_amount (ev_transaction event)) = true.
Proof.
  intros Href. cbv zeta. unfold bridgeToTargetChain, try_catch.
  destruct (bridgeToTargetChain_try_refuses d sender receiver amount metadata w Href)
    as [m ->].
  unfold bridgeToTargetChain_catch, mbind, Run_bind, generateBridgeId, emitBridgeEvent,
    getTransaction.
  cbn [record_event subscriptions emitted transactions adapterCalls idsDrawn].
  destruct (_ && _); cbn [snd adapterCalls transactions emitted].
  - split; [reflexivity|]. split; [reflexivity|]. eexists. split; [reflexivity|].
    repeat split.
  - split; [reflexivity|]. split; [reflexivity|]. eexists. split; [reflexivity|].
    repeat split.
Qed.

(** A negative amount. *)
Lemma bridgeToTargetChain_refusal_is_announced_not_stored_witness :
  let after := snd (bridgeToTargetChain (sample_deployment 2) "ALGOSENDER" "0xreceiver"
                      (AmountNumber (num_of_Z (-5))) JUndefined fresh_world) in
  adapterCalls after = [] /\
  getTransaction "a3f1c2d4e5b6a7980011" after = None /\
  exists event,
    emitted after = [event] /\
    ev_type event = EV_ERROR /\
    tx_id (ev_transaction event) = "a3f1c2d4e5b6a7980011" /\
    tx_status (ev_transaction event) = FAILED /\
    bn_isZero (tx_amount (ev_transaction event)) = true.
Proof.
  apply (bridgeToTargetChain_refusal_is_announced_not_stored (sample_deployment 2)
           "ALGOSENDER" "0xreceiver" (AmountNumber (num_of_Z (-5))) JUndefined fresh_world).
  right. right. right. right. left. reflexivity.
Defined.

(** ** mintWrappedCarbonCredits and releaseCarbonCredits *)

(** X16.  [mintWrappedCarbonCredits] returns on every input, with the bridge
    id it was given.  The result is a success exactly when a wallet is
    configured, the receiver is an address, the amount parses and the
    contract call is confirmed; a success is [MINTED] and carries the hash
    of the confirmed call; every other result is [FAILED], with an empty
    transaction id and an error message. *)
Theorem mintWrappedCarbonCredits_succeeds_only_confirmed (d : Deployment)
    (id receiver amount source : string) (w : World) :
  exists r,
    fst (mintWrappedCarbonCredits d id receiver amount source w) = Returned r /\
    bridgeId r = id /\
    (success r = true <->
     exists wallet minted hash callReceipt,
       ethereum_wallet (outside d) = Some wallet /\
       ethers_isAddress (libraries d) receiver = true /\
       ethers_BigNumber (outside d) amount = Returned minted /\
       contract_mint (outside d) receiver amount id source = CallConfirmed hash callReceipt /\
       transactionId r = hash /\ res_status r = MINTED) /\
    (success r = false ->
     res_status r = FAILED /\ transactionId r = "" /\
     exists message, res_error r = Some message /\ message <> "").
Proof.
  unfold mintWrappedCarbonCredits, try_catch, mbind, Run_bind, lift, throw, record_call,
    emitBridgeEvent.
  cbn [bool_decide decide_rel andb]. rewrite !bool_decide_eq_false_2 by discriminate.
  cbn [andb].
  assert (Hfail : forall m,
            bridgeId (failure_result id m) = id /\
            (success (failure_result id m) = false ->
             res_status (failure_result id m) = FAILED /\
             transactionId (failure_result id m) = "" /\
             exists message, res_error (failure_result id m) = Some message /\ message <> "")).
  { intros m. split; [reflexivity|]. intros _. split; [reflexivity|].
    split; [reflexivity|]. eexists. split; [reflexivity|].
    apply message_or_unknown_nonempty. }
  destruct (ethereum_wallet (outside d)) as [wallet|].
  2: { eexists. split; [reflexivity|]. split; [reflexivity|]. split; [|apply Hfail].
       split; [discriminate|]. intros (? & ? & ? & ? & H & _). discriminate. }
  destruct (ethers_isAddress (libraries d) receiver) eqn:Ha; cbn [negb].
  2: { eexists. split; [reflexivity|]. split; [reflexivity|]. split; [|apply Hfail].
       split; [discriminate|]. intros (? & ? & ? & ? & _ & H & _). discriminate. }
  destruct (ethers_BigNumber (outside d) amount) as [minted|m] eqn:Hb.
  2: { eexists. split; [reflexivity|]. split; [reflexivity|]. split; [|apply Hfail].
       split; [discriminate|]. intros (? & ? & ? & ? & _ & _ & H & _). discriminate. }
  destruct (contract_mint (outside d) receiver amount id source) as [hash rc|m|m] eqn:Hc.
  - eexists. split; [reflexivity|]. split; [reflexivity|]. split; [|discriminate].
    split; [|reflexivity]. intros _. exists wallet, minted, hash, rc. repeat split.
  - eexists. split; [reflexivity|]. split; [reflexivity|]. split.
    + split; [discriminate|]. intros (? & ? & ? & ? & _ & _ & _ & H & _). discriminate.
    + intros _. split; [reflexivity|]. split; [reflexivity|].
      eexists. split; [reflexivity | discriminate].
  - eexists. split; [reflexivity|]. split; [reflexivity|]. split; [|apply Hfail].
    split; [discriminate|]. intros (? & ? & ? & ? & _ & _ & _ & H & _). discriminate.
Qed.

(** A mint the contract confirms. *)
Lemma mintWrappedCarbonCredits_succeeds_only_confirmed_witness :
  exists r,
    fst (mintWrappedCarbonCredits (sample_deployment 2) "a3f1c2d4e5b6a7980011" "0xreceiver"
           "100" "ALGOTXID" fresh_world) = Returned r /\
    success r = true /\ transactionId r = "0xminted" /\ res_status r = MINTED.
Proof.
  destruct (mintWrappedCarbonCredits_succeeds_only_confirmed (sample_deployment 2)
              "a3f1c2d4e5b6a7980011" "0xreceiver" "100" "ALGOTXID" fresh_world)
    as (r & H1 & _ & H2 & _).
  exists r. split; [exact H1|].
  assert (S : success r = true) by (vm_compute in H1; injection H1 as <-; reflexivity).
  split; [exact S|].
  apply H2 in S. destruct S as (wallet & minted & hash & rc & _ & _ & _ & Hc & Ht & Hs).
  vm_compute in Hc. injection Hc as <- _. split; assumption.
Defined.

(** X17.  [releaseCarbonCredits] returns on every input, with the bridge id
    it was given.  A success is [RELEASED] and has emitted two release
    events for that id, the first pending, the second released and naming
    the submitted transaction.  A failure is [FAILED] and has emitted
    nothing, unless the submission itself was refused: then the pending
    release event is out and no released event follows it. *)
Theorem releaseCarbonCredits_events_tell_the_outcome (d : Deployment) (id receiver : string)
    (amount : number) (w : World) :
  let run := releaseCarbonCredits d id receiver amount w in
  exists r,
    fst run = Returned r /\ bridgeId r = id /\
    (success r = true ->
     res_status r = RELEASED /\
     exists pending released,
       emitted (snd run) = (emitted w ++ [pending; released])%list /\
       ev_type pending = EV_RELEASE /\ ev_type released = EV_RELEASE /\
       tx_id (ev_transaction pending) = id /\ tx_id (ev_transaction released) = id /\
       tx_status (ev_transaction pending) = PENDING /\
       tx_status (ev_transaction released) = RELEASED /\
       tx_receiver (ev_transaction released) = receiver /\
       tx_sourceTransactionId (ev_transaction released) = Some (transactionId r)) /\
    (success r = false ->
     res_status r = FAILED /\
     (emitted (snd run) = emitted w \/
      exists pending blob m,
        emitted (snd run) = (emitted w ++ [pending])%list /\
        tx_status (ev_transaction pending) = PENDING /\
        algod_sendRawTransaction (outside d) blob = Thrown m)).
Proof.
  cbv zeta.
  unfold releaseCarbonCredits, try_catch, mbind, Run_bind, lift, throw, record_call,
    emitBridgeEvent.
  cbn [bool_decide decide_rel andb]. rewrite !bool_decide_eq_false_2 by discriminate.
  cbn [andb].
  destruct (algorand_bridgeAccount (config d)) as [addr|].
  2: { eexists. split; [reflexivity|]. split; [reflexivity|]. split; [discriminate|].
       intros _. split; [reflexivity|]. left. reflexivity. }
  destruct (algod_getTransactionParams (outside d)) as [firstRound|m].
  2: { eexists. split; [reflexivity|]. split; [reflexivity|]. split; [discriminate|].
       intros _. split; [reflexivity|]. left. reflexivity. }
  destruct (algosdk_buildRelease (outside d) id receiver amount) as [blob|m].
  2: { eexists. split; [reflexivity|]. split; [reflexivity|]. split; [discriminate|].
       intros _. split; [reflexivity|]. left. reflexivity. }
  destruct (algod_sendRawTransaction (outside d) blob) as [sent|m] eqn:Hs.
  - eexists. split; [reflexivity|]. split; [reflexivity|]. split; [|discriminate].
    intros _. split; [reflexivity|]. eexists. eexists.
    unfold mret, Run_ret. cbn [snd emitted record_event]. rewrite <- app_assoc.
    split; [reflexivity|]. repeat split.
  - eexists. split; [reflexivity|]. split; [reflexivity|]. split; [discriminate|].
    intros _. split; [reflexivity|]. right. eexists. exists blob, m.
    split; [reflexivity|]. split; [reflexivity | exact Hs].
Qed.

(** A release the node accepts. *)
Lemma releaseCarbonCredits_events_tell_the_outcome_witness :
  let run := releaseCarbonCredits (sample_deployment 2) "a3f1c2d4e5b6a7980011" "ALGORECEIVER"
               (num_of_Z 100) fresh_world in
  exists r pending released,
    fst run = Returned r /\ success r = true /\
    emitted (snd run) = [pending; released] /\
    tx_status (ev_transaction released) = RELEASED /\
    tx_sourceTransactionId (ev_transaction released) = Some "TXRELEASE".
Proof.
  destruct (releaseCarbonCredits_events_tell_the_outcome (sample_deployment 2)
              "a3f1c2d4e5b6a7980011" "ALGORECEIVER" (num_of_Z 100) fresh_world)
    as (r & H1 & _ & H2 & _).
  assert (S : success r = true) by (vm_compute in H1; injection H1 as <-; reflexivity).
  assert (T : transactionId r = "TXRELEASE")
    by (vm_compute in H1; injection H1 as <-; reflexivity).
  destruct (H2 S) as (_ & pending & released & E & _ & _ & _ & _ & _ & H3 & _ & H4).
  exists r, pending, released. rewrite T in H4. repeat split; assumption.
Defined.

(** ** on and off *)

Lemma same_subscription_refl s : same_subscription s s = true.
Proof.
  destruct s as [[t|] n]; unfold same_subscription; cbn [fst snd Channel_eqb].
  - rewrite bool_decide_eq_true_2 by reflexivity. apply Nat.eqb_refl.
  - apply Nat.eqb_refl.
Qed.

Lemma off_after_on channel listener w :
  subscriptions (snd (offBridgeEvent channel listener (snd (onBridgeEvent channel listener w))))
    = subscriptions w.
Proof.
  unfold offBridgeEvent, onBridgeEvent. cbn [snd subscriptions].
  rewrite rev_app_distr. cbn [rev app remove_first].
  rewrite same_subscription_refl. apply rev_involutive.
Qed.

Lemma refusal_outcome d sender receiver amount metadata w :
  refused_input (libraries d) sender receiver amount metadata ->
  (existsb (listens_to EV_ERROR) (subscriptions w) = false ->
   fst (bridgeToTargetChain d sender receiver amount metadata w) = Thrown ERR_UNHANDLED_ERROR) /\
  (existsb (listens_to EV_ERROR) (subscriptions w) = true ->
   exists r, fst (bridgeToTargetChain d sender receiver amount metadata w) = Returned r /\
             reports_failure r).
Proof.
  intros Href.
  destruct (bridgeToTargetChain_refusal d sender receiver amount metadata w Href)
    as (_ & _ & H1 & H2).
  split; [exact H1|]. intros H. apply H2. unfold error_unheard. rewrite H. discriminate.
Qed.

(** X18.  Whether a refused call of [bridgeToTargetChain] returns or throws
    is decided by the subscriptions to the channel "error" alone.  After
    [on("error", l)] it returns a result that reports the failure.  On a
    bridge nobody listens to on "error", it throws; it still throws after
    [on("any", l)], and again after [on("error", l)] followed by
    [off("error", l)]. *)
Theorem refused_call_returns_once_error_is_heard (d : Deployment) (sender receiver : string)
    (amount : AmountArgument) (metadata : JsValue) (w : World) (l : nat) :
  refused_input (libraries d) sender receiver amount metadata ->
  let call w := fst (bridgeToTargetChain d sender receiver amount metadata w) in
  (exists r, call (perform d (On (OnType EV_ERROR) l) w) = Returned r /\ reports_failure r) /\
  (error_unheard w ->
   call w = Thrown ERR_UNHANDLED_ERROR /\
   call (perform d (On OnAny l) w) = Thrown ERR_UNHANDLED_ERROR /\
   call (perform_all d [On (OnType EV_ERROR) l; Off (OnType EV_ERROR) l] w)
     = Thrown ERR_UNHANDLED_ERROR).
Proof.
  intros Href. cbv zeta. split.
  - apply (refusal_outcome d sender receiver amount metadata _ Href).
    cbn [perform onBridgeEvent snd subscriptions]. rewrite existsb_app.
    cbn [existsb listens_to fst]. rewrite bool_decide_eq_true_2 by reflexivity.
    apply orb_true_r.
  - unfold error_unheard. intros Hun. repeat split.
    + apply (refusal_outcome d sender receiver amount metadata _ Href). exact Hun.
    + apply (refusal_outcome d sender receiver amount metadata _ Href).
      cbn [perform onBridgeEvent snd subscriptions]. rewrite existsb_app, Hun. reflexivity.
    + apply (refusal_outcome d sender receiver amount metadata _ Href).
      cbn [perform_all fold_left perform]. rewrite off_after_on. exact Hun.
Qed.

(** An empty sender, on a freshly built bridge. *)
Lemma refused_call_returns_once_error_is_heard_witness :
  let call w := fst (bridgeToTargetChain (sample_deployment 2) "" "0xreceiver"
                       (AmountNumber (num_of_Z 100)) JUndefined w) in
  (exists r, call (perform (sample_deployment 2) (On (OnType EV_ERROR) 7%nat) fresh_world)
             = Returned r /\ reports_failure r) /\
  call fresh_world = Thrown ERR_UNHANDLED_ERROR /\
  call (perform (sample_deployment 2) (On OnAny 7%nat) fresh_world) = Thrown ERR_UNHANDLED_ERROR.
Proof.
  destruct (refused_call_returns_once_error_is_heard (sample_deployment 2) "" "0xreceiver"
              (AmountNumber (num_of_Z 100)) JUndefined fresh_world 7%nat) as [H1 H2].
  - left. reflexivity.
  - split; [exact H1|]. destruct (H2 eq_refl) as (H3 & H4 & _). split; assumption.
Defined.

(** ** bridgeToTargetChain: what reaches the chain handler *)

(** X19.  Whatever [bridgeToTargetChain] asks of the Algorand handler, it
    asks after its checks: the log of chain-handler calls either is as it
    was, or has gained exactly one lock call, and then the input was not a
    refused one, and the call carries the sender and the receiver as
    [formatAddress] returned them (for Algorand and for the target chain),
    the amount as [toNumber] gives it, and the metadata as it was handed
    over. *)
Theorem bridgeToTargetChain_locks_only_checked_input (d : Deployment)
    (sender receiver : string) (amount : AmountArgument) (metadata : JsValue) (w : World) :
  let after := snd (bridgeToTargetChain d sender receiver amount metadata w) in
  adapterCalls after = adapterCalls w \/
  exists formattedSender formattedReceiver,
    adapterCalls after
      = (adapterCalls w
         ++ [LockCall formattedSender formattedReceiver
               (bn_toNumber (outside d) (bn_new (libraries d) amount)) metadata])%list /\
    formatAddress (libraries d) sender ALGORAND = Returned formattedSender /\
    formatAddress (libraries d) receiver (targetChain_chainType (config d))
      = Returned formattedReceiver /\
    ~ refused_input (libraries d) sender receiver amount metadata.
Proof.
  cbv zeta. unfold bridgeToTargetChain, try_catch.
  destruct (bridgeToTargetChain_try d sender receiver amount metadata w)
    as [[res|m] w'] eqn:E.
  - right.
    assert (Hnot : ~ refused_input (libraries d) sender receiver amount metadata).
    { intros Href.
      destruct (bridgeToTargetChain_try_refuses d sender receiver amount metadata w Href)
        as [m Hm].
      rewrite Hm in E. discriminate. }
    apply bridgeToTargetChain_try_returned in E as (fs & fr & Hs & Hr & E).
    exists fs, fr. split; [|split; [exact Hs | split; [exact Hr | exact Hnot]]].
    unfold lockCarbonCredits, mbind, Run_bind in E. cbn [record_call] in E.
    match type of E with
    | lockCarbonCredits_try d fs fr ?amt ?w1 = _ =>
        destruct (lockCarbonCredits_try_effect d fs fr amt w1) as (H1 & _)
    end.
    rewrite E in H1. exact H1.
  - left. apply bridgeToTargetChain_try_throws in E as ->.
    apply (bridgeToTargetChain_catch_outcome d sender receiver m w).
Qed.

(** ** config.ts *)

Lemma truthy_number_value (n : option number) :
  truthy (number_value n) = true -> exists x, n = Some x /\ truthy (JNumber x) = true.
Proof. destruct n as [x|]; [|discriminate]. intros H. exists x. split; [reflexivity | exact H]. Qed.

Lemma truthy_string_value (s : option string) :
  truthy (string_value s) = true -> exists x, s = Some x /\ x <> "".
Proof.
  destruct s as [x|]; [|discriminate]. cbn. intros H. exists x. split; [reflexivity|].
  apply negb_true_iff in H. apply String.eqb_neq. exact H.
Qed.

Lemma createBridgeConfig_returned e config m :
  createBridgeConfig e config = Returned m ->
  truthy (number_value (cfg_escrowAppId (cfg_algorand m))) = true /\
  truthy (number_value (cfg_carbonAssetId (cfg_algorand m))) = true /\
  truthy (string_value (cfg_bridgeContractAddress (cfg_targetChain m))) = true /\
  truthy (string_value (cfg_tokenContractAddress (cfg_targetChain m))) = true /\
  cfg_minVerifierSignatures m
    = spread_over (cfg_minVerifierSignatures defaultConfig) (opt_minVerifierSignatures config) /\
  cfg_verifiers m = spread_over (cfg_verifiers defaultConfig) (opt_verifiers config) /\
  cfg_targetChain m = merge_targetChain (cfg_targetChain defaultConfig) (opt_targetChain config) /\
  exists vs, cfg_verifiers m = Some vs /\
             num_lt (num_of_Z (Z.of_nat (length vs)))
                    (default JsNaN (cfg_minVerifierSignatures m)) = false.
Proof.
  unfold createBridgeConfig.
  destruct (truthy (number_value (cfg_escrowAppId _))) eqn:H1; cbn [negb]; [|discriminate].
  destruct (truthy (number_value (cfg_carbonAssetId _))) eqn:H2; cbn [negb]; [|discriminate].
  destruct (truthy (string_value (cfg_bridgeContractAddress _))) eqn:H3; cbn [negb];
    [|discriminate].
  destruct (truthy (string_value (cfg_tokenContractAddress _))) eqn:H4; cbn [negb];
    [|discriminate].
  destruct (spread_over (cfg_verifiers defaultConfig) (opt_verifiers config)) as [vs|] eqn:Hv;
    [|discriminate].
  destruct (num_lt _ _) eqn:Hlt; [discriminate|].
  set (algorand := merge_algorand (cfg_algorand defaultConfig) (opt_algorand config)) in *.
  assert (Hdone : forall algorand',
            cfg_escrowAppId algorand' = cfg_escrowAppId algorand ->
            cfg_carbonAssetId algorand' = cfg_carbonAssetId algorand ->
            forall m',
              m' = {| cfg_algorand := algorand';
                      cfg_targetChain :=
                        merge_targetChain (cfg_targetChain defaultConfig)
                          (opt_targetChain config);
                      cfg_verifiers := Some vs;
                      cfg_minVerifierSignatures :=
                        spread_over (cfg_minVerifierSignatures defaultConfig)
                          (opt_minVerifierSignatures config);
                      cfg_bridgeFee :=
                        spread_over (cfg_bridgeFee defaultConfig) (opt_bridgeFee config);
                      cfg_timeoutBlocks :=
                        spread_over (cfg_timeoutBlocks defaultConfig)
                          (opt_timeoutBlocks config) |} ->
              truthy (number_value (cfg_escrowAppId (cfg_algorand m'))) = true /\
              truthy (number_value (cfg_carbonAssetId (cfg_algorand m'))) = true /\
              truthy (string_value (cfg_bridgeContractAddress (cfg_targetChain m'))) = true /\
              truthy (string_value (cfg_tokenContractAddress (cfg_targetChain m'))) = true /\
              cfg_minVerifierSignatures m'
                = spread_over (cfg_minVerifierSignatures defaultConfig)
                    (opt_minVerifierSignatures config) /\
              cfg_verifiers m' = Some vs /\
              cfg_targetChain m'
                = merge_targetChain (cfg_targetChain defaultConfig) (opt_targetChain config) /\
              exists vs', cfg_verifiers m' = Some vs' /\
                num_lt (num_of_Z (Z.of_nat (length vs')))
                       (default JsNaN (cfg_minVerifierSignatures m')) = false).
  { intros algorand' E1 E2 m' ->.
    cbn [cfg_algorand cfg_targetChain cfg_verifiers cfg_minVerifierSignatures].
    rewrite E1, E2.
    split; [exact H1|]. split; [exact H2|]. split; [exact H3|]. split; [exact H4|].
    split; [reflexivity|]. split; [reflexivity|]. split; [reflexivity|].
    exists vs. split; [reflexivity|].
    destruct (spread_over _ (opt_minVerifierSignatures config)); exact Hlt. }
  destruct (env_set e "BRIDGE_ACCOUNT_MNEMONIC") as [mnemonic|].
  - destruct (cfg_bridgeAccount algorand) eqn:Hacc.
    + intros [= <-]. apply (Hdone algorand eq_refl eq_refl _ eq_refl).
    + destruct (mnemonicToSecretKey e mnemonic) as [account|].
      * intros [= <-].
        apply (Hdone (with_bridgeAccount algorand account) eq_refl eq_refl _ eq_refl).
      * intros [= <-]. apply (Hdone algorand eq_refl eq_refl _ eq_refl).
  - intros [= <-]. apply (Hdone algorand eq_refl eq_refl _ eq_refl).
Qed.

(** X20.  A configuration [createBridgeConfig] returns has passed its
    checks: the escrow application id and the carbon asset id are numbers
    other than zero and NaN, the two contract addresses are non-empty
    strings, the verifiers are a list, and a threshold that is a number is
    at most the number of verifiers. *)
Theorem createBridgeConfig_returns_checked_configuration (e : Environment)
    (config : PartialBridgeConfig) (m : MergedConfig) :
  createBridgeConfig e config = Returned m ->
  (exists appId, cfg_escrowAppId (cfg_algorand m) = Some appId /\
                 truthy (JNumber appId) = true) /\
  (exists assetId, cfg_carbonAssetId (cfg_algorand m) = Some assetId /\
                   truthy (JNumber assetId) = true) /\
  (exists address, cfg_bridgeContractAddress (cfg_targetChain m) = Some address /\
                   address <> "") /\
  (exists address, cfg_tokenContractAddress (cfg_targetChain m) = Some address /\
                   address <> "") /\
  exists vs,
    cfg_verifiers m = Some vs /\
    forall threshold : Q,
      cfg_minVerifierSignatures m = Some (JsNum threshold) ->
      (threshold <= inject_Z (Z.of_nat (length vs)))%Q.
Proof.
  intros H. apply createBridgeConfig_returned in H
    as (H1 & H2 & H3 & H4 & _ & _ & _ & vs & Hv & Hlt).
  split; [apply truthy_number_value, H1|].
  split; [apply truthy_number_value, H2|].
  split; [apply truthy_string_value, H3|].
  split; [apply truthy_string_value, H4|].
  exists vs. split; [exact Hv|]. intros threshold Ht. rewrite Ht in Hlt.
  unfold num_lt, num_gt, num_of_Z, num_le in Hlt. cbn [default] in Hlt.
  apply negb_false_iff, Qle_bool_iff in Hlt. exact Hlt.
Qed.

(** The quick-start configuration with two verifiers and the default
    threshold. *)
Lemma createBridgeConfig_returns_checked_configuration_witness :
  exists m vs,
    createBridgeConfig empty_environment
      {| opt_algorand := opt_algorand quick_start_config;
         opt_targetChain := opt_targetChain quick_start_config;
         opt_verifiers := Given ["https://verifier-1"; "https://verifier-2"];
         opt_minVerifierSignatures := Absent;
         opt_bridgeFee := Absent; opt_timeoutBlocks := Absent |} = Returned m /\
    cfg_verifiers m = Some vs /\
    cfg_minVerifierSignatures m = Some (JsNum 2) /\
    (2 <= inject_Z (Z.of_nat (length vs)))%Q.
Proof.
  eexists. 
  destruct (createBridgeConfig_returns_checked_configuration empty_environment
              {| opt_algorand := opt_algorand quick_start_config;
                 opt_targetChain := opt_targetChain quick_start_config;
                 opt_verifiers := Given ["https://verifier-1"; "https://verifier-2"];
                 opt_minVerifierSignatures := Absent;
                 opt_bridgeFee := Absent; opt_timeoutBlocks := Absent |} _ eq_refl)
    as (_ & _ & _ & _ & vs & Hv & Ht).
  exists vs. split; [reflexivity|]. split; [exact Hv|]. split; [reflexivity|].
  apply Ht. reflexivity.
Defined.

(** X21.  The threshold a new bridge runs on is the one of the configuration
    handed to the constructor; when that names none, the one parsed from
    [MIN_VERIFIER_SIGNATURES]; when that is not set either, [undefined].
    The default of [defaultConfig] never applies: [loadConfigFromEnv]
    writes the property whether the variable is set or not, and a property
    that is present wins over the default.  With an undefined threshold any
    number of verifiers passes the check on their number. *)
Theorem constructor_threshold_is_never_the_default (e : Environment)
    (config : PartialBridgeConfig) (m : MergedConfig) :
  constructor_config e config = Returned m ->
  cfg_minVerifierSignatures m
    = match opt_minVerifierSignatures config with
      | Given threshold => Some threshold
      | Undefined => None
      | Absent =>
          match env_set e "MIN_VERIFIER_SIGNATURES" with
          | Some s => Some (parseInt e s)
          | None => None
          end
      end.
Proof.
  unfold constructor_config. intros H.
  destruct (createBridgeConfig e _) as [merged|] eqn:E; [|discriminate].
  cbn in H. destruct (bool_decide _); [|discriminate]. injection H as <-.
  apply createBridgeConfig_returned in E as (_ & _ & _ & _ & E & _).
  rewrite E. cbn [opt_minVerifierSignatures loadConfigFromEnv].
  destruct (opt_minVerifierSignatures config); cbn [spread_partial spread_over];
    try reflexivity.
  unfold env_parsed. destruct (env_set e _); reflexivity.
Qed.

(** The quick-start configuration in a process with no variable set: the
    bridge is built with no verifiers and an undefined threshold. *)
Lemma constructor_threshold_is_never_the_default_witness :
  exists m,
    constructor_config empty_environment quick_start_config = Returned m /\
    cfg_minVerifierSignatures m = None /\ cfg_verifiers m = Some [].
Proof.
  eexists. split; [reflexivity|]. split; [|reflexivity].
  apply (constructor_threshold_is_never_the_default empty_environment quick_start_config).
  reflexivity.
Defined.

(** ** processBurnEvent *)

Lemma argument_by_position (args : list JsValue) :
  nth 0 args JUndefined = argument_named TokensBurned_inputs args "bridgeId" /\
  nth 1 args JUndefined = argument_named TokensBurned_inputs args "sender" /\
  nth 2 args JUndefined = argument_named TokensBurned_inputs args "algorandReceiver".
Proof.
  destruct args as [|a0 [|a1 [|a2 [|a3 rest]]]]; repeat split.
Qed.

(** X22.  [processBurnEvent] returns [null] and emits nothing when the
    receipt cannot be had or holds no "TokensBurned" event of the bridge
    contract.  Otherwise it emits one burn event and returns the
    transaction of that event, built from the first such event: marked
    burned, with the transaction hash as its source transaction id and the
    sender of the receipt as its sender.  Its id, amount and receiver are
    the first three arguments of the event, which the ABI declares as
    [bridgeId], [sender] and [algorandReceiver]: the amount of the
    transaction is the event's [sender] argument, and the event's [amount]
    argument is not read. *)
Theorem processBurnEvent_reads_arguments_by_position (d : Deployment) (node : EthereumNode)
    (transactionHash : string) :
  let run := processBurnEvent d node transactionHash in
  (forall receipt,
      getTransactionReceipt node transactionHash = Returned (Some receipt) ->
      forall burnEvent others,
        burnEvents_of d node receipt = burnEvent :: others ->
        exists tx details,
          run = ([(EV_BURN, tx, details)], Some tx) /\
          get_property tx "status" = JString "burned" /\
          get_property tx "sourceTransactionId" = JString transactionHash /\
          get_property tx "sender" = JString (receipt_from receipt) /\
          get_property tx "id"
            = argument_named TokensBurned_inputs (description_args burnEvent) "bridgeId" /\
          get_property tx "amount"
            = argument_named TokensBurned_inputs (description_args burnEvent) "sender" /\
          get_property tx "receiver"
            = argument_named TokensBurned_inputs (description_args burnEvent)
                "algorandReceiver") /\
  ((forall receipt,
       getTransactionReceipt node transactionHash = Returned (Some receipt) ->
       burnEvents_of d node receipt = []) ->
   run = ([], None)).
Proof.
  cbv zeta. unfold processBurnEvent. split.
  - intros receipt -> burnEvent others ->.
    destruct (argument_by_position (description_args burnEvent)) as (A0 & A1 & A2).
    eexists. eexists. split; [reflexivity|].
    cbn [get_property lookup_field String.eqb Ascii.eqb Bool.eqb default].
    repeat split; assumption.
  - intros H. destruct (getTransactionReceipt node transactionHash) as [[receipt|]|m];
      try reflexivity.
    rewrite (H receipt eq_refl). reflexivity.
Qed.

(** A burn of 40 units by "0xburner": the transaction's amount is the
    burner's address. *)
Lemma processBurnEvent_reads_arguments_by_position_witness :
  exists tx details,
    processBurnEvent (sample_deployment 2) sample_node "0xburnhash"
      = ([(EV_BURN, tx, details)], Some tx) /\
    get_property tx "sender" = JString "0xburner" /\
    get_property tx "amount" = JString "0xburner" /\
    get_property tx "receiver" = JString "ALGORECEIVER".
Proof.
  destruct (processBurnEvent_reads_arguments_by_position (sample_deployment 2) sample_node
              "0xburnhash") as [H _].
  destruct (H _ eq_refl _ _ eq_refl) as (tx & details & H1 & _ & _ & H2 & _ & H3 & H4).
  exists tx, details. repeat split; assumption.
Defined.

(** ** A successful lock and the events it leaves *)

Lemma handleLockEvent_unverified_events d event w r :
  let tx := ev_transaction event in
  verifyTransaction d tx (snd (store_set (tx_id tx) tx w))
    = (Returned r, snd (store_set (tx_id tx) tx w)) ->
  isValid r = false ->
  exists later,
    emitted (snd (handleLockEvent d event w))
      = (emitted w
         ++ event_of d EV_ERROR tx (VerificationFailedDetails (vr_error r)) :: later)%list.
Proof.
  cbv zeta. intros E V. unfold handleLockEvent, try_catch, mbind, Run_bind.
  cbn [store_set snd] in *. rewrite E, V.
  unfold emitBridgeEvent. cbn [record_event subscriptions set_transactions emitted].
  destruct (_ && _); cbn [snd emitted].
  - rewrite bool_decide_eq_true_2 by reflexivity. cbn [andb].
    destruct (negb _); cbn [snd emitted record_event set_transactions]; eexists;
      rewrite <- app_assoc; reflexivity.
  - exists []. reflexivity.
Qed.

(** X23.  A call of [bridgeToTargetChain] that returns a success has emitted
    the lock event for the new transaction and, right after it, an error
    event for the same transaction that reports a failed verification with
    its reason: the new transaction names no transaction of its source
    chain yet, so the verification the lock listener runs on it fails. *)
Theorem successful_lock_is_followed_by_a_verification_error (d : Deployment)
    (sender receiver : string) (amount : AmountArgument) (metadata : JsValue) (w : World)
    (r : BridgeResult) :
  fst (bridgeToTargetChain d sender receiver amount metadata w) = Returned r ->
  success r = true ->
  exists lockEvent errorEvent reason later,
    emitted (snd (bridgeToTargetChain d sender receiver amount metadata w))
      = (emitted w ++ lockEvent :: errorEvent :: later)%list /\
    ev_type lockEvent = EV_LOCK /\ ev_type errorEvent = EV_ERROR /\
    tx_id (ev_transaction lockEvent) = bridgeId r /\
    ev_transaction errorEvent = ev_transaction lockEvent /\
    ev_details errorEvent = VerificationFailedDetails (Some reason).
Proof.
  unfold bridgeToTargetChain, try_catch.
  destruct (bridgeToTargetChain_try d sender receiver amount metadata w)
    as [[res|m] w'] eqn:E.
  - cbn [fst snd]. intros [= ->] Hs.
    apply bridgeToTargetChain_try_returned in E as (fs & fr & _ & _ & E).
    revert E. unfold lockCarbonCredits, lockCarbonCredits_try, try_catch, mbind, Run_bind,
      lift, throw, generateBridgeId, record_call.
    cbn [transactions subscriptions emitted adapterCalls idsDrawn].
    destruct (algorand_bridgeAccount (config d)); [|intros [= <- _]; discriminate].
    destruct (algod_getTransactionParams (outside d)) as [firstRound|];
      [|intros [= <- _]; discriminate].
    destruct (algosdk_buildLockGroup (outside d) _ fs fr _) as [group|];
      [|intros [= <- _]; discriminate].
    unfold emitBridgeEvent.
    match goal with
    | |- context [handleLockEvent d ?e ?w1] =>
        destruct (verifyTransaction_unsubmitted d (ev_transaction e)
                    (snd (store_set (tx_id (ev_transaction e)) (ev_transaction e) w1))
                    eq_refl (isTransactionTimedOut_at_now _)) as (v & Ev & V & _ & Herr);
        destruct (handleLockEvent_unverified_events d e w1 v Ev V) as (later & Hl);
        destruct (handleLockEvent d e w1) as [o w2]
    end.
    cbn [fst snd ev_transaction tx_id record_event emitted mret Run_ret] in *.
    intros [= <- <-].
    destruct (vr_error v) as [reason|] eqn:Hreason; [|congruence].
    eexists. eexists. exists reason, later. rewrite Hl, <- app_assoc.
    split; [reflexivity|]. repeat split.
  - cbn [fst]. intros Hr Hs. apply bridgeToTargetChain_try_throws in E as ->.
    unfold bridgeToTargetChain_catch, mbind, Run_bind, generateBridgeId, emitBridgeEvent in Hr.
    cbn [record_event subscriptions] in Hr.
    destruct (_ && _) in Hr; [discriminate|].
    cbn in Hr. injection Hr as <-. discriminate.
Qed.

(** A hundred credits, bridged on the sample deployment. *)
Lemma successful_lock_is_followed_by_a_verification_error_witness :
  exists lockEvent errorEvent reason later,
    emitted (snd (bridgeToTargetChain (sample_deployment 0) "ALGOSENDER" "0xreceiver"
                    (AmountNumber (num_of_Z 100)) JUndefined fresh_world))
      = lockEvent :: errorEvent :: later /\
    ev_type lockEvent = EV_LOCK /\ ev_type errorEvent = EV_ERROR /\
    tx_id (ev_transaction lockEvent) = "a3f1c2d4e5b6a7980011" /\
    ev_details errorEvent = VerificationFailedDetails (Some reason).
Proof.
  destruct (successful_lock_is_followed_by_a_verification_error (sample_deployment 0)
              "ALGOSENDER" "0xreceiver" (AmountNumber (num_of_Z 100)) JUndefined fresh_world
              _ eq_refl eq_refl)
    as (lockEvent & errorEvent & reason & later & H1 & H2 & H3 & H4 & _ & H5).
  exists lockEvent, errorEvent, reason, later. repeat split; assumption.
Defined.
